(** * Resilience layer of the call-and-transcribe pipeline

    A shallow embedding of [PlivoResilient] and [DeepgramResilient]
    (the two resilient facades of the repository) together with the retry
    engine [executeWithRetry] they both carry, and the circuit breaker
    they gate their calls with.

    JavaScript numbers are embedded as exact numbers where the layer
    counts and configures: counters and loop indices as [Z], millisecond
    values and the backoff multiplier as [Q]; the seconds and
    confidences of a transcription, which the Deepgram manager adds and
    divides, are doubles.  Promises are embedded by their settlement; an
    [async] function is a computation in the monad [M] below (state,
    console/timer trace, rejection).  Time is that of the clock of the
    outside world, which runs while a call of a manager is under way,
    and of the timers this layer sleeps on. *)

From Stdlib Require Import ZArith QArith Qminmax Qpower Qround Qabs.
From Stdlib Require Import Bool String List Lia.
From Stdlib Require DecimalString.
From Equations Require Import Equations.
Import ListNotations.

Set Implicit Arguments.
Set Default Goal Selector "!".

Local Open Scope string_scope.
Local Open Scope list_scope.
Local Open Scope Z_scope.

(* ================================================================== *)
(** ** JavaScript values that cross the layer *)
(* ================================================================== *)

(** [new Error(message)]. *)
Record JsError : Type := mkError { message : string }.

(** What a [throw] or a rejected promise carries: an [Error] instance, or
    any other value, kept by its [String(...)] rendering. *)
Inductive thrown : Type :=
| ThrownError (e : JsError)
| ThrownValue (rendering : string).

(** [error instanceof Error ? error : new Error(String(error))] *)
Definition asError (error : thrown) : JsError :=
  match error with
  | ThrownError e => e
  | ThrownValue rendering => mkError rendering
  end.

(** [throw lastError] with [lastError : Error | undefined]. *)
Definition throwable (lastError : option JsError) : thrown :=
  match lastError with
  | Some e => ThrownError e
  | None => ThrownValue "undefined"
  end.

(** [String(b)] for a boolean. *)
Definition String_of_bool (b : bool) : string :=
  if b then "true" else "false".

(** [x || d] on an optional number: [undefined] and [0] are falsy, every
    other number stands. *)
Definition orZ (x : option Z) (d : Z) : Z :=
  match x with
  | Some v => if v =? 0 then d else v
  | None => d
  end.

Definition orQ (x : option Q) (d : Q) : Q :=
  match x with
  | Some v => if Qeq_bool v 0 then d else v
  | None => d
  end.

(* ================================================================== *)
(** ** Settled promises, observable events, the monad of async code *)
(* ================================================================== *)

Inductive settled (A : Type) : Type :=
| Fulfilled (value : A)
| Rejected (reason : thrown).
Arguments Fulfilled {A} value.
Arguments Rejected {A} reason.

(** A piece of a template literal or a console argument. *)
Inductive piece : Type :=
| Str (s : string)
| Int (z : Z)
| Num (q : Q)
| Err (e : thrown).

Inductive level : Type := Warn | Info | Error.

(** What a run leaves behind besides its result: console lines and the
    timers it slept on, in the order they happened. *)
Inductive event : Type :=
| Console (l : level) (line : list piece)
| Sleep (ms : Q).

Definition trace : Type := list event.

(** An [async] computation over a state [St]: it settles, leaves a state
    and a trace. *)
Definition M (St A : Type) : Type := St -> settled A * St * trace.

Definition ret {St A : Type} (a : A) : M St A :=
  fun st => (Fulfilled a, st, []).

Definition throw {St A : Type} (e : thrown) : M St A :=
  fun st => (Rejected e, st, []).

Definition bind {St A B : Type} (m : M St A) (k : A -> M St B) : M St B :=
  fun st =>
    match m st with
    | (Fulfilled a, st1, t1) =>
        let '(r, st2, t2) := k a st1 in (r, st2, t1 ++ t2)
    | (Rejected e, st1, t1) => (Rejected e, st1, t1)
    end.

(** [try { m } catch (error) { handler error }] *)
Definition try_catch {St A : Type} (m : M St A) (handler : thrown -> M St A)
  : M St A :=
  fun st =>
    match m st with
    | (Fulfilled a, st1, t1) => (Fulfilled a, st1, t1)
    | (Rejected e, st1, t1) =>
        let '(r, st2, t2) := handler e st1 in (r, st2, t1 ++ t2)
    end.

Definition emit {St : Type} (e : event) : M St unit :=
  fun st => (Fulfilled tt, st, [e]).

Definition gets {St A : Type} (f : St -> A) : M St A :=
  fun st => (Fulfilled (f st), st, []).

Definition modify {St : Type} (f : St -> St) : M St unit :=
  fun st => (Fulfilled tt, f st, []).

Declare Scope async_scope.
Delimit Scope async_scope with async.
Notation "x <- m ;; k" := (bind m (fun x => k))
  (at level 61, m at next level, right associativity) : async_scope.
Notation "m ;;; k" := (bind m (fun _ => k))
  (at level 61, right associativity) : async_scope.
Local Open Scope async_scope.

(** [console.warn(...)], [console.info(...)], [console.error(...)] *)
Module console.
Definition warn {St : Type} (line : list piece) : M St unit :=
  emit (Console Warn line).
Definition info {St : Type} (line : list piece) : M St unit :=
  emit (Console Info line).
Definition error {St : Type} (line : list piece) : M St unit :=
  emit (Console Error line).
End console.

(** [await this.sleep(ms)] *)
Definition sleep {St : Type} (ms : Q) : M St unit :=
  emit (Sleep ms).

(** An operation of the outside world [W] (an HTTP call of a manager):
    it settles and leaves the world changed.  What it prints is part of
    the world; the trace of [M] holds the events of this layer only. *)
Definition Op (W T : Type) : Type := W -> settled T * W.

Definition call {W T : Type} (op : Op W T) : M W T :=
  fun w => let '(r, w1) := op w in (r, w1, []).

(* ================================================================== *)
(** ** Time *)
(* ================================================================== *)

(** The clock of the outside world ([Date.now()]): [now w] is the time,
    in milliseconds, that has passed in the world [w].  It runs on while
    an operation of the world is under way; the time this layer spends
    waiting is that of its timers, which the trace keeps. *)
Class Clock (W : Type) : Type := now : W -> Q.

(** The time a timer set to [ms] milliseconds takes to fire
    ([setTimeout(f, ms)]): the runtime takes a delay below [1] or above
    [2^31 - 1] for [1], and drops the fraction of any other. *)
Definition timer (ms : Q) : Q :=
  if Qle_bool 1 ms && Qle_bool ms 2147483647
  then inject_Z (Qfloor ms)
  else 1.

(** The timers a run slept on, and the time it has spent on them. *)
Definition sleeps (tr : trace) : list Q :=
  flat_map (fun e => match e with Sleep ms => [ms] | _ => [] end) tr.

Definition slept (tr : trace) : Q :=
  fold_right (fun ms rest => timer ms + rest)%Q 0%Q (sleeps tr).

(** The time between two states of the world, for a run with the trace
    [tr] in between. *)
Definition elapsed {W : Type} `{Clock W} (w w' : W) (tr : trace) : Q :=
  (now w' - now w + slept tr)%Q.

(** [String(n)] for a whole number. *)
Definition String_of_number (n : Z) : string :=
  DecimalString.NilZero.string_of_int (Z.to_int n).

(** The decimals of [r / d], a fraction below [1], as far as they go,
    twenty at most. *)
Fixpoint decimals (places : nat) (r d : Z) : string :=
  match places with
  | O => EmptyString
  | S places' =>
      if r =? 0 then EmptyString
      else (String_of_number (10 * r / d) ++
            decimals places' (10 * r mod d) d)%string
  end.

(** [String(ms)] for a number of milliseconds: its digits, and those
    after the point when it is not whole. *)
Definition String_of_ms (ms : Q) : string :=
  let whole := Qfloor (Qabs ms) in
  let rest := Qnum (Qabs ms) - whole * Z.pos (Qden ms) in
  ((if Qle_bool 0 ms then EmptyString else "-") ++
   String_of_number whole ++
   (if Z.eqb rest 0 then EmptyString
    else "." ++ decimals 20 rest (Z.pos (Qden ms))))%string.

(** Running a computation of a smaller state inside a larger one. *)
Record Lens (S A : Type) : Type := mkLens {
  view : S -> A;
  update : A -> S -> S
}.

Definition zoom {S A B : Type} (l : Lens S A) (m : M A B) : M S B :=
  fun st =>
    let '(r, a, t) := m (view l st) in (r, update l a st, t).

(* ================================================================== *)
(** ** The retry engine: [executeWithRetry] *)
(* ================================================================== *)

(** [Math.min(retryDelay * Math.pow(retryMultiplier, attempt), maxRetryDelay)] *)
Definition delay (retryDelay retryMultiplier maxRetryDelay : Q) (attempt : Z) : Q :=
  Qmin (retryDelay * retryMultiplier ^ attempt) maxRetryDelay.

Section RetryLoop.
Context {St T : Type}.
(** The class the engine belongs to: ["[PlivoResilient]"] or
    ["[DeepgramResilient]"]. *)
Variable tag : string.
Variable maxRetries : Z.
Variables retryDelay retryMultiplier maxRetryDelay : Q.
Variable operation : M St T.
Variable operationName : string.

(** The [catch] block of the loop body. *)
Definition on_failure (attempt : Z) (lastError : JsError) : M St unit :=
  if attempt <? maxRetries then
    let delay := delay retryDelay retryMultiplier maxRetryDelay attempt in
    console.warn
      [Str tag; Str " "; Str operationName; Str " failed (attempt ";
       Int (attempt + 1); Str "/"; Int (maxRetries + 1); Str "). ";
       Str "Retrying in "; Num delay; Str "ms...";
       Str (message lastError)] ;;;
    sleep delay
  else
    console.error
      [Str tag; Str " "; Str operationName; Str " failed after ";
       Int (maxRetries + 1); Str " attempts";
       Str (message lastError)].

(** [for (let attempt = 0; attempt <= maxRetries; attempt++) { ... }]
    followed by [throw lastError]. *)
Equations? (noeqns noind) retry_loop (attempt : Z)
  : option JsError -> M St T
  by wf (Z.to_nat (maxRetries + 1 - attempt)) lt :=
  retry_loop attempt with Z_le_dec attempt maxRetries := {
    | left _ => fun lastError =>
        try_catch operation
          (fun error =>
             let lastError := asError error in
             on_failure attempt lastError ;;;
             retry_loop (attempt + 1) (Some lastError))
    | right _ => fun lastError => throw (throwable lastError) }.
Proof. lia. Qed.

End RetryLoop.


(** The recognised resilience options of a facade configuration
    ([PlivoResilientConfig], [DeepgramResilientConfig]); every key is
    optional. *)
Record ResilientConfig : Type := {
  circuitBreakerTimeout : option Q;
  circuitBreakerErrorThresholdPercentage : option Q;
  circuitBreakerResetTimeout : option Q;
  circuitBreakerRollingCountTimeout : option Q;
  circuitBreakerRollingCountBuckets : option Z;
  maxRetries : option Z;
  retryDelay : option Q;
  retryMultiplier : option Q;
  maxRetryDelay : option Q
}.

(** [{ ...defaults, ...config }] *)
Definition with_defaults (defaults config : ResilientConfig) : ResilientConfig :=
  let key {A : Type} (f : ResilientConfig -> option A) : option A :=
    match f config with
    | Some v => Some v
    | None => f defaults
    end in
  {| circuitBreakerTimeout := key circuitBreakerTimeout;
     circuitBreakerErrorThresholdPercentage :=
       key circuitBreakerErrorThresholdPercentage;
     circuitBreakerResetTimeout := key circuitBreakerResetTimeout;
     circuitBreakerRollingCountTimeout := key circuitBreakerRollingCountTimeout;
     circuitBreakerRollingCountBuckets := key circuitBreakerRollingCountBuckets;
     maxRetries := key maxRetries;
     retryDelay := key retryDelay;
     retryMultiplier := key retryMultiplier;
     maxRetryDelay := key maxRetryDelay |}.

(* ================================================================== *)
(** ** The circuit breaker *)
(* ================================================================== *)

(** Modelled from the spec: the [CircuitBreaker] class is the one of the
    [opossum] package, which the facades import and the repository does
    not contain.  The model follows the specification's sections 3 and
    4.3 and 5: three states, a rolling window of samples, [fire] that
    fails at once when open and otherwise runs the operation once and
    counts its outcome as one sample; a run that outlasts [timeout] is
    counted as a failure, whatever it settles with.  The rotation of the
    window is driven by a timer and has no counterpart here; the reset
    timer is the explicit step [resetTimeoutElapsed]. *)
Module CircuitBreaker.

Inductive State : Type := closed | open | halfOpen.

Inductive sample : Type := Success | Failure | Reject.

(** The events a listener can be registered for. *)
Inductive Event : Type := on_open | on_halfOpen | on_close | on_fallback.

Record Options : Type := {
  timeout : option Q;
  errorThresholdPercentage : option Q;
  resetTimeout : option Q;
  rollingCountTimeout : option Q;
  rollingCountBuckets : option Z;
  name : string
}.

Record t : Type := {
  options : Options;
  state : State;
  window : list sample;
  listeners : Event -> trace
}.

(** [new CircuitBreaker(action, options)] *)
Definition new (options : Options) : t :=
  {| options := options; state := closed; window := [];
     listeners := fun _ => [] |}.

Definition Event_eqb (a b : Event) : bool :=
  match a, b with
  | on_open, on_open | on_halfOpen, on_halfOpen
  | on_close, on_close | on_fallback, on_fallback => true
  | _, _ => false
  end.

(** [breaker.on(event, handler)], the handler given by what it prints. *)
Definition on (e : Event) (handler : trace) (b : t) : t :=
  {| options := options b; state := state b; window := window b;
     listeners := fun e' =>
       if Event_eqb e e' then listeners b e' ++ handler
       else listeners b e' |}.

(** [breaker.opened] *)
Definition opened (b : t) : bool :=
  match state b with
  | open => true
  | _ => false
  end.

Definition is_failure (s : sample) : bool :=
  match s with
  | Failure => true
  | _ => false
  end.

Definition is_success (s : sample) : bool :=
  match s with
  | Success => true
  | _ => false
  end.

(** The rolling statistics. *)
Definition fires (b : t) : nat := length (window b).
Definition failures (b : t) : nat := length (filter is_failure (window b)).
Definition successes (b : t) : nat := length (filter is_success (window b)).

(** Error percentage over the window. *)
Definition errorPercentage (b : t) : Q :=
  (inject_Z (Z.of_nat (failures b)) * 100) / inject_Z (Z.of_nat (fires b)).

Definition threshold (b : t) : Q :=
  match errorThresholdPercentage (options b) with
  | Some p => p
  | None => 50
  end.

Definition set_state (s : State) (b : t) : t :=
  {| options := options b; state := s; window := window b;
     listeners := listeners b |}.

Definition record (s : sample) (b : t) : t :=
  {| options := options b; state := state b; window := window b ++ [s];
     listeners := listeners b |}.

(** A transition, announced to the listeners of its event. *)
Definition transition (s : State) (e : Event) : M t unit :=
  fun b => (Fulfilled tt, set_state s b, listeners b e).

(** The outcome of a trial that went through. *)
Definition succeed : M t unit :=
  modify (record Success) ;;;
  s <- gets state ;;
  match s with
  | halfOpen => transition closed on_close
  | _ => ret tt
  end.

Definition fail : M t unit :=
  modify (record Failure) ;;;
  b <- gets (fun b => b) ;;
  match state b with
  | halfOpen => transition open on_open
  | closed =>
      if Qle_bool (threshold b) (errorPercentage b)
      then transition open on_open
      else ret tt
  | open => ret tt
  end.

Definition circuit_open : thrown := ThrownError (mkError "Breaker is open").

(** The deadline of a fire: the timer of [timeout] milliseconds set
    when the operation is started.  The library takes an absent
    [timeout] for [10000], and sets no timer for a [timeout] of [0]. *)
Definition deadline (b : t) : option Q :=
  match timeout (options b) with
  | None => Some (timer 10000)
  | Some ms => if Qeq_bool ms 0 then None else Some (timer ms)
  end.

(** The run of an operation that took [elapsed] milliseconds was still
    under way when the deadline came. *)
Definition late (b : t) (elapsed : Q) : bool :=
  match deadline b with
  | Some ms => Qle_bool ms elapsed
  | None => false
  end.

Definition timed_out (b : t) : thrown :=
  let ms := match timeout (options b) with
            | Some ms => ms
            | None => 10000%Q
            end in
  ThrownError
    (mkError ("Timed out after " ++ String_of_ms ms ++ "ms")%string).

(** What a fire makes of the settlement of its operation: a run that
    was late has timed out, whatever it settled with afterwards. *)
Definition verdict {T : Type} (b : t) (elapsed : Q) (outcome : settled T)
  : settled T :=
  if late b elapsed then Rejected (timed_out b) else outcome.

(** The settlement of a computation and the time it slept, as a
    value. *)
Definition timed {St A : Type} (m : M St A) : M St (settled A * Q) :=
  fun st => let '(r, st1, t1) := m st in (Fulfilled (r, slept t1), st1, t1).

(** [breaker.fire(operation)], for the breaker found at [breaker] in the
    state, [clock] telling the time of the state; the action of every
    breaker of the facades is [async (fn) => fn()].  Nothing cancels
    the operation, which has no abort signal to listen to: a run that
    is late goes on to its end, and what it does is done.  The fire is
    settled, and the sample counted, after the run, where the library
    does both at the deadline. *)
Definition fire {St T : Type} (breaker : Lens St t) (clock : St -> Q)
    (operation : M St T) : M St T :=
  b <- gets (view breaker) ;;
  match state b with
  | open =>
      zoom breaker (modify (record Reject)) ;;;
      throw circuit_open
  | closed | halfOpen =>
      started <- gets clock ;;
      run <- timed operation ;;
      ended <- gets clock ;;
      match verdict b (ended - started + snd run)%Q (fst run) with
      | Fulfilled result => zoom breaker succeed ;;; ret result
      | Rejected reason => zoom breaker fail ;;; throw reason
      end
  end.

(** [breaker.close()]: back to closed, whatever the statistics. *)
Definition close : M t unit :=
  s <- gets state ;;
  match s with
  | closed => ret tt
  | _ => transition closed on_close
  end.

(** The reset timer of an open breaker runs out. *)
Definition resetTimeoutElapsed : M t unit :=
  s <- gets state ;;
  match s with
  | open => transition halfOpen on_halfOpen
  | _ => ret tt
  end.

End CircuitBreaker.

(* ================================================================== *)
(** ** What both facades share *)
(* ================================================================== *)

(** [CallResult<T>] and [TranscriptionResult<T>]: the result envelope. *)
Record ResultEnvelope (T : Type) : Type := {
  success : bool;
  data : option T;
  error : option JsError;
  retryCount : option Z;
  circuitBreakerState : option string
}.


Definition fstL {A B : Type} : Lens (A * B) A :=
  {| view := fst; update := fun a p => (a, snd p) |}.

Definition sndL {A B : Type} : Lens (A * B) B :=
  {| view := snd; update := fun b p => (fst p, b) |}.

Definition composeL {A B C : Type} (l : Lens A B) (k : Lens B C) : Lens A C :=
  {| view := fun a => view k (view l a);
     update := fun c a => update l (update k c (view l a)) a |}.

(** A block with one local variable [let x = init], which the closures of
    the block may assign. *)
Definition with_local {L St A : Type} (init : L) (body : M (L * St) A)
  : M St A :=
  fun st => let '(r, (_, st1), t) := body (init, st) in (r, st1, t).

(* ================================================================== *)
(** ** The Plivo manager, as the facade sees it *)
(* ================================================================== *)

Module InitiateRecordedCallRequest.
Record t : Type := {
  to : string;
  from : option string;
  callerName : option string;
  timeLimit : option Q;
  recordingCallback : option string;
  answerCallback : option string
}.
End InitiateRecordedCallRequest.

Module InitiateRecordedCallResponse.
Record t : Type := {
  success : bool;
  callUuid : string;
  message : string;
  apiId : string
}.
End InitiateRecordedCallResponse.

Module MakeCallResponse.
Record t : Type := {
  message : string;
  request_uuid : string;
  api_id : string
}.
End MakeCallResponse.

Module TerminateCallResponse.
Record t : Type := {
  success : bool;
  message : string
}.
End TerminateCallResponse.

(** The methods of [PlivoManager] the facade delegates to; each is an
    asynchronous operation on the outside world [W].  The response of
    [getCallDetails] is passed through untouched and stays abstract. *)
Module PlivoManager.
Record t (W GetCallDetailsResponse : Type) : Type := {
  initiateRecordedCall :
    InitiateRecordedCallRequest.t -> Op W InitiateRecordedCallResponse.t;
  makeCall :
    string -> option string -> option string -> Op W MakeCallResponse.t;
  getCallDetails : string -> Op W GetCallDetailsResponse;
  terminateCall : string -> Op W TerminateCallResponse.t;
  waitForRecording :
    string -> Z -> Q -> Op W (option GetCallDetailsResponse)
}.
End PlivoManager.

(* ================================================================== *)
(** ** [PlivoResilient] *)
(* ================================================================== *)

(** [{ callUuid: string; message: string; apiId: string }] *)
Module InitiatedCall.
Record t : Type := {
  callUuid : string;
  message : string;
  apiId : string
}.
End InitiatedCall.

(** [{ message: string }] *)
Module TerminatedCall.
Record t : Type := { message : string }.
End TerminatedCall.

Module PlivoResilient.
Section Class.
Context {W GetCallDetailsResponse : Type} `{Clock W}.

Definition CallResult : Type -> Type := ResultEnvelope.

Record t : Type := {
  manager : PlivoManager.t W GetCallDetailsResponse;
  config : ResilientConfig;
  makeCallBreaker : CircuitBreaker.t;
  getCallDetailsBreaker : CircuitBreaker.t
}.

Definition tag : string := "[PlivoResilient]".

Definition defaults : ResilientConfig :=
  {| circuitBreakerTimeout := Some 30000%Q;
     circuitBreakerErrorThresholdPercentage := Some 50%Q;
     circuitBreakerResetTimeout := Some 30000%Q;
     circuitBreakerRollingCountTimeout := Some 10000%Q;
     circuitBreakerRollingCountBuckets := Some 10;
     maxRetries := Some 3;
     retryDelay := Some 1000%Q;
     retryMultiplier := Some 2%Q;
     maxRetryDelay := Some 10000%Q |}.

Definition createCircuitBreaker (config : ResilientConfig) (name : string)
  : CircuitBreaker.t :=
  CircuitBreaker.new
    {| CircuitBreaker.timeout := circuitBreakerTimeout config;
       CircuitBreaker.errorThresholdPercentage :=
         circuitBreakerErrorThresholdPercentage config;
       CircuitBreaker.resetTimeout := circuitBreakerResetTimeout config;
       CircuitBreaker.rollingCountTimeout :=
         circuitBreakerRollingCountTimeout config;
       CircuitBreaker.rollingCountBuckets :=
         circuitBreakerRollingCountBuckets config;
       CircuitBreaker.name := name |}.

Definition setupCircuitBreakerListeners (breaker : CircuitBreaker.t)
    (name : string) : CircuitBreaker.t :=
  let line (l : level) (what : string) : trace :=
    [Console l [Str tag; Str " Circuit breaker '"; Str name; Str "' ";
                Str what]] in
  CircuitBreaker.on CircuitBreaker.on_fallback
    (line Warn "fallback triggered")
    (CircuitBreaker.on CircuitBreaker.on_close (line Info "closed")
       (CircuitBreaker.on CircuitBreaker.on_halfOpen (line Info "half-open")
          (CircuitBreaker.on CircuitBreaker.on_open (line Warn "opened")
             breaker))).

(** [new PlivoResilient(config)]; the manager the constructor builds
    from the same configuration is taken as given. *)
Definition constructor (config : ResilientConfig)
    (manager : PlivoManager.t W GetCallDetailsResponse) : t :=
  let config := with_defaults defaults config in
  {| manager := manager;
     config := config;
     makeCallBreaker :=
       setupCircuitBreakerListeners
         (createCircuitBreaker config "makeCall") "makeCall";
     getCallDetailsBreaker :=
       setupCircuitBreakerListeners
         (createCircuitBreaker config "getCallDetails") "getCallDetails" |}.

Definition makeCallBreakerL : Lens t CircuitBreaker.t :=
  {| view := makeCallBreaker;
     update := fun b this =>
       {| manager := manager this; config := config this;
          makeCallBreaker := b;
          getCallDetailsBreaker := getCallDetailsBreaker this |} |}.

Definition getCallDetailsBreakerL : Lens t CircuitBreaker.t :=
  {| view := getCallDetailsBreaker;
     update := fun b this =>
       {| manager := manager this; config := config this;
          makeCallBreaker := makeCallBreaker this;
          getCallDetailsBreaker := b |} |}.

(** The code of a method runs over a state [St] in which it finds the
    instance ([this]) and the outside world. *)
Section Methods.
Context {St : Type}.
Variable this : Lens St t.
Variable world : Lens St W.

Definition executeWithRetry {T : Type} (operation : M St T)
    (operationName : string) : M St T :=
  config <- gets (fun st => config (view this st)) ;;
  let maxRetries := orZ (maxRetries config) 3 in
  let retryDelay := orQ (retryDelay config) 1000 in
  let retryMultiplier := orQ (retryMultiplier config) 2 in
  let maxRetryDelay := orQ (maxRetryDelay config) 10000 in
  retry_loop tag maxRetries retryDelay retryMultiplier maxRetryDelay
    operation operationName 0 None.

(** [this.manager.f(...)] *)
Definition delegate {T : Type}
    (f : PlivoManager.t W GetCallDetailsResponse -> Op W T) : M St T :=
  m <- gets (fun st => manager (view this st)) ;;
  zoom world (call (f m)).

(** [String(this.b.opened)] *)
Definition opened_of (b : Lens t CircuitBreaker.t) : M St string :=
  gets (fun st =>
          String_of_bool (CircuitBreaker.opened (view b (view this st)))).
End Methods.

(** The state of a public method: the instance and the world. *)
Definition Instance : Type := t * W.

(** The state inside a method that declares [let retryCount = 0]. *)
Definition Frame : Type := Z * Instance.
Definition retryCountVar : Lens Frame Z := fstL.
Definition this : Lens Frame t := composeL sndL fstL.
Definition world : Lens Frame W := composeL sndL sndL.

(** [retryCount++] *)
Definition incr_retryCount : M Frame unit :=
  modify (fun st => update retryCountVar (view retryCountVar st + 1) st).

Definition initiateRecordedCall (request : InitiateRecordedCallRequest.t)
  : M Instance (CallResult InitiatedCall.t) :=
  with_local 0
    (try_catch
       (result <-
          CircuitBreaker.fire (composeL this makeCallBreakerL)
            (fun st => now (view world st))
            (executeWithRetry this
               (incr_retryCount ;;;
                delegate this world
                  (fun m => PlivoManager.initiateRecordedCall m request))
               "initiateRecordedCall") ;;
        retryCount <- gets (view retryCountVar) ;;
        opened <- opened_of this makeCallBreakerL ;;
        ret {| success := true;
               data := Some
                 {| InitiatedCall.callUuid :=
                      InitiateRecordedCallResponse.callUuid result;
                    InitiatedCall.message :=
                      InitiateRecordedCallResponse.message result;
                    InitiatedCall.apiId :=
                      InitiateRecordedCallResponse.apiId result |};
               error := None;
               retryCount := Some retryCount;
               circuitBreakerState := Some opened |})
       (fun error =>
          opened <- opened_of this makeCallBreakerL ;;
          ret {| success := false;
                 data := None;
                 error := Some (asError error);
                 retryCount := None;
                 circuitBreakerState := Some opened |})).

Definition makeCall (to : string) (from answerUrl : option string)
  : M Instance (CallResult MakeCallResponse.t) :=
  with_local 0
    (try_catch
       (result <-
          CircuitBreaker.fire (composeL this makeCallBreakerL)
            (fun st => now (view world st))
            (executeWithRetry this
               (incr_retryCount ;;;
                delegate this world
                  (fun m => PlivoManager.makeCall m to from answerUrl))
               "makeCall") ;;
        retryCount <- gets (view retryCountVar) ;;
        opened <- opened_of this makeCallBreakerL ;;
        ret {| success := true;
               data := Some
                 {| MakeCallResponse.request_uuid :=
                      MakeCallResponse.request_uuid result;
                    MakeCallResponse.message :=
                      MakeCallResponse.message result;
                    MakeCallResponse.api_id :=
                      MakeCallResponse.api_id result |};
               error := None;
               retryCount := Some retryCount;
               circuitBreakerState := Some opened |})
       (fun error =>
          opened <- opened_of this makeCallBreakerL ;;
          ret {| success := false;
                 data := None;
                 error := Some (asError error);
                 retryCount := None;
                 circuitBreakerState := Some opened |})).

Definition getCallDetails (callUuid : string)
  : M Instance (CallResult GetCallDetailsResponse) :=
  with_local 0
    (try_catch
       (result <-
          CircuitBreaker.fire (composeL this getCallDetailsBreakerL)
            (fun st => now (view world st))
            (executeWithRetry this
               (incr_retryCount ;;;
                delegate this world
                  (fun m => PlivoManager.getCallDetails m callUuid))
               "getCallDetails") ;;
        retryCount <- gets (view retryCountVar) ;;
        opened <- opened_of this getCallDetailsBreakerL ;;
        ret {| success := true;
               data := Some result;
               error := None;
               retryCount := Some retryCount;
               circuitBreakerState := Some opened |})
       (fun error =>
          opened <- opened_of this getCallDetailsBreakerL ;;
          ret {| success := false;
                 data := None;
                 error := Some (asError error);
                 retryCount := None;
                 circuitBreakerState := Some opened |})).

Definition terminateCall (callUuid : string)
  : M Instance (CallResult TerminatedCall.t) :=
  with_local 0
    (try_catch
       (result <-
          executeWithRetry this
            (incr_retryCount ;;;
             delegate this world
               (fun m => PlivoManager.terminateCall m callUuid))
            "terminateCall" ;;
        retryCount <- gets (view retryCountVar) ;;
        ret {| success := true;
               data := Some
                 {| TerminatedCall.message :=
                      TerminateCallResponse.message result |};
               error := None;
               retryCount := Some retryCount;
               circuitBreakerState := None |})
       (fun error =>
          ret {| success := false;
                 data := None;
                 error := Some (asError error);
                 retryCount := None;
                 circuitBreakerState := None |})).

(** [waitForRecording(callUuid, maxAttempts = 30, delayMs = 2000)] *)
Definition waitForRecording (callUuid : string) (maxAttempts : option Z)
    (delayMs : option Q) : M Instance (option GetCallDetailsResponse) :=
  let maxAttempts := match maxAttempts with Some n => n | None => 30 end in
  let delayMs := match delayMs with Some d => d | None => 2000%Q end in
  try_catch
    (result <-
       executeWithRetry fstL
         (result <-
            delegate fstL sndL
              (fun m =>
                 PlivoManager.waitForRecording m callUuid maxAttempts
                   delayMs) ;;
          match result with
          | None =>
              throw (ThrownError
                (mkError "Recording not available after maximum attempts"))
          | Some result => ret result
          end)
         "waitForRecording" ;;
     ret (Some result))
    (fun error =>
       console.error [Str "[PlivoResilient] Failed to get recording:";
                      Err error] ;;;
       ret None).

Definition resetCircuitBreakers : M Instance unit :=
  zoom (composeL fstL makeCallBreakerL) CircuitBreaker.close ;;;
  zoom (composeL fstL getCallDetailsBreakerL) CircuitBreaker.close ;;;
  console.info [Str "[PlivoResilient] All circuit breakers reset"].

End Class.
End PlivoResilient.

(* ================================================================== *)
(** ** The Deepgram manager, as the facade sees it *)
(* ================================================================== *)

(** The request and response types of the transcription manager; the
    facade hands them over untouched, so they stay abstract. *)
Module DeepgramTypes.
Record t : Type := {
  TranscribeRecordingRequest : Type;
  TranscribeRecordingResponse : Type;
  DeepgramTranscriptionOptions : Type;
  DeepgramTranscriptionResponse : Type;
  Insights : Type;
  Buffer : Type
}.
End DeepgramTypes.

Module DeepgramManager.
Import DeepgramTypes.
Record t (W : Type) (D : DeepgramTypes.t) : Type := {
  transcribeRecording :
    TranscribeRecordingRequest D -> Op W (TranscribeRecordingResponse D);
  transcribeUrl :
    string -> option (DeepgramTranscriptionOptions D) ->
    Op W (DeepgramTranscriptionResponse D);
  transcribeWithInsights : string -> Op W (Insights D);
  transcribeBuffer :
    Buffer D -> option (DeepgramTranscriptionOptions D) ->
    Op W (DeepgramTranscriptionResponse D)
}.
End DeepgramManager.

(* ================================================================== *)
(** ** [DeepgramResilient] *)
(* ================================================================== *)

Module DeepgramResilient.
Section Class.
Import DeepgramTypes.
Context {W : Type} `{Clock W} {D : DeepgramTypes.t}.

Definition TranscriptionResult : Type -> Type := ResultEnvelope.

Record t : Type := {
  manager : DeepgramManager.t W D;
  config : ResilientConfig;
  transcribeBreaker : CircuitBreaker.t
}.

Definition tag : string := "[DeepgramResilient]".

Definition defaults : ResilientConfig :=
  {| circuitBreakerTimeout := Some 60000%Q;
     circuitBreakerErrorThresholdPercentage := Some 50%Q;
     circuitBreakerResetTimeout := Some 30000%Q;
     circuitBreakerRollingCountTimeout := Some 10000%Q;
     circuitBreakerRollingCountBuckets := Some 10;
     maxRetries := Some 3;
     retryDelay := Some 2000%Q;
     retryMultiplier := Some 2%Q;
     maxRetryDelay := Some 20000%Q |}.

Definition createCircuitBreaker (config : ResilientConfig) (name : string)
  : CircuitBreaker.t :=
  CircuitBreaker.new
    {| CircuitBreaker.timeout := circuitBreakerTimeout config;
       CircuitBreaker.errorThresholdPercentage :=
         circuitBreakerErrorThresholdPercentage config;
       CircuitBreaker.resetTimeout := circuitBreakerResetTimeout config;
       CircuitBreaker.rollingCountTimeout :=
         circuitBreakerRollingCountTimeout config;
       CircuitBreaker.rollingCountBuckets :=
         circuitBreakerRollingCountBuckets config;
       CircuitBreaker.name := name |}.

Definition setupCircuitBreakerListeners (breaker : CircuitBreaker.t)
    (name : string) : CircuitBreaker.t :=
  let line (l : level) (what : string) : trace :=
    [Console l [Str tag; Str " Circuit breaker '"; Str name; Str "' ";
                Str what]] in
  CircuitBreaker.on CircuitBreaker.on_fallback
    (line Warn "fallback triggered")
    (CircuitBreaker.on CircuitBreaker.on_close (line Info "closed")
       (CircuitBreaker.on CircuitBreaker.on_halfOpen (line Info "half-open")
          (CircuitBreaker.on CircuitBreaker.on_open (line Warn "opened")
             breaker))).

(** [new DeepgramResilient(config)]; the manager the constructor builds
    from the same configuration is taken as given. *)
Definition constructor (config : ResilientConfig)
    (manager : DeepgramManager.t W D) : t :=
  let config := with_defaults defaults config in
  {| manager := manager;
     config := config;
     transcribeBreaker :=
       setupCircuitBreakerListeners
         (createCircuitBreaker config "transcribe") "transcribe" |}.

Definition transcribeBreakerL : Lens t CircuitBreaker.t :=
  {| view := transcribeBreaker;
     update := fun b this =>
       {| manager := manager this; config := config this;
          transcribeBreaker := b |} |}.

Section Methods.
Context {St : Type}.
Variable this : Lens St t.
Variable world : Lens St W.

Definition executeWithRetry {T : Type} (operation : M St T)
    (operationName : string) : M St T :=
  config <- gets (fun st => config (view this st)) ;;
  let maxRetries := orZ (maxRetries config) 3 in
  let retryDelay := orQ (retryDelay config) 2000 in
  let retryMultiplier := orQ (retryMultiplier config) 2 in
  let maxRetryDelay := orQ (maxRetryDelay config) 20000 in
  retry_loop tag maxRetries retryDelay retryMultiplier maxRetryDelay
    operation operationName 0 None.

(** [this.manager.f(...)] *)
Definition delegate {T : Type} (f : DeepgramManager.t W D -> Op W T)
  : M St T :=
  m <- gets (fun st => manager (view this st)) ;;
  zoom world (call (f m)).

(** [String(this.transcribeBreaker.opened)] *)
Definition opened_of (b : Lens t CircuitBreaker.t) : M St string :=
  gets (fun st =>
          String_of_bool (CircuitBreaker.opened (view b (view this st)))).
End Methods.

Definition Instance : Type := t * W.
Definition Frame : Type := Z * Instance.
Definition retryCountVar : Lens Frame Z := fstL.
Definition this : Lens Frame t := composeL sndL fstL.
Definition world : Lens Frame W := composeL sndL sndL.

(** [retryCount++] *)
Definition incr_retryCount : M Frame unit :=
  modify (fun st => update retryCountVar (view retryCountVar st + 1) st).

Definition transcribeRecording (request : TranscribeRecordingRequest D)
  : M Instance (TranscriptionResult (TranscribeRecordingResponse D)) :=
  with_local 0
    (try_catch
       (result <-
          CircuitBreaker.fire (composeL this transcribeBreakerL)
            (fun st => now (view world st))
            (executeWithRetry this
               (incr_retryCount ;;;
                delegate this world
                  (fun m => DeepgramManager.transcribeRecording m request))
               "transcribeRecording") ;;
        retryCount <- gets (view retryCountVar) ;;
        opened <- opened_of this transcribeBreakerL ;;
        ret {| success := true;
               data := Some result;
               error := None;
               retryCount := Some retryCount;
               circuitBreakerState := Some opened |})
       (fun error =>
          opened <- opened_of this transcribeBreakerL ;;
          ret {| success := false;
                 data := None;
                 error := Some (asError error);
                 retryCount := None;
                 circuitBreakerState := Some opened |})).

Definition transcribeUrl (url : string)
    (options : option (DeepgramTranscriptionOptions D))
  : M Instance (TranscriptionResult (DeepgramTranscriptionResponse D)) :=
  with_local 0
    (try_catch
       (result <-
          CircuitBreaker.fire (composeL this transcribeBreakerL)
            (fun st => now (view world st))
            (executeWithRetry this
               (incr_retryCount ;;;
                delegate this world
                  (fun m => DeepgramManager.transcribeUrl m url options))
               "transcribeUrl") ;;
        retryCount <- gets (view retryCountVar) ;;
        opened <- opened_of this transcribeBreakerL ;;
        ret {| success := true;
               data := Some result;
               error := None;
               retryCount := Some retryCount;
               circuitBreakerState := Some opened |})
       (fun error =>
          opened <- opened_of this transcribeBreakerL ;;
          ret {| success := false;
                 data := None;
                 error := Some (asError error);
                 retryCount := None;
                 circuitBreakerState := Some opened |})).

Definition transcribeWithInsights (recordingUrl : string)
  : M Instance (TranscriptionResult (Insights D)) :=
  with_local 0
    (try_catch
       (result <-
          CircuitBreaker.fire (composeL this transcribeBreakerL)
            (fun st => now (view world st))
            (executeWithRetry this
               (incr_retryCount ;;;
                delegate this world
                  (fun m =>
                     DeepgramManager.transcribeWithInsights m recordingUrl))
               "transcribeWithInsights") ;;
        retryCount <- gets (view retryCountVar) ;;
        opened <- opened_of this transcribeBreakerL ;;
        ret {| success := true;
               data := Some result;
               error := None;
               retryCount := Some retryCount;
               circuitBreakerState := Some opened |})
       (fun error =>
          opened <- opened_of this transcribeBreakerL ;;
          ret {| success := false;
                 data := None;
                 error := Some (asError error);
                 retryCount := None;
                 circuitBreakerState := Some opened |})).

Definition transcribeBuffer (buffer : Buffer D)
    (options : option (DeepgramTranscriptionOptions D))
  : M Instance (TranscriptionResult (DeepgramTranscriptionResponse D)) :=
  with_local 0
    (try_catch
       (result <-
          CircuitBreaker.fire (composeL this transcribeBreakerL)
            (fun st => now (view world st))
            (executeWithRetry this
               (incr_retryCount ;;;
                delegate this world
                  (fun m => DeepgramManager.transcribeBuffer m buffer options))
               "transcribeBuffer") ;;
        retryCount <- gets (view retryCountVar) ;;
        opened <- opened_of this transcribeBreakerL ;;
        ret {| success := true;
               data := Some result;
               error := None;
               retryCount := Some retryCount;
               circuitBreakerState := Some opened |})
       (fun error =>
          opened <- opened_of this transcribeBreakerL ;;
          ret {| success := false;
                 data := None;
                 error := Some (asError error);
                 retryCount := None;
                 circuitBreakerState := Some opened |})).

Definition resetCircuitBreakers : M Instance unit :=
  zoom (composeL fstL transcribeBreakerL) CircuitBreaker.close ;;;
  console.info [Str "[DeepgramResilient] All circuit breakers reset"].

End Class.
End DeepgramResilient.

(* ================================================================== *)
(** ** The two clients of the application ([clients.ts]) *)
(* ================================================================== *)

Module clients.
Section Singletons.
Context {W GetCallDetailsResponse : Type} `{Clock W} {D : DeepgramTypes.t}.

(** The module state once both singletons exist. *)
Record t : Type := {
  plivoClient : @PlivoResilient.t W GetCallDetailsResponse;
  deepgramClient : @DeepgramResilient.t W D
}.

Definition plivoClientL : Lens t PlivoResilient.t :=
  {| view := plivoClient;
     update := fun p c =>
       {| plivoClient := p; deepgramClient := deepgramClient c |} |}.

Definition deepgramClientL : Lens t DeepgramResilient.t :=
  {| view := deepgramClient;
     update := fun d c =>
       {| plivoClient := plivoClient c; deepgramClient := d |} |}.

(** A method of one client, run in the application. *)
Definition on_client {I A : Type} (client : Lens t I) (m : M (I * W) A)
  : M (t * W) A :=
  fun st =>
    let '(r, (i, w), tr) := m (view client (fst st), snd st) in
    (r, (update client i (fst st), w), tr).

(** What can happen to the two clients: a call of a public method, or
    the reset timer of one breaker running out. *)
Inductive action : Type :=
| initiateRecordedCall (request : InitiateRecordedCallRequest.t)
| makeCall (to : string) (from answerUrl : option string)
| getCallDetails (callUuid : string)
| terminateCall (callUuid : string)
| waitForRecording (callUuid : string) (maxAttempts : option Z)
    (delayMs : option Q)
| resetPlivoCircuitBreakers
| makeCallResetTimeout
| getCallDetailsResetTimeout
| transcribeRecording
    (request : DeepgramTypes.TranscribeRecordingRequest D)
| transcribeUrl (url : string)
    (options : option (DeepgramTypes.DeepgramTranscriptionOptions D))
| transcribeWithInsights (recordingUrl : string)
| transcribeBuffer (buffer : DeepgramTypes.Buffer D)
    (options : option (DeepgramTypes.DeepgramTranscriptionOptions D))
| resetDeepgramCircuitBreakers
| transcribeResetTimeout.

Definition on_plivo (a : action) : bool :=
  match a with
  | initiateRecordedCall _ | makeCall _ _ _ | getCallDetails _
  | terminateCall _ | waitForRecording _ _ _
  | resetPlivoCircuitBreakers | makeCallResetTimeout
  | getCallDetailsResetTimeout => true
  | _ => false
  end.

(** The result of a call is dropped: what counts is what it leaves. *)
Definition forget {St A : Type} (m : M St A) : M St unit :=
  fun st => let '(_, st1, tr) := m st in (Fulfilled tt, st1, tr).

Definition perform (a : action) : M (t * W) unit :=
  match a with
  | initiateRecordedCall request =>
      forget (on_client plivoClientL
                (PlivoResilient.initiateRecordedCall request))
  | makeCall to from answerUrl =>
      forget (on_client plivoClientL
                (PlivoResilient.makeCall to from answerUrl))
  | getCallDetails callUuid =>
      forget (on_client plivoClientL
                (PlivoResilient.getCallDetails callUuid))
  | terminateCall callUuid =>
      forget (on_client plivoClientL
                (PlivoResilient.terminateCall callUuid))
  | waitForRecording callUuid maxAttempts delayMs =>
      forget (on_client plivoClientL
                (PlivoResilient.waitForRecording callUuid maxAttempts
                   delayMs))
  | resetPlivoCircuitBreakers =>
      on_client plivoClientL PlivoResilient.resetCircuitBreakers
  | makeCallResetTimeout =>
      zoom (composeL fstL
              (composeL plivoClientL PlivoResilient.makeCallBreakerL))
        CircuitBreaker.resetTimeoutElapsed
  | getCallDetailsResetTimeout =>
      zoom (composeL fstL
              (composeL plivoClientL PlivoResilient.getCallDetailsBreakerL))
        CircuitBreaker.resetTimeoutElapsed
  | transcribeRecording request =>
      forget (on_client deepgramClientL
                (DeepgramResilient.transcribeRecording request))
  | transcribeUrl url options =>
      forget (on_client deepgramClientL
                (DeepgramResilient.transcribeUrl url options))
  | transcribeWithInsights recordingUrl =>
      forget (on_client deepgramClientL
                (DeepgramResilient.transcribeWithInsights recordingUrl))
  | transcribeBuffer buffer options =>
      forget (on_client deepgramClientL
                (DeepgramResilient.transcribeBuffer buffer options))
  | resetDeepgramCircuitBreakers =>
      on_client deepgramClientL DeepgramResilient.resetCircuitBreakers
  | transcribeResetTimeout =>
      zoom (composeL fstL
              (composeL deepgramClientL DeepgramResilient.transcribeBreakerL))
        CircuitBreaker.resetTimeoutElapsed
  end.

(** A sequence of actions, one after the other. *)
Fixpoint perform_all (actions : list action) : M (t * W) unit :=
  match actions with
  | [] => ret tt
  | a :: rest => perform a ;;; perform_all rest
  end.

End Singletons.
End clients.

(* ================================================================== *)
(** ** Reference notions the properties are stated with *)
(* ================================================================== *)



(** What [n] invocations in a row of an operation settle with, starting
    from a state, and the state they leave. *)
Fixpoint outcomes {St T : Type} (operation : M St T) (n : nat) (st : St)
  : list (settled T) :=
  match n with
  | O => []
  | S n' =>
      let '(r, st1, _) := operation st in r :: outcomes operation n' st1
  end.

Fixpoint state_after {St T : Type} (operation : M St T) (n : nat) (st : St)
  : St :=
  match n with
  | O => st
  | S n' => let '(_, st1, _) := operation st in state_after operation n' st1
  end.

Definition is_rejected {T : Type} (r : settled T) : Prop :=
  match r with
  | Rejected _ => True
  | Fulfilled _ => False
  end.

(** The operation rejects however often it is invoked from [st]. *)
Definition always_rejects {St T : Type} (operation : M St T) (st : St)
  : Prop :=
  forall n, Forall is_rejected (outcomes operation n st).

(** The operation rejects [k] times with [reasons], then fulfils with
    [value]. *)
Definition fails_then_succeeds {St T : Type} (operation : M St T) (st : St)
    (reasons : list thrown) (value : T) : Prop :=
  outcomes operation (S (length reasons)) st =
  map Rejected reasons ++ [Fulfilled value].

(** An invocation counter put around an operation, as a test spy does. *)
Definition spy {St T : Type} (operation : M St T) : M (nat * St) T :=
  fun st =>
    let '(r, st1, tr) := operation (snd st) in (r, (S (fst st), st1), tr).

Definition spy_op {W T : Type} (op : Op W T) : Op (nat * W) T :=
  fun w => let '(r, w1) := op (snd w) in (r, (S (fst w), w1)).

(** Counting takes no time: the clock of a spied world is that of the
    world. *)
#[global] Instance spied_clock {W : Type} `{Clock W} : Clock (nat * W) :=
  fun w => now (snd w).



(* ================================================================== *)
(** ** The shape the envelope methods have in common *)
(* ================================================================== *)

(** The constants [executeWithRetry] works with once it has read the
    configuration. *)
Record RetryParams : Type := {
  p_tag : string;
  p_maxRetries : Z;
  p_retryDelay : Q;
  p_retryMultiplier : Q;
  p_maxRetryDelay : Q
}.

Definition plivo_params {W G : Type} (this : @PlivoResilient.t W G)
  : RetryParams :=
  let config := PlivoResilient.config this in
  {| p_tag := PlivoResilient.tag;
     p_maxRetries := orZ (maxRetries config) 3;
     p_retryDelay := orQ (retryDelay config) 1000;
     p_retryMultiplier := orQ (retryMultiplier config) 2;
     p_maxRetryDelay := orQ (maxRetryDelay config) 10000 |}.

Definition deepgram_params {W : Type} {D : DeepgramTypes.t}
    (this : @DeepgramResilient.t W D) : RetryParams :=
  let config := DeepgramResilient.config this in
  {| p_tag := DeepgramResilient.tag;
     p_maxRetries := orZ (maxRetries config) 3;
     p_retryDelay := orQ (retryDelay config) 2000;
     p_retryMultiplier := orQ (retryMultiplier config) 2;
     p_maxRetryDelay := orQ (maxRetryDelay config) 20000 |}.

Section Shape.
Context {I W : Type} `{Clock W}.
Variable params : I -> RetryParams.

(** [executeWithRetry] of either class. *)
Definition engine {St T : Type} (this : Lens St I) (operation : M St T)
    (operationName : string) : M St T :=
  p <- gets (fun st => params (view this st)) ;;
  retry_loop (p_tag p) (p_maxRetries p) (p_retryDelay p)
    (p_retryMultiplier p) (p_maxRetryDelay p) operation operationName
    0 None.

(** [async () => { retryCount++; return await this.manager.f(...); }] *)
Definition counting {T : Type} (op : I -> Op W T) : M (Z * (I * W)) T :=
  modify (fun st => (fst st + 1, snd st)) ;;;
  (i <- gets (fun st => fst (snd st)) ;;
   zoom (composeL sndL sndL) (call (op i))).

Definition gate {T : Type} (breaker : option (Lens I CircuitBreaker.t))
    (m : M (Z * (I * W)) T) : M (Z * (I * W)) T :=
  match breaker with
  | Some b =>
      CircuitBreaker.fire (composeL (composeL sndL fstL) b)
        (fun st => now (snd (snd st))) m
  | None => m
  end.

Definition sampled (breaker : option (Lens I CircuitBreaker.t))
    (st : Z * (I * W)) : option string :=
  match breaker with
  | Some b =>
      Some (String_of_bool (CircuitBreaker.opened (view b (fst (snd st)))))
  | None => None
  end.

(** The [try]/[catch] around the guarded run [m], and the envelope of
    either branch. *)
Definition enveloped {T D : Type}
    (breaker : option (Lens I CircuitBreaker.t)) (payload : T -> D)
    (m : M (Z * (I * W)) T) : M (I * W) (ResultEnvelope D) :=
  with_local 0
    (try_catch
       (result <- gate breaker m ;;
        retryCount <- gets fst ;;
        opened <- gets (sampled breaker) ;;
        ret {| success := true;
               data := Some (payload result);
               error := None;
               retryCount := Some retryCount;
               circuitBreakerState := opened |})
       (fun error =>
          opened <- gets (sampled breaker) ;;
          ret {| success := false;
                 data := None;
                 error := Some (asError error);
                 retryCount := None;
                 circuitBreakerState := opened |})).

Definition guarded {T D : Type}
    (breaker : option (Lens I CircuitBreaker.t)) (op : I -> Op W T)
    (operationName : string) (payload : T -> D)
  : M (I * W) (ResultEnvelope D) :=
  enveloped breaker payload
    (engine (composeL sndL fstL) (counting op) operationName).
End Shape.

(** The payload each method puts in [data]. *)
Definition initiated (result : InitiateRecordedCallResponse.t)
  : InitiatedCall.t :=
  {| InitiatedCall.callUuid := InitiateRecordedCallResponse.callUuid result;
     InitiatedCall.message := InitiateRecordedCallResponse.message result;
     InitiatedCall.apiId := InitiateRecordedCallResponse.apiId result |}.

Definition made (result : MakeCallResponse.t) : MakeCallResponse.t :=
  {| MakeCallResponse.request_uuid := MakeCallResponse.request_uuid result;
     MakeCallResponse.message := MakeCallResponse.message result;
     MakeCallResponse.api_id := MakeCallResponse.api_id result |}.

Definition terminated (result : TerminateCallResponse.t) : TerminatedCall.t :=
  {| TerminatedCall.message := TerminateCallResponse.message result |}.

(** The envelopes of the two branches. *)
Definition success_envelope {D : Type} (payload : D) (retryCount : Z)
    (opened : option string) : ResultEnvelope D :=
  {| success := true;
     data := Some payload;
     error := None;
     retryCount := Some retryCount;
     circuitBreakerState := opened |}.

Definition failure_envelope {D : Type} (reason : thrown)
    (opened : option string) : ResultEnvelope D :=
  {| success := false;
     data := None;
     error := Some (asError reason);
     retryCount := None;
     circuitBreakerState := opened |}.

(** What the [catch] block of attempt [attempt] prints and waits for. *)
Definition failure_events (p : RetryParams) (operationName : string)
    (attempt : Z) (lastError : JsError) : trace :=
  snd (on_failure (St := unit) (p_tag p) (p_maxRetries p) (p_retryDelay p)
         (p_retryMultiplier p) (p_maxRetryDelay p) operationName attempt
         lastError tt).

(** What the engine prints and waits for over a row of failed attempts,
    the first being attempt [attempt]. *)
Fixpoint retry_events (p : RetryParams) (operationName : string)
    (attempt : Z) (reasons : list thrown) : trace :=
  match reasons with
  | [] => []
  | reason :: rest =>
      failure_events p operationName attempt (asError reason) ++
      retry_events p operationName (attempt + 1) rest
  end.

(** The time the engine waits over [k] failed attempts in a row, the
    first being attempt [attempt], when a retry follows each of them. *)
Fixpoint backoff (p : RetryParams) (attempt : Z) (k : nat) : Q :=
  match k with
  | O => 0
  | S k' =>
      timer (delay (p_retryDelay p) (p_retryMultiplier p) (p_maxRetryDelay p)
               attempt) +
      backoff p (attempt + 1) k'
  end%Q.

(** The time a run of the engine takes whose first [k] attempts fail and
    whose next attempt succeeds: the time the world spends on the
    [k + 1] invocations of [op], and the [k] waits in between. *)
Definition run_time {W T : Type} `{Clock W} (p : RetryParams) (op : Op W T)
    (w : W) (k : nat) : Q :=
  (now (state_after (call op) (S k) w) - now w + backoff p 0 k)%Q.

(** [lastError] after a row of failed attempts. *)
Definition last_error (lastError : option JsError) (reasons : list thrown)
  : option JsError :=
  fold_left (fun _ reason => Some (asError reason)) reasons lastError.

(** An operation that leaves no event of this layer. *)
Definition quiet {St T : Type} (operation : M St T) : Prop :=
  forall st, snd (operation st) = [].

(** [view] after [update] gives back what was put. *)
Definition lawful {S A : Type} (l : Lens S A) : Prop :=
  forall a s, view l (update l a s) = a.

(** Managers whose every method counts its invocations, and instances
    built over them. *)
Definition spied_plivo_manager {W G : Type} (m : PlivoManager.t W G)
  : PlivoManager.t (nat * W) G :=
  {| PlivoManager.initiateRecordedCall := fun request =>
       spy_op (PlivoManager.initiateRecordedCall m request);
     PlivoManager.makeCall := fun to from answerUrl =>
       spy_op (PlivoManager.makeCall m to from answerUrl);
     PlivoManager.getCallDetails := fun callUuid =>
       spy_op (PlivoManager.getCallDetails m callUuid);
     PlivoManager.terminateCall := fun callUuid =>
       spy_op (PlivoManager.terminateCall m callUuid);
     PlivoManager.waitForRecording := fun callUuid maxAttempts delayMs =>
       spy_op (PlivoManager.waitForRecording m callUuid maxAttempts delayMs) |}.

Definition spied_plivo {W G : Type} (this : @PlivoResilient.t W G)
  : @PlivoResilient.t (nat * W) G :=
  {| PlivoResilient.manager := spied_plivo_manager (PlivoResilient.manager this);
     PlivoResilient.config := PlivoResilient.config this;
     PlivoResilient.makeCallBreaker := PlivoResilient.makeCallBreaker this;
     PlivoResilient.getCallDetailsBreaker :=
       PlivoResilient.getCallDetailsBreaker this |}.

Definition spied_deepgram_manager {W : Type} {D : DeepgramTypes.t}
    (m : DeepgramManager.t W D) : DeepgramManager.t (nat * W) D :=
  {| DeepgramManager.transcribeRecording := fun request =>
       spy_op (DeepgramManager.transcribeRecording m request);
     DeepgramManager.transcribeUrl := fun url options =>
       spy_op (DeepgramManager.transcribeUrl m url options);
     DeepgramManager.transcribeWithInsights := fun recordingUrl =>
       spy_op (DeepgramManager.transcribeWithInsights m recordingUrl);
     DeepgramManager.transcribeBuffer := fun buffer options =>
       spy_op (DeepgramManager.transcribeBuffer m buffer options) |}.

Definition spied_deepgram {W : Type} {D : DeepgramTypes.t}
    (this : @DeepgramResilient.t W D) : @DeepgramResilient.t (nat * W) D :=
  {| DeepgramResilient.manager :=
       spied_deepgram_manager (DeepgramResilient.manager this);
     DeepgramResilient.config := DeepgramResilient.config this;
     DeepgramResilient.transcribeBreaker :=
       DeepgramResilient.transcribeBreaker this |}.

(* ================================================================== *)
(** ** The properties, as predicates on a method *)
(* ================================================================== *)

(** [data] and [error] of an envelope: one of them, told by [success]. *)
Definition exactly_one_of {D : Type} (env : ResultEnvelope D) : Prop :=
  (success env = true <-> (data env <> None /\ error env = None)) /\
  (success env = false <-> (error env <> None /\ data env = None)).

(** The method never rejects: whatever the state, it fulfils with a
    well-formed envelope. *)
Definition fail_soft {St D : Type} (method : M St (ResultEnvelope D)) : Prop :=
  forall st, exists env st' tr,
    method st = (Fulfilled env, st', tr) /\ exactly_one_of env.

(** [circuitBreakerState] is the rendering of the [opened] flag of the
    method's breaker as the method leaves it. *)
Definition reports_opened {I W D : Type}
    (method : M (I * W) (ResultEnvelope D)) (breaker : Lens I CircuitBreaker.t)
  : Prop :=
  forall st, exists env i' w' tr,
    method st = (Fulfilled env, (i', w'), tr) /\
    circuitBreakerState env =
      Some (String_of_bool (CircuitBreaker.opened (view breaker i'))) /\
    (circuitBreakerState env = Some "true" \/
     circuitBreakerState env = Some "false") /\
    circuitBreakerState env <> Some "closed" /\
    circuitBreakerState env <> Some "open" /\
    circuitBreakerState env <> Some "half-open".

(** A failure envelope has no [retryCount]. *)
Definition silent_on_failure {St D : Type} (method : M St (ResultEnvelope D))
  : Prop :=
  forall st env st' tr,
    method st = (Fulfilled env, st', tr) ->
    success env = false -> retryCount env = None.

(** One call of the method adds one sample to the window of its breaker:
    a rejection when the breaker is open, and otherwise a success or a
    failure, as the envelope says.  When the delegate fails no more often
    than retries are allowed and then succeeds, the sample is a success,
    unless the run was late for the deadline of the breaker, which makes
    it a failure; when the delegate keeps rejecting it is a failure. *)
Definition one_sample {I W T D : Type} `{Clock W}
    (method : M (I * W) (ResultEnvelope D)) (breaker : Lens I CircuitBreaker.t)
    (op : I -> Op W T) (params : I -> RetryParams) : Prop :=
  forall i w, exists env i' w' tr s,
    method (i, w) = (Fulfilled env, (i', w'), tr) /\
    CircuitBreaker.window (view breaker i') =
      CircuitBreaker.window (view breaker i) ++ [s] /\
    (CircuitBreaker.opened (view breaker i) = true ->
     s = CircuitBreaker.Reject) /\
    (CircuitBreaker.opened (view breaker i) = false ->
     s = if success env then CircuitBreaker.Success
         else CircuitBreaker.Failure) /\
    (CircuitBreaker.opened (view breaker i) = false ->
     forall reasons v,
       fails_then_succeeds (call (op i)) w reasons v ->
       Z.of_nat (length reasons) <= p_maxRetries (params i) ->
       s = if CircuitBreaker.late (view breaker i)
                (run_time (params i) (op i) w (length reasons))
           then CircuitBreaker.Failure
           else CircuitBreaker.Success) /\
    (CircuitBreaker.opened (view breaker i) = false ->
     always_rejects (call (op i)) w ->
     s = CircuitBreaker.Failure).

(** When the delegate [op] fails [k] times and then succeeds, [k] within
    the retries, from a world and with a [k] that are [admitted], the
    method, run on the instance [i] over the spied manager, returns the
    success envelope with [retryCount = k + 1], and the delegate has been
    invoked [k + 1] times. *)
Definition first_success_returned {I W T D : Type}
    (method : M (I * (nat * W)) (ResultEnvelope D)) (i : I) (op : Op W T)
    (admitted : W -> nat -> Prop) (maxRetries : Z) (payload : T -> D)
    (opened : option string) : Prop :=
  forall calls w reasons v,
    admitted w (length reasons) ->
    fails_then_succeeds (call op) w reasons v ->
    Z.of_nat (length reasons) <= maxRetries ->
    exists i' tr,
      method (i, (calls, w)) =
      (Fulfilled
         (success_envelope (payload v) (Z.of_nat (length reasons) + 1) opened),
       (i', ((calls + S (length reasons))%nat,
             state_after (call op) (S (length reasons)) w)),
       tr).

(** The breaker [b] lets a call through and the run, [k] failed attempts
    and a success, is over before its deadline. *)
Definition in_time {W T : Type} `{Clock W} (b : CircuitBreaker.t)
    (p : RetryParams) (op : Op W T) (w : W) (k : nat) : Prop :=
  CircuitBreaker.opened b = false /\
  CircuitBreaker.late b (run_time p op w k) = false.

(** An open breaker keeps the delegate from being invoked: the method
    answers with the circuit-open failure and the world, with its
    invocation counter, is as before. *)
Definition fails_fast_when_open {I W D : Type}
    (method : M (I * W) (ResultEnvelope D)) (breaker : Lens I CircuitBreaker.t)
  : Prop :=
  forall i w,
    CircuitBreaker.opened (view breaker i) = true ->
    exists i',
      method (i, w) =
      (Fulfilled (failure_envelope CircuitBreaker.circuit_open (Some "true")),
       (i', w), []).




(* ================================================================== *)
(** ** Concrete collaborators for the examples *)
(* ================================================================== *)

(** In a world that only counts the invocations made to it, each of
    them takes a tenth of a second. *)
#[global] Instance counting_clock : Clock nat :=
  fun n => (100 * inject_Z (Z.of_nat n))%Q.

Module Fixture.

Definition boom : thrown := ThrownError (mkError "boom").

(** An operation of a world that only counts its invocations: it
    rejects with [boom] on the first [failures] of them and fulfils
    with [value] from then on. *)
Definition flaky {T : Type} (failures : nat) (value : T) : Op nat T :=
  fun n =>
    (if (n <? failures)%nat then Rejected boom else Fulfilled value, S n).

Definition request : InitiateRecordedCallRequest.t :=
  {| InitiateRecordedCallRequest.to := "+15550100";
     InitiateRecordedCallRequest.from := None;
     InitiateRecordedCallRequest.callerName := None;
     InitiateRecordedCallRequest.timeLimit := None;
     InitiateRecordedCallRequest.recordingCallback := None;
     InitiateRecordedCallRequest.answerCallback := None |}.

Definition response : InitiateRecordedCallResponse.t :=
  {| InitiateRecordedCallResponse.success := true;
     InitiateRecordedCallResponse.callUuid := "call-1";
     InitiateRecordedCallResponse.message := "call fired";
     InitiateRecordedCallResponse.apiId := "api-1" |}.

Definition made : MakeCallResponse.t :=
  {| MakeCallResponse.message := "call fired";
     MakeCallResponse.request_uuid := "call-1";
     MakeCallResponse.api_id := "api-1" |}.

Definition hung_up : TerminateCallResponse.t :=
  {| TerminateCallResponse.success := true;
     TerminateCallResponse.message := "call terminated" |}.

(** Call details are a string here. *)
Definition plivoManager (failures : nat) : PlivoManager.t nat string :=
  {| PlivoManager.initiateRecordedCall := fun _ => flaky failures response;
     PlivoManager.makeCall := fun _ _ _ => flaky failures made;
     PlivoManager.getCallDetails := fun _ => flaky failures "completed";
     PlivoManager.terminateCall := fun _ => flaky failures hung_up;
     PlivoManager.waitForRecording := fun _ _ _ =>
       flaky failures (Some "completed") |}.

Definition types : DeepgramTypes.t :=
  {| DeepgramTypes.TranscribeRecordingRequest := string;
     DeepgramTypes.TranscribeRecordingResponse := string;
     DeepgramTypes.DeepgramTranscriptionOptions := unit;
     DeepgramTypes.DeepgramTranscriptionResponse := string;
     DeepgramTypes.Insights := string;
     DeepgramTypes.Buffer := string |}.

Definition deepgramManager (failures : nat) : DeepgramManager.t nat types :=
  {| DeepgramManager.transcribeRecording := fun _ =>
       flaky failures ("hello world" : DeepgramTypes.TranscribeRecordingResponse types);
     DeepgramManager.transcribeUrl := fun _ _ =>
       flaky failures ("hello world" : DeepgramTypes.DeepgramTranscriptionResponse types);
     DeepgramManager.transcribeWithInsights := fun _ =>
       flaky failures ("hello world" : DeepgramTypes.Insights types);
     DeepgramManager.transcribeBuffer := fun _ _ =>
       flaky failures ("hello world" : DeepgramTypes.DeepgramTranscriptionResponse types) |}.

(** A configuration that sets nothing. *)
Definition unset : ResilientConfig :=
  {| circuitBreakerTimeout := None;
     circuitBreakerErrorThresholdPercentage := None;
     circuitBreakerResetTimeout := None;
     circuitBreakerRollingCountTimeout := None;
     circuitBreakerRollingCountBuckets := None;
     maxRetries := None;
     retryDelay := None;
     retryMultiplier := None;
     maxRetryDelay := None |}.


(** A fresh client over a manager that fails [failures] times. *)
Definition plivo (failures : nat) : @PlivoResilient.t nat string :=
  PlivoResilient.constructor unset (plivoManager failures).

Definition deepgram (failures : nat) : @DeepgramResilient.t nat types :=
  DeepgramResilient.constructor unset (deepgramManager failures).

(** The same clients with every breaker open. *)
Definition plivo_open (failures : nat) : @PlivoResilient.t nat string :=
  let this := plivo failures in
  {| PlivoResilient.manager := PlivoResilient.manager this;
     PlivoResilient.config := PlivoResilient.config this;
     PlivoResilient.makeCallBreaker :=
       CircuitBreaker.set_state CircuitBreaker.open
         (PlivoResilient.makeCallBreaker this);
     PlivoResilient.getCallDetailsBreaker :=
       CircuitBreaker.set_state CircuitBreaker.open
         (PlivoResilient.getCallDetailsBreaker this) |}.

Definition deepgram_open (failures : nat) : @DeepgramResilient.t nat types :=
  let this := deepgram failures in
  {| DeepgramResilient.manager := DeepgramResilient.manager this;
     DeepgramResilient.config := DeepgramResilient.config this;
     DeepgramResilient.transcribeBreaker :=
       CircuitBreaker.set_state CircuitBreaker.open
         (DeepgramResilient.transcribeBreaker this) |}.

(** A world that counts the invocations made to it as well, and in
    which each of them takes twelve seconds. *)
Record slow : Type := behind { invoked : nat }.

Definition slowly {T : Type} (op : Op nat T) : Op slow T :=
  fun w => let '(r, n) := op (invoked w) in (r, behind n).

Definition slowPlivoManager (failures : nat) : PlivoManager.t slow string :=
  {| PlivoManager.initiateRecordedCall := fun _ =>
       slowly (flaky failures response);
     PlivoManager.makeCall := fun _ _ _ => slowly (flaky failures made);
     PlivoManager.getCallDetails := fun _ =>
       slowly (flaky failures "completed");
     PlivoManager.terminateCall := fun _ => slowly (flaky failures hung_up);
     PlivoManager.waitForRecording := fun _ _ _ =>
       slowly (flaky failures (Some "completed")) |}.



End Fixture.

#[global] Instance slow_clock : Clock Fixture.slow :=
  fun w => (12000 * inject_Z (Z.of_nat (Fixture.invoked w)))%Q.

(* ================================================================== *)
(** ** Frames, counts and bounds of a run *)
(* ================================================================== *)

(** The method leaves a part of the instance as it found it. *)
Definition keeps {I W A X : Type} (method : M (I * W) A) (part : I -> X)
  : Prop :=
  forall i w, part (fst (snd (fst (method (i, w))))) = part i.




(** The method answers with the failure [reason] without having invoked
    the delegate (the world is as it was); a method with a breaker has
    counted one failure, a method without one leaves the instance as it
    was. *)
Definition fails_unattempted {I W D : Type}
    (method : M (I * W) (ResultEnvelope D))
    (breaker : option (Lens I CircuitBreaker.t)) (reason : thrown) (i : I)
  : Prop :=
  forall w, exists env i' tr,
    method (i, w) = (Fulfilled env, (i', w), tr) /\
    success env = false /\
    error env = Some (asError reason) /\
    match breaker with
    | Some b =>
        CircuitBreaker.window (view b i') =
        CircuitBreaker.window (view b i) ++ [CircuitBreaker.Failure]
    | None => i' = i
    end.

(** An envelope of [first] that says ["true"] tells that [next], called
    on the instance as [first] has left it (before the reset timer of
    the breaker has run out, and with no reset in between), is refused:
    the circuit-open failure, and the world untouched. *)
Definition flag_predicts_refusal {I W D1 D2 : Type}
    (first : M (I * W) (ResultEnvelope D1))
    (next : M (I * W) (ResultEnvelope D2)) : Prop :=
  forall i w env i1 w1 tr,
    first (i, w) = (Fulfilled env, (i1, w1), tr) ->
    circuitBreakerState env = Some "true" ->
    forall w2, exists i2,
      next (i1, w2) =
      (Fulfilled (failure_envelope CircuitBreaker.circuit_open (Some "true")),
       (i2, w2), []).

(** A success that comes too late: when the breaker is not open, the
    delegate [op] fails [k] times and then succeeds, [k] within the
    retries, and the run is late for the deadline of the breaker, the
    method answers with the failure of the timeout, which has no
    [retryCount], and the breaker has counted one failure. *)
Definition late_success_times_out {I W T D : Type} `{Clock W}
    (method : M (I * W) (ResultEnvelope D)) (breaker : Lens I CircuitBreaker.t)
    (op : I -> Op W T) (params : I -> RetryParams) : Prop :=
  forall i w reasons v,
    CircuitBreaker.opened (view breaker i) = false ->
    fails_then_succeeds (call (op i)) w reasons v ->
    Z.of_nat (length reasons) <= p_maxRetries (params i) ->
    CircuitBreaker.late (view breaker i)
      (run_time (params i) (op i) w (length reasons)) = true ->
    exists env i' w' tr,
      method (i, w) = (Fulfilled env, (i', w'), tr) /\
      success env = false /\
      data env = None /\
      error env =
        Some (asError (CircuitBreaker.timed_out (view breaker i))) /\
      retryCount env = None /\
      circuitBreakerState env =
        Some (String_of_bool (CircuitBreaker.opened (view breaker i'))) /\
      CircuitBreaker.window (view breaker i') =
        CircuitBreaker.window (view breaker i) ++ [CircuitBreaker.Failure].

(** The instance once the reset timer of one of its breakers has run
    out. *)
Definition after_resetTimeout {I : Type} (breaker : Lens I CircuitBreaker.t)
    (i : I) : I :=
  update breaker
    (snd (fst (CircuitBreaker.resetTimeoutElapsed (view breaker i)))) i.

(** The call is let through by the breaker: the sample it adds is the
    outcome of a run, not a rejection. *)
Definition let_through {I W D : Type} (method : M (I * W) (ResultEnvelope D))
    (breaker : Lens I CircuitBreaker.t) (i : I) : Prop :=
  forall w, exists s,
    CircuitBreaker.window
      (view breaker (fst (snd (fst (method (i, w)))))) =
    CircuitBreaker.window (view breaker i) ++ [s] /\
    s <> CircuitBreaker.Reject.

(* ================================================================== *)
(** ** [PlivoResilient.waitForRecording], taken apart *)
(* ================================================================== *)

(** The operation [waitForRecording] hands to the retry engine: the
    manager's answer, a [null] turned into a rejection. *)
Definition recording_attempt {W G : Type} (callUuid : string)
    (maxAttempts : Z) (delayMs : Q) : M (@PlivoResilient.Instance W G) G :=
  result <-
    PlivoResilient.delegate fstL sndL
      (fun m =>
         PlivoManager.waitForRecording m callUuid maxAttempts delayMs) ;;
  match result with
  | None =>
      throw (ThrownError
        (mkError "Recording not available after maximum attempts"))
  | Some result => ret result
  end.

(** What an attempt settles with, given what the manager settled with. *)
Definition recording_outcome {G : Type} (r : settled (option G))
  : settled G :=
  match r with
  | Fulfilled (Some details) => Fulfilled details
  | Fulfilled None =>
      Rejected (ThrownError
        (mkError "Recording not available after maximum attempts"))
  | Rejected e => Rejected e
  end.

(** The manager has no recording to give: it answered [null], or it
    rejected. *)
Definition not_ready {G : Type} (r : settled (option G)) : Prop :=
  match r with
  | Fulfilled (Some _) => False
  | _ => True
  end.

(** The defaults of the parameters of [waitForRecording]. *)
Definition maxAttempts_or_default (maxAttempts : option Z) : Z :=
  match maxAttempts with Some n => n | None => 30 end.

Definition delayMs_or_default (delayMs : option Q) : Q :=
  match delayMs with Some d => d | None => 2000%Q end.

(* ================================================================== *)
(** ** More collaborators for the examples *)
(* ================================================================== *)

Module Scenario.

(** [{ maxRetries: n }] *)
Definition retries (n : Z) : ResilientConfig :=
  {| circuitBreakerTimeout := None;
     circuitBreakerErrorThresholdPercentage := None;
     circuitBreakerResetTimeout := None;
     circuitBreakerRollingCountTimeout := None;
     circuitBreakerRollingCountBuckets := None;
     maxRetries := Some n;
     retryDelay := None;
     retryMultiplier := None;
     maxRetryDelay := None |}.

(** A manager of a world that counts invocations: the recording is
    there from the invocation number [ready] on, before that the
    answer is [null]. *)
Definition recorded_after (ready : nat) : PlivoManager.t nat string :=
  {| PlivoManager.initiateRecordedCall := fun _ =>
       Fixture.flaky 0 Fixture.response;
     PlivoManager.makeCall := fun _ _ _ => Fixture.flaky 0 Fixture.made;
     PlivoManager.getCallDetails := fun _ => Fixture.flaky 0 "completed";
     PlivoManager.terminateCall := fun _ =>
       Fixture.flaky 0 Fixture.hung_up;
     PlivoManager.waitForRecording := fun _ _ _ n =>
       (Fulfilled (if (n <? ready)%nat then None else Some "completed"),
        S n) |}.

End Scenario.

(* ================================================================== *)
(** ** The Plivo manager ([plivo-manager.ts]) over the Plivo service *)
(* ================================================================== *)

(** [x || d] on an optional string: [undefined] and the empty string
    are falsy. *)
Definition orS (x : option string) (d : string) : string :=
  match x with
  | Some EmptyString | None => d
  | Some s => s
  end.

(** The truth value of an optional string in a condition. *)
Definition truthy (x : option string) : bool :=
  match x with
  | Some EmptyString | None => false
  | Some _ => true
  end.

(** ['GET' | 'POST'] *)
Inductive HttpMethod : Type := GET | POST.

(** ['inbound' | 'outbound'] *)
Inductive CallDirection : Type := inbound | outbound.

(** ['true' | 'false' | 'hangup'] *)
Inductive MachineDetection : Type :=
| detection_true | detection_false | detection_hangup.

Module MakeCallRequest.
Record t : Type := {
  from : string;
  to : string;
  answer_url : string;
  answer_method : option HttpMethod;
  ring_url : option string;
  ring_method : option HttpMethod;
  hangup_url : option string;
  hangup_method : option HttpMethod;
  fallback_url : option string;
  fallback_method : option HttpMethod;
  caller_name : option string;
  send_digits : option string;
  send_on_preanswer : option bool;
  time_limit : option Q;
  hangup_on_ring : option Q;
  machine_detection : option MachineDetection;
  machine_detection_time : option Q;
  machine_detection_url : option string;
  machine_detection_method : option HttpMethod;
  sip_headers : option string;
  ring_timeout : option Q;
  parent_call_uuid : option string;
  error_if_parent_not_found : option bool
}.
End MakeCallRequest.

Module GetCallDetailsResponse.
Record t : Type := {
  api_id : string;
  call_uuid : string;
  from_number : string;
  to_number : string;
  call_direction : CallDirection;
  call_duration : Q;
  call_state : string;
  call_status : string;
  total_amount : string;
  total_rate : string;
  parent_call_uuid : option string;
  hangup_cause_code : Q;
  hangup_cause_name : string;
  hangup_source : string;
  resource_uri : string;
  recording_url : option string
}.
End GetCallDetailsResponse.

(** [{ message: string; api_id: string }] *)
Module TerminateCallResult.
Record t : Type := {
  message : string;
  api_id : string
}.
End TerminateCallResult.

(** The methods of [PlivoService] the manager calls: the requests to the
    Plivo API, each an operation on the outside world. *)
Module PlivoService.
Record t (W : Type) : Type := {
  makeCall : MakeCallRequest.t -> Op W MakeCallResponse.t;
(** the request is [{ callUuid }] *)
getCallDetails : string -> Op W GetCallDetailsResponse.t;
terminateCall : string -> Op W TerminateCallResult.t;
validateCredentials : Op W bool
}.
End PlivoService.

Module PlivoManagerConfig.
Record t : Type := {
  authId : string;
  authToken : string;
  defaultPhoneNumber : string;
  appBaseUrl : string;
  defaultTimeLimit : option Q;
  defaultRingTimeout : option Q
}.
End PlivoManagerConfig.

Module plivo_manager.
Section Class.
Context {W : Type}.
(** [encodeURIComponent] of the platform. *)
Variable encodeURIComponent : string -> string.

Record t : Type := {
  service : PlivoService.t W;
  config : PlivoManagerConfig.t
}.

(** [new PlivoManager(config)], the service built from the credentials
    by [newPlivoService]. *)
Definition constructor
    (newPlivoService : string -> string -> PlivoService.t W)
    (config : PlivoManagerConfig.t) : t :=
  {| config := config;
     service :=
       newPlivoService (PlivoManagerConfig.authId config)
         (PlivoManagerConfig.authToken config) |}.

Definition initiateRecordedCall (this : t)
    (request : InitiateRecordedCallRequest.t)
  : M W InitiateRecordedCallResponse.t :=
  let from :=
    orS (InitiateRecordedCallRequest.from request)
      (PlivoManagerConfig.defaultPhoneNumber (config this)) in
  let answerUrl :=
    orS (InitiateRecordedCallRequest.answerCallback request)
      (PlivoManagerConfig.appBaseUrl (config this) ++ "/api/plivo/answer")%string
  in
  let recordingCallbackUrl :=
    orS (InitiateRecordedCallRequest.recordingCallback request)
      (PlivoManagerConfig.appBaseUrl (config this) ++
       "/api/plivo/recording-callback")%string in
  let answerUrlWithParams :=
    (answerUrl ++ "?recording_callback=" ++
     encodeURIComponent recordingCallbackUrl)%string in
  let callRequest :=
    {| MakeCallRequest.from := from;
       MakeCallRequest.to := InitiateRecordedCallRequest.to request;
       MakeCallRequest.answer_url := answerUrlWithParams;
       MakeCallRequest.answer_method := Some POST;
       MakeCallRequest.ring_url := None;
       MakeCallRequest.ring_method := None;
       MakeCallRequest.hangup_url := None;
       MakeCallRequest.hangup_method := None;
       MakeCallRequest.fallback_url := None;
       MakeCallRequest.fallback_method := None;
       MakeCallRequest.caller_name :=
         InitiateRecordedCallRequest.callerName request;
       MakeCallRequest.send_digits := None;
       MakeCallRequest.send_on_preanswer := None;
       MakeCallRequest.time_limit :=
         Some (orQ (InitiateRecordedCallRequest.timeLimit request)
                 (orQ (PlivoManagerConfig.defaultTimeLimit (config this))
                    3600));
       MakeCallRequest.hangup_on_ring := None;
       MakeCallRequest.machine_detection := None;
       MakeCallRequest.machine_detection_time := None;
       MakeCallRequest.machine_detection_url := None;
       MakeCallRequest.machine_detection_method := None;
       MakeCallRequest.sip_headers := None;
       MakeCallRequest.ring_timeout :=
         Some (orQ (PlivoManagerConfig.defaultRingTimeout (config this))
                 30);
       MakeCallRequest.parent_call_uuid := None;
       MakeCallRequest.error_if_parent_not_found := None |} in
  response <- call (PlivoService.makeCall (service this) callRequest) ;;
  ret {| InitiateRecordedCallResponse.success := true;
         InitiateRecordedCallResponse.callUuid :=
           MakeCallResponse.request_uuid response;
         InitiateRecordedCallResponse.message :=
           MakeCallResponse.message response;
         InitiateRecordedCallResponse.apiId :=
           MakeCallResponse.api_id response |}.

Definition makeCall (this : t) (to : string) (from answerUrl : option string)
  : M W MakeCallResponse.t :=
  let callRequest :=
    {| MakeCallRequest.from :=
         orS from (PlivoManagerConfig.defaultPhoneNumber (config this));
       MakeCallRequest.to := to;
       MakeCallRequest.answer_url :=
         orS answerUrl
           (PlivoManagerConfig.appBaseUrl (config this) ++
            "/api/plivo/answer")%string;
       MakeCallRequest.answer_method := Some POST;
       MakeCallRequest.ring_url := None;
       MakeCallRequest.ring_method := None;
       MakeCallRequest.hangup_url := None;
       MakeCallRequest.hangup_method := None;
       MakeCallRequest.fallback_url := None;
       MakeCallRequest.fallback_method := None;
       MakeCallRequest.caller_name := None;
       MakeCallRequest.send_digits := None;
       MakeCallRequest.send_on_preanswer := None;
       MakeCallRequest.time_limit :=
         Some (orQ (PlivoManagerConfig.defaultTimeLimit (config this))
                 3600);
       MakeCallRequest.hangup_on_ring := None;
       MakeCallRequest.machine_detection := None;
       MakeCallRequest.machine_detection_time := None;
       MakeCallRequest.machine_detection_url := None;
       MakeCallRequest.machine_detection_method := None;
       MakeCallRequest.sip_headers := None;
       MakeCallRequest.ring_timeout :=
         Some (orQ (PlivoManagerConfig.defaultRingTimeout (config this))
                 30);
       MakeCallRequest.parent_call_uuid := None;
       MakeCallRequest.error_if_parent_not_found := None |} in
  call (PlivoService.makeCall (service this) callRequest).

Definition getCallDetails (this : t) (callUuid : string)
  : M W GetCallDetailsResponse.t :=
  call (PlivoService.getCallDetails (service this) callUuid).

Definition terminateCall (this : t) (callUuid : string)
  : M W TerminateCallResponse.t :=
  result <- call (PlivoService.terminateCall (service this) callUuid) ;;
  ret {| TerminateCallResponse.success := true;
         TerminateCallResponse.message :=
           TerminateCallResult.message result |}.

(** [['queued', 'ringing', 'in-progress'].includes(details.call_status)],
    and [false] when the details cannot be had. *)
Definition isCallActive (this : t) (callUuid : string) : M W bool :=
  try_catch
    (details <-
       call (PlivoService.getCallDetails (service this) callUuid) ;;
     ret (existsb (String.eqb (GetCallDetailsResponse.call_status details))
            ["queued"; "ringing"; "in-progress"]))
    (fun _ => ret false).

(** [details.call_status === 'completed' && details.recording_url] *)
Definition has_recording (details : GetCallDetailsResponse.t) : bool :=
  String.eqb (GetCallDetailsResponse.call_status details) "completed" &&
  truthy (GetCallDetailsResponse.recording_url details).

Section Polling.
Variable this : t.
Variable callUuid : string.
Variable maxAttempts : Z.
Variable delayMs : Q.

(** [for (let i = 0; i < maxAttempts; i++) { ... }] followed by
    [return null]. *)
Equations? (noeqns noind) poll_loop (i : Z)
  : M W (option GetCallDetailsResponse.t)
  by wf (Z.to_nat (maxAttempts - i)) lt :=
  poll_loop i with Z_lt_dec i maxAttempts := {
    | left _ =>
        details <-
          call (PlivoService.getCallDetails (service this) callUuid) ;;
        if has_recording details then ret (Some details)
        else sleep delayMs ;;; poll_loop (i + 1)
    | right _ => ret None }.
Proof. lia. Qed.
End Polling.

(** [waitForRecording(callUuid, maxAttempts = 30, delayMs = 2000)] *)
Definition waitForRecording (this : t) (callUuid : string)
    (maxAttempts : option Z) (delayMs : option Q)
  : M W (option GetCallDetailsResponse.t) :=
  let maxAttempts := match maxAttempts with Some n => n | None => 30 end in
  let delayMs := match delayMs with Some d => d | None => 2000%Q end in
  poll_loop this callUuid maxAttempts delayMs 0.

Definition validateCredentials (this : t) : M W bool :=
  call (PlivoService.validateCredentials (service this)).

End Class.
End plivo_manager.

(** An asynchronous computation as an operation of a world that also
    keeps what the computation slept on and printed. *)
Definition logged {W T : Type} (m : M W T) : Op (W * trace) T :=
  fun st => let '(r, w, tr) := m (fst st) in (r, (w, snd st ++ tr)).

(** The time of such a world: that of the world itself, and the time
    the computations logged have slept. *)
#[global] Instance logged_clock {W : Type} `{Clock W} : Clock (W * trace) :=
  fun st => (now (fst st) + slept (snd st))%Q.

(** The manager as the facade sees it: its world is that of the service
    together with the log of the manager. *)
Definition as_manager {W : Type} (encodeURIComponent : string -> string)
    (this : @plivo_manager.t W)
  : PlivoManager.t (W * trace) GetCallDetailsResponse.t :=
  {| PlivoManager.initiateRecordedCall := fun request =>
       logged (plivo_manager.initiateRecordedCall encodeURIComponent this
                 request);
     PlivoManager.makeCall := fun to from answerUrl =>
       logged (plivo_manager.makeCall this to from answerUrl);
     PlivoManager.getCallDetails := fun callUuid =>
       logged (plivo_manager.getCallDetails this callUuid);
     PlivoManager.terminateCall := fun callUuid =>
       logged (plivo_manager.terminateCall this callUuid);
     PlivoManager.waitForRecording := fun callUuid maxAttempts delayMs =>
       logged (plivo_manager.waitForRecording this callUuid
                 (Some maxAttempts) (Some delayMs)) |}.

(** A service whose every request is counted. *)
Definition spied_plivo_service {W : Type} (s : PlivoService.t W)
  : PlivoService.t (nat * W) :=
  {| PlivoService.makeCall := fun request =>
       spy_op (PlivoService.makeCall s request);
     PlivoService.getCallDetails := fun callUuid =>
       spy_op (PlivoService.getCallDetails s callUuid);
     PlivoService.terminateCall := fun callUuid =>
       spy_op (PlivoService.terminateCall s callUuid);
     PlivoService.validateCredentials :=
       spy_op (PlivoService.validateCredentials s) |}.

(** A manager over the service with every request counted. *)
Definition over_spied_service {W : Type} (this : @plivo_manager.t W)
  : @plivo_manager.t (nat * W) :=
  {| plivo_manager.service :=
       spied_plivo_service (plivo_manager.service this);
     plivo_manager.config := plivo_manager.config this |}.

(** The number of requests a method of the manager makes to the
    service. *)
Definition requests {W T : Type} (method : M (nat * W) T) (w : W) : nat :=
  fst (snd (fst (method (0%nat, w)))).

(** The details of a call whose recording is not there yet. *)
Definition pending (details : GetCallDetailsResponse.t) : Prop :=
  plivo_manager.has_recording details = false.

(** The service answers every request for the details of the call, and
    never with a recording. *)
Definition never_recorded {W : Type}
    (poll : M W GetCallDetailsResponse.t) (w : W) : Prop :=
  forall n, exists answers,
    outcomes poll n w = map Fulfilled answers /\ Forall pending answers.

(** What [waitForRecording] of the manager does, told by what the
    service answers to its requests [poll]: it returns the first details
    with a recording, having waited [delayMs] after each answer before;
    it returns [null] when [maxAttempts] answers had none, having waited
    after the last of them as well; and it rejects as soon as a request
    is rejected. *)
Definition polls_by_rounds {W : Type}
    (waitForRecording : M W (option GetCallDetailsResponse.t))
    (poll : M W GetCallDetailsResponse.t) (maxAttempts : Z) (delayMs : Q)
    (w : W) : Prop :=
  (forall answers details,
     Forall pending answers ->
     plivo_manager.has_recording details = true ->
     Z.of_nat (length answers) < maxAttempts ->
     outcomes poll (S (length answers)) w =
       map Fulfilled answers ++ [Fulfilled details] ->
     waitForRecording w =
     (Fulfilled (Some details), state_after poll (S (length answers)) w,
      repeat (Sleep delayMs) (length answers))) /\
  (forall answers,
     Forall pending answers ->
     length answers = Z.to_nat maxAttempts ->
     outcomes poll (length answers) w = map Fulfilled answers ->
     waitForRecording w =
     (Fulfilled None, state_after poll (length answers) w,
      repeat (Sleep delayMs) (length answers))) /\
  (forall answers e,
     Forall pending answers ->
     Z.of_nat (length answers) < maxAttempts ->
     outcomes poll (S (length answers)) w =
       map Fulfilled answers ++ [Rejected e] ->
     waitForRecording w =
     (Rejected e, state_after poll (S (length answers)) w,
      repeat (Sleep delayMs) (length answers))).

(** What [waitForRecording] of the manager keeps to, whatever the
    service answers: it makes [requests] requests, no more than
    [maxAttempts], and nothing else to the world; all it does besides is
    to wait [delayMs], [waits] times.  Details it returns are those of
    its last request and have a recording; [null] is returned after
    [maxAttempts] requests and as many waits, and in no other case; a
    rejection is that of its last request. *)
Definition polls_within_bounds {W : Type}
    (waitForRecording : M W (option GetCallDetailsResponse.t))
    (poll : M W GetCallDetailsResponse.t) (maxAttempts : Z) (delayMs : Q)
    (w : W) : Prop :=
  exists requests waits : nat,
    (requests <= Z.to_nat maxAttempts)%nat /\
    snd (fst (waitForRecording w)) = state_after poll requests w /\
    snd (waitForRecording w) = repeat (Sleep delayMs) waits /\
    match fst (fst (waitForRecording w)) with
    | Fulfilled (Some details) =>
        plivo_manager.has_recording details = true /\
        nth_error (outcomes poll requests w) waits =
          Some (Fulfilled details) /\
        requests = S waits
    | Fulfilled None =>
        requests = Z.to_nat maxAttempts /\ waits = requests
    | Rejected e =>
        nth_error (outcomes poll requests w) waits = Some (Rejected e) /\
        requests = S waits
    end.

(** The method makes the one request [op] to the service and settles as
    the request does, a fulfilment turned into [answer]. *)
Definition one_request {W T R : Type} (method : M W R) (op : Op W T)
    (answer : T -> R) : Prop :=
  forall w,
    method w =
    (match fst (op w) with
     | Fulfilled v => Fulfilled (answer v)
     | Rejected e => Rejected e
     end, snd (op w), []).

(** A call request with nothing left empty: a caller (given that the
    configuration has a default one), an answer URL to be fetched with
    [POST], and limits that are not [0]. *)
Definition filled_in (config : PlivoManagerConfig.t)
    (callRequest : MakeCallRequest.t) : Prop :=
  (PlivoManagerConfig.defaultPhoneNumber config <> EmptyString ->
   MakeCallRequest.from callRequest <> EmptyString) /\
  MakeCallRequest.answer_url callRequest <> EmptyString /\
  MakeCallRequest.answer_method callRequest = Some POST /\
  (exists limit,
     MakeCallRequest.time_limit callRequest = Some limit /\
     ~ (limit == 0)%Q) /\
  (exists timeout,
     MakeCallRequest.ring_timeout callRequest = Some timeout /\
     ~ (timeout == 0)%Q).

(** More collaborators. *)
Module Telephony.

Definition details (status : string) (recording : option string)
  : GetCallDetailsResponse.t :=
  {| GetCallDetailsResponse.api_id := "api-1";
     GetCallDetailsResponse.call_uuid := "call-1";
     GetCallDetailsResponse.from_number := "+15550199";
     GetCallDetailsResponse.to_number := "+15550100";
     GetCallDetailsResponse.call_direction := outbound;
     GetCallDetailsResponse.call_duration := 12;
     GetCallDetailsResponse.call_state := "ANSWER";
     GetCallDetailsResponse.call_status := status;
     GetCallDetailsResponse.total_amount := "0.00200";
     GetCallDetailsResponse.total_rate := "0.01000";
     GetCallDetailsResponse.parent_call_uuid := None;
     GetCallDetailsResponse.hangup_cause_code := 4000;
     GetCallDetailsResponse.hangup_cause_name := "Normal Hangup";
     GetCallDetailsResponse.hangup_source := "Callee";
     GetCallDetailsResponse.resource_uri := "/v1/Account/A/Call/call-1/";
     GetCallDetailsResponse.recording_url := recording |}.

(** A service of a world that counts the requests: the call is in
    progress on the first [ringing] requests for its details and
    completed, with its recording, from then on. *)
Definition service (ringing : nat) : PlivoService.t nat :=
  {| PlivoService.makeCall := fun _ n => (Fulfilled Fixture.made, S n);
     PlivoService.getCallDetails := fun _ n =>
       (Fulfilled
          (if (n <? ringing)%nat then details "in-progress" None
           else details "completed" (Some "https://rec/1.mp3")),
        S n);
     PlivoService.terminateCall := fun _ n =>
       (Fulfilled {| TerminateCallResult.message := "call terminated";
                     TerminateCallResult.api_id := "api-2" |}, S n);
     PlivoService.validateCredentials := fun n => (Fulfilled true, S n) |}.

(** A service whose call is completed and has no recording, however
    often its details are asked for. *)
Definition unrecorded : PlivoService.t nat :=
  {| PlivoService.makeCall := fun _ n => (Fulfilled Fixture.made, S n);
     PlivoService.getCallDetails := fun _ n =>
       (Fulfilled (details "completed" None), S n);
     PlivoService.terminateCall := fun _ n =>
       (Fulfilled {| TerminateCallResult.message := "call terminated";
                     TerminateCallResult.api_id := "api-2" |}, S n);
     PlivoService.validateCredentials := fun n => (Fulfilled true, S n) |}.

(** A service that rejects the first [failures] requests. *)
Definition flaky (failures : nat) : PlivoService.t nat :=
  {| PlivoService.makeCall := fun _ => Fixture.flaky failures Fixture.made;
     PlivoService.getCallDetails := fun _ =>
       Fixture.flaky failures (details "completed" None);
     PlivoService.terminateCall := fun _ =>
       Fixture.flaky failures
         {| TerminateCallResult.message := "call terminated";
            TerminateCallResult.api_id := "api-2" |};
     PlivoService.validateCredentials := Fixture.flaky failures true |}.

(** A service that keeps the call requests it is given. *)
Definition keeping : PlivoService.t (list MakeCallRequest.t) :=
  {| PlivoService.makeCall := fun request kept =>
       (Fulfilled Fixture.made, kept ++ [request]);
     PlivoService.getCallDetails := fun _ kept =>
       (Fulfilled (details "completed" None), kept);
     PlivoService.terminateCall := fun _ kept =>
       (Fulfilled {| TerminateCallResult.message := "call terminated";
                     TerminateCallResult.api_id := "api-2" |}, kept);
     PlivoService.validateCredentials := fun kept =>
       (Fulfilled true, kept) |}.

Definition managerConfig : PlivoManagerConfig.t :=
  {| PlivoManagerConfig.authId := "MA-ID";
     PlivoManagerConfig.authToken := "token";
     PlivoManagerConfig.defaultPhoneNumber := "+15550199";
     PlivoManagerConfig.appBaseUrl := "https://app.example";
     PlivoManagerConfig.defaultTimeLimit := None;
     PlivoManagerConfig.defaultRingTimeout := None |}.

Definition manager (ringing : nat) : @plivo_manager.t nat :=
  {| plivo_manager.service := service ringing;
     plivo_manager.config := managerConfig |}.

Definition over {W : Type} (service : PlivoService.t W)
  : @plivo_manager.t W :=
  {| plivo_manager.service := service;
     plivo_manager.config := managerConfig |}.

(** [{ to, timeLimit: 0, from: undefined }] with an empty
    [answerCallback]. *)
Definition unlimited : InitiateRecordedCallRequest.t :=
  {| InitiateRecordedCallRequest.to := "+15550100";
     InitiateRecordedCallRequest.from := None;
     InitiateRecordedCallRequest.callerName := None;
     InitiateRecordedCallRequest.timeLimit := Some 0%Q;
     InitiateRecordedCallRequest.recordingCallback := None;
     InitiateRecordedCallRequest.answerCallback := Some EmptyString |}.

End Telephony.

(* ================================================================== *)
(** ** The Deepgram manager ([deepgram-manager.ts]): what it works out
       of a transcription *)
(* ================================================================== *)

(** A JavaScript [Map] with numbers as keys: its entries in the order of
    insertion.  [set] on a key that is there replaces the value in
    place. *)
Module JsMap.
Definition t (V : Type) : Type := list (Z * V).

Fixpoint get {V : Type} (key : Z) (m : t V) : option V :=
  match m with
  | [] => None
  | (k, v) :: rest => if k =? key then Some v else get key rest
  end.

Fixpoint set {V : Type} (key : Z) (value : V) (m : t V) : t V :=
  match m with
  | [] => [(key, value)]
  | (k, v) :: rest =>
      if k =? key then (k, value) :: rest else (k, v) :: set key value rest
  end.

Definition size {V : Type} (m : t V) : nat := length m.
Definition keys {V : Type} (m : t V) : list Z := map fst m.
End JsMap.

(** A JavaScript [Set] of numbers: its elements in the order of
    insertion. *)
Module JsSet.
Definition t : Type := list Z.

Fixpoint add (value : Z) (s : t) : t :=
  match s with
  | [] => [value]
  | v :: rest => if v =? value then v :: rest else v :: add value rest
  end.

(** [new Set(array)] *)
Definition new (array : list Z) : t :=
  fold_left (fun s value => add value s) array [].

Definition size (s : t) : nat := length s.
End JsSet.

(** The numbers of a transcription (seconds, confidences) are measured,
    not counted: they are IEEE 754 doubles, and the arithmetic on them
    is that of the processor, rounding as it does. *)
From Stdlib Require Floats Uint63.

Module Number.
Import PrimFloat.

Definition t : Type := float.

Definition zero : t := 0%float.

(** [x + y], [x - y], [x / y], [x < y] *)
Definition add : t -> t -> t := PrimFloat.add.
Definition sub : t -> t -> t := PrimFloat.sub.

(** [x || 0]: [undefined], [0], [-0] and [NaN] are falsy. *)
Definition or_zero (x : option t) : t :=
  match x with
  | Some v => if (is_nan v || is_zero v)%bool then zero else v
  | None => zero
  end.

(** The number of a count, as [array.length] is (below [2^32]). *)
Definition of_nat (n : nat) : t := of_uint63 (Uint63.of_Z (Z.of_nat n)).
End Number.

Module DeepgramWord.
Record t : Type := {
  word : string;
  start : Number.t;
  end_ : Number.t;
  confidence : Number.t;
  punctuated_word : option string;
  speaker : option Z;
  speaker_confidence : option Number.t
}.
End DeepgramWord.

Module DeepgramUtterance.
Record t : Type := {
  start : Number.t;
  end_ : Number.t;
  confidence : Number.t;
  channel : Z;
  transcript : string;
  words : list DeepgramWord.t;
  speaker : Z;
  id : string
}.
End DeepgramUtterance.

(** [{ transaction_key, request_id, created }] *)
Module TranscriptionMetadata.
Record t : Type := {
  transaction_key : string;
  request_id : string;
  created : string
}.
End TranscriptionMetadata.

(** The simplified response of the Deepgram service. *)
Module TranscriptionResult.
Record t : Type := {
  transcript : string;
  confidence : Number.t;
  duration : Number.t;
  words : list DeepgramWord.t;
  utterances : option (list DeepgramUtterance.t);
  language : option string;
  metadata : TranscriptionMetadata.t
}.
End TranscriptionResult.

(** ['nova-2' | 'nova' | 'enhanced' | 'base' | 'whisper'] *)
Inductive DeepgramModel : Type := nova_2 | nova | enhanced | base | whisper.

(** [boolean | 'v2'] *)
Inductive Summarize : Type := summarize (b : bool) | summarize_v2.

(** ['POST' | 'PUT'] *)
Inductive CallbackMethod : Type := callback_POST | callback_PUT.

Module DeepgramTranscriptionOptions.
Record t : Type := {
  model : option DeepgramModel;
  language : option string;
  punctuate : option bool;
  profanity_filter : option bool;
  redact : option (list string);
  diarize : option bool;
  diarize_version : option string;
  smart_format : option bool;
  utterances : option bool;
  detect_language : option bool;
  paragraphs : option bool;
  summarize : option Summarize;
  detect_topics : option bool;
  intents : option bool;
  sentiment : option bool;
  keywords : option (list string);
  replace : option (list (string * string));
  search : option (list string);
  callback : option string;
  callback_method : option CallbackMethod
}.

(** A property of the second object, when it has it, replaces that of
    the first. *)
Definition over {A : Type} (first second : option A) : option A :=
  match second with
  | Some v => Some v
  | None => first
  end.

(** [{ ...first, ...second }]; [second] may be [undefined].  (An
    options object holds no property that is set to [undefined].) *)
Definition spread (first : t) (second : option t) : t :=
  match second with
  | None => first
  | Some second =>
      {| model := over (model first) (model second);
         language := over (language first) (language second);
         punctuate := over (punctuate first) (punctuate second);
         profanity_filter :=
           over (profanity_filter first) (profanity_filter second);
         redact := over (redact first) (redact second);
         diarize := over (diarize first) (diarize second);
         diarize_version :=
           over (diarize_version first) (diarize_version second);
         smart_format := over (smart_format first) (smart_format second);
         utterances := over (utterances first) (utterances second);
         detect_language :=
           over (detect_language first) (detect_language second);
         paragraphs := over (paragraphs first) (paragraphs second);
         summarize := over (summarize first) (summarize second);
         detect_topics := over (detect_topics first) (detect_topics second);
         intents := over (intents first) (intents second);
         sentiment := over (sentiment first) (sentiment second);
         keywords := over (keywords first) (keywords second);
         replace := over (replace first) (replace second);
         search := over (search first) (search second);
         callback := over (callback first) (callback second);
         callback_method :=
           over (callback_method first) (callback_method second) |}
  end.
End DeepgramTranscriptionOptions.

Module TranscribeUrlRequest.
Record t : Type := {
  url : string;
  options : option DeepgramTranscriptionOptions.t
}.
End TranscribeUrlRequest.

(** The methods of [DeepgramService] the manager calls; the full
    response of Deepgram and the audio buffer are handed on untouched
    and stay abstract. *)
Module DeepgramService.
Record t (W Response Buffer : Type) : Type := {
  transcribeFromUrl : TranscribeUrlRequest.t -> Op W Response;
  transcribeFromUrlSimplified :
    TranscribeUrlRequest.t -> Op W TranscriptionResult.t;
  transcribeBuffer :
    Buffer -> DeepgramTranscriptionOptions.t -> Op W Response;
  validateApiKey : Op W bool
}.
End DeepgramService.

Module DeepgramManagerConfig.
Record t : Type := {
  apiKey : string;
  defaultModel : option DeepgramModel;
  defaultLanguage : option string;
  enableSmartFormat : option bool;
  enableDiarization : option bool;
  enableUtterances : option bool;
  enableSentiment : option bool
}.
End DeepgramManagerConfig.

Module TranscribeRecordingRequest.
Record t : Type := {
  recordingUrl : string;
  callUuid : option string;
  language : option string;
  options : option DeepgramTranscriptionOptions.t
}.
End TranscribeRecordingRequest.

(** [{ transactionKey, requestId, created }] *)
Module RecordingMetadata.
Record t : Type := {
  transactionKey : string;
  requestId : string;
  created : string
}.
End RecordingMetadata.

Module TranscribeRecordingResponse.
Record t : Type := {
  success : bool;
  transcript : string;
  confidence : Number.t;
  duration : Number.t;
  wordCount : nat;
  utteranceCount : option nat;
  language : option string;
  metadata : RecordingMetadata.t;
  fullResponse : option TranscriptionResult.t
}.
End TranscribeRecordingResponse.

(** [{ speaker, text, start, end, confidence }] *)
Module InsightUtterance.
Record t : Type := {
  speaker : Z;
  text : string;
  start : Number.t;
  end_ : Number.t;
  confidence : Number.t
}.
End InsightUtterance.

(** ['positive' | 'negative' | 'neutral'] *)
Inductive Sentiment : Type := positive | negative | neutral.

(** What [transcribeWithInsights] resolves with. *)
Module Insights.
Record t : Type := {
  transcript : string;
  confidence : Number.t;
  duration : Number.t;
  speakers : nat;
  utterances : list InsightUtterance.t;
  sentiment : option Sentiment
}.
End Insights.

Module deepgram_manager.
Import Ascii.

(** [s.lastIndexOf(c)] for a string [c] of one character: the index of
    its last occurrence, [-1] when there is none. *)
Fixpoint lastIndexOf (c : Ascii.ascii) (s : string) : Z :=
  match s with
  | EmptyString => -1
  | String a rest =>
      let i := lastIndexOf c rest in
      if 0 <=? i then i + 1 else if Ascii.eqb a c then 0 else -1
  end.

(** [extractSummary(transcript, maxLength = 200)]; [substring(0, n)]
    takes a negative [n] for [0]. *)
Definition extractSummary (transcript : string) (maxLength : option Z)
  : string :=
  let maxLength := match maxLength with Some n => n | None => 200 end in
  if Z.of_nat (String.length transcript) <=? maxLength then transcript
  else
    let truncated := substring 0 (Z.to_nat maxLength) transcript in
    let lastSpaceIndex := lastIndexOf " "%char truncated in
    if 0 <? lastSpaceIndex
    then (substring 0 (Z.to_nat lastSpaceIndex) truncated ++ "...")%string
    else (truncated ++ "...")%string.


(** [{ speaker, text, duration }] *)
Record SpeakerTurn : Type := {
  turn_speaker : Z;
  turn_text : string;
  turn_duration : Number.t
}.

(** [extractSpeakerTurns(utterances)] *)
Definition extractSpeakerTurns (utterances : list DeepgramUtterance.t)
  : list SpeakerTurn :=
  map (fun u =>
         {| turn_speaker := DeepgramUtterance.speaker u;
            turn_text := DeepgramUtterance.transcript u;
            turn_duration :=
              Number.sub (DeepgramUtterance.end_ u)
                (DeepgramUtterance.start u) |})
    utterances.

(** [{ totalDuration, speakerCount, speakerDurations }] *)
Record ConversationStats : Type := {
  totalDuration : Number.t;
  speakerCount : nat;
  speakerDurations : JsMap.t Number.t
}.

(** The body of the [forEach] of [calculateConversationStats], on the
    two variables it updates. *)
Definition count_utterance (acc : JsMap.t Number.t * Number.t)
    (u : DeepgramUtterance.t) : JsMap.t Number.t * Number.t :=
  let '(speakerDurations, totalDuration) := acc in
  let duration :=
    Number.sub (DeepgramUtterance.end_ u) (DeepgramUtterance.start u) in
  let totalDuration := Number.add totalDuration duration in
  let currentDuration :=
    Number.or_zero
      (JsMap.get (DeepgramUtterance.speaker u) speakerDurations) in
  (JsMap.set (DeepgramUtterance.speaker u)
     (Number.add currentDuration duration) speakerDurations,
   totalDuration).

(** [calculateConversationStats(utterances)] *)
Definition calculateConversationStats
    (utterances : list DeepgramUtterance.t) : ConversationStats :=
  let '(speakerDurations, totalDuration) :=
    fold_left count_utterance utterances ([], Number.zero) in
  {| totalDuration := totalDuration;
     speakerCount := JsMap.size speakerDurations;
     speakerDurations := speakerDurations |}.


(** [flag !== false] *)
Definition not_false (flag : option bool) : bool :=
  match flag with
  | Some false => false
  | _ => true
  end.

(** [flag || false] *)
Definition or_false (flag : option bool) : bool :=
  match flag with
  | Some true => true
  | _ => false
  end.

(** [model || 'nova-2'] *)
Definition or_nova_2 (model : option DeepgramModel) : DeepgramModel :=
  match model with
  | Some model => model
  | None => nova_2
  end.

(** [array || []] on an optional array: an array, empty or not, is
    truthy. *)
Definition or_empty {A : Type} (array : option (list A)) : list A :=
  match array with
  | Some array => array
  | None => []
  end.

Section Class.
Context {W Response Buffer : Type}.

Record t : Type := {
  service : DeepgramService.t W Response Buffer;
  config : DeepgramManagerConfig.t
}.

(** [new DeepgramManager(config)], the service built from the API
    key by [newDeepgramService]. *)
Definition constructor
    (newDeepgramService : string -> DeepgramService.t W Response Buffer)
    (config : DeepgramManagerConfig.t) : t :=
  {| config := config;
     service := newDeepgramService (DeepgramManagerConfig.apiKey config) |}.

(** The response [transcribeRecording] makes of the result of the
    service. *)
Definition recording_response (result : TranscriptionResult.t)
  : TranscribeRecordingResponse.t :=
  {| TranscribeRecordingResponse.success := true;
     TranscribeRecordingResponse.transcript :=
       TranscriptionResult.transcript result;
     TranscribeRecordingResponse.confidence :=
       TranscriptionResult.confidence result;
     TranscribeRecordingResponse.duration :=
       TranscriptionResult.duration result;
     TranscribeRecordingResponse.wordCount :=
       length (TranscriptionResult.words result);
     TranscribeRecordingResponse.utteranceCount :=
       option_map (@length DeepgramUtterance.t)
         (TranscriptionResult.utterances result);
     TranscribeRecordingResponse.language :=
       TranscriptionResult.language result;
     TranscribeRecordingResponse.metadata :=
       {| RecordingMetadata.transactionKey :=
            TranscriptionMetadata.transaction_key
              (TranscriptionResult.metadata result);
          RecordingMetadata.requestId :=
            TranscriptionMetadata.request_id
              (TranscriptionResult.metadata result);
          RecordingMetadata.created :=
            TranscriptionMetadata.created
              (TranscriptionResult.metadata result) |};
     TranscribeRecordingResponse.fullResponse := Some result |}.

(** The options [transcribeRecording] asks with. *)
Definition recording_options (this : t)
    (request : TranscribeRecordingRequest.t)
  : DeepgramTranscriptionOptions.t :=
  DeepgramTranscriptionOptions.spread
    {| DeepgramTranscriptionOptions.model :=
         Some (or_nova_2
                 (DeepgramManagerConfig.defaultModel (config this)));
       DeepgramTranscriptionOptions.language :=
         Some (orS (TranscribeRecordingRequest.language request)
                 (orS (DeepgramManagerConfig.defaultLanguage
                         (config this)) "en"));
       DeepgramTranscriptionOptions.punctuate := Some true;
       DeepgramTranscriptionOptions.profanity_filter := None;
       DeepgramTranscriptionOptions.redact := None;
       DeepgramTranscriptionOptions.diarize :=
         Some (not_false
                 (DeepgramManagerConfig.enableDiarization
                    (config this)));
       DeepgramTranscriptionOptions.diarize_version := None;
       DeepgramTranscriptionOptions.smart_format :=
         Some (not_false
                 (DeepgramManagerConfig.enableSmartFormat
                    (config this)));
       DeepgramTranscriptionOptions.utterances :=
         Some (not_false
                 (DeepgramManagerConfig.enableUtterances
                    (config this)));
       DeepgramTranscriptionOptions.detect_language := None;
       DeepgramTranscriptionOptions.paragraphs := None;
       DeepgramTranscriptionOptions.summarize := None;
       DeepgramTranscriptionOptions.detect_topics := None;
       DeepgramTranscriptionOptions.intents := None;
       DeepgramTranscriptionOptions.sentiment :=
         Some (or_false
                 (DeepgramManagerConfig.enableSentiment (config this)));
       DeepgramTranscriptionOptions.keywords := None;
       DeepgramTranscriptionOptions.replace := None;
       DeepgramTranscriptionOptions.search := None;
       DeepgramTranscriptionOptions.callback := None;
       DeepgramTranscriptionOptions.callback_method := None |}
    (TranscribeRecordingRequest.options request).

Definition transcribeRecording (this : t)
    (request : TranscribeRecordingRequest.t)
  : M W TranscribeRecordingResponse.t :=
  let options := recording_options this request in
  let transcribeRequest :=
    {| TranscribeUrlRequest.url :=
         TranscribeRecordingRequest.recordingUrl request;
       TranscribeUrlRequest.options := Some options |} in
  result <-
    call (DeepgramService.transcribeFromUrlSimplified (service this)
            transcribeRequest) ;;
  ret (recording_response result).

(** The options [transcribeWithInsights] asks with. *)
Definition insight_options (this : t) : DeepgramTranscriptionOptions.t :=
  {| DeepgramTranscriptionOptions.model :=
       Some (or_nova_2 (DeepgramManagerConfig.defaultModel (config this)));
     DeepgramTranscriptionOptions.language :=
       Some (orS (DeepgramManagerConfig.defaultLanguage (config this))
               "en");
     DeepgramTranscriptionOptions.punctuate := Some true;
     DeepgramTranscriptionOptions.profanity_filter := None;
     DeepgramTranscriptionOptions.redact := None;
     DeepgramTranscriptionOptions.diarize := Some true;
     DeepgramTranscriptionOptions.diarize_version := None;
     DeepgramTranscriptionOptions.smart_format := Some true;
     DeepgramTranscriptionOptions.utterances := Some true;
     DeepgramTranscriptionOptions.detect_language := None;
     DeepgramTranscriptionOptions.paragraphs := None;
     DeepgramTranscriptionOptions.summarize := None;
     DeepgramTranscriptionOptions.detect_topics := None;
     DeepgramTranscriptionOptions.intents := None;
     DeepgramTranscriptionOptions.sentiment := Some true;
     DeepgramTranscriptionOptions.keywords := None;
     DeepgramTranscriptionOptions.replace := None;
     DeepgramTranscriptionOptions.search := None;
     DeepgramTranscriptionOptions.callback := None;
     DeepgramTranscriptionOptions.callback_method := None |}.

(** What [transcribeWithInsights] makes of the result of the
    service. *)
Definition insights (result : TranscriptionResult.t) : Insights.t :=
  let speakers :=
    JsSet.new
      (or_empty
         (option_map (map DeepgramUtterance.speaker)
            (TranscriptionResult.utterances result))) in
  let utterances :=
    or_empty
      (option_map
         (map (fun u =>
                 {| InsightUtterance.speaker :=
                      DeepgramUtterance.speaker u;
                    InsightUtterance.text :=
                      DeepgramUtterance.transcript u;
                    InsightUtterance.start := DeepgramUtterance.start u;
                    InsightUtterance.end_ := DeepgramUtterance.end_ u;
                    InsightUtterance.confidence :=
                      DeepgramUtterance.confidence u |}))
         (TranscriptionResult.utterances result)) in
  {| Insights.transcript := TranscriptionResult.transcript result;
     Insights.confidence := TranscriptionResult.confidence result;
     Insights.duration := TranscriptionResult.duration result;
     Insights.speakers := JsSet.size speakers;
     Insights.utterances := utterances;
     Insights.sentiment := None |}.

Definition transcribeWithInsights (this : t) (recordingUrl : string)
  : M W Insights.t :=
  let options := insight_options this in
  result <-
    call (DeepgramService.transcribeFromUrlSimplified (service this)
            {| TranscribeUrlRequest.url := recordingUrl;
               TranscribeUrlRequest.options := Some options |}) ;;
  ret (insights result).

(** The options [transcribeUrl] asks with. *)
Definition url_options (this : t)
    (options : option DeepgramTranscriptionOptions.t)
  : DeepgramTranscriptionOptions.t :=
  DeepgramTranscriptionOptions.spread
    {| DeepgramTranscriptionOptions.model :=
         Some (or_nova_2
                 (DeepgramManagerConfig.defaultModel (config this)));
       DeepgramTranscriptionOptions.language :=
         Some (orS (DeepgramManagerConfig.defaultLanguage
                      (config this)) "en");
       DeepgramTranscriptionOptions.punctuate := Some true;
       DeepgramTranscriptionOptions.profanity_filter := None;
       DeepgramTranscriptionOptions.redact := None;
       DeepgramTranscriptionOptions.diarize :=
         Some (not_false
                 (DeepgramManagerConfig.enableDiarization
                    (config this)));
       DeepgramTranscriptionOptions.diarize_version := None;
       DeepgramTranscriptionOptions.smart_format :=
         Some (not_false
                 (DeepgramManagerConfig.enableSmartFormat
                    (config this)));
       DeepgramTranscriptionOptions.utterances :=
         Some (not_false
                 (DeepgramManagerConfig.enableUtterances
                    (config this)));
       DeepgramTranscriptionOptions.detect_language := None;
       DeepgramTranscriptionOptions.paragraphs := None;
       DeepgramTranscriptionOptions.summarize := None;
       DeepgramTranscriptionOptions.detect_topics := None;
       DeepgramTranscriptionOptions.intents := None;
       DeepgramTranscriptionOptions.sentiment := None;
       DeepgramTranscriptionOptions.keywords := None;
       DeepgramTranscriptionOptions.replace := None;
       DeepgramTranscriptionOptions.search := None;
       DeepgramTranscriptionOptions.callback := None;
       DeepgramTranscriptionOptions.callback_method := None |}
    options.

Definition transcribeUrl (this : t) (url : string)
    (options : option DeepgramTranscriptionOptions.t) : M W Response :=
  let mergedOptions := url_options this options in
  call (DeepgramService.transcribeFromUrl (service this)
          {| TranscribeUrlRequest.url := url;
             TranscribeUrlRequest.options := Some mergedOptions |}).

(** The options [transcribeBuffer] asks with. *)
Definition buffer_options (this : t)
    (options : option DeepgramTranscriptionOptions.t)
  : DeepgramTranscriptionOptions.t :=
  DeepgramTranscriptionOptions.spread
    {| DeepgramTranscriptionOptions.model :=
         Some (or_nova_2
                 (DeepgramManagerConfig.defaultModel (config this)));
       DeepgramTranscriptionOptions.language :=
         Some (orS (DeepgramManagerConfig.defaultLanguage
                      (config this)) "en");
       DeepgramTranscriptionOptions.punctuate := Some true;
       DeepgramTranscriptionOptions.profanity_filter := None;
       DeepgramTranscriptionOptions.redact := None;
       DeepgramTranscriptionOptions.diarize := None;
       DeepgramTranscriptionOptions.diarize_version := None;
       DeepgramTranscriptionOptions.smart_format :=
         Some (not_false
                 (DeepgramManagerConfig.enableSmartFormat
                    (config this)));
       DeepgramTranscriptionOptions.utterances := None;
       DeepgramTranscriptionOptions.detect_language := None;
       DeepgramTranscriptionOptions.paragraphs := None;
       DeepgramTranscriptionOptions.summarize := None;
       DeepgramTranscriptionOptions.detect_topics := None;
       DeepgramTranscriptionOptions.intents := None;
       DeepgramTranscriptionOptions.sentiment := None;
       DeepgramTranscriptionOptions.keywords := None;
       DeepgramTranscriptionOptions.replace := None;
       DeepgramTranscriptionOptions.search := None;
       DeepgramTranscriptionOptions.callback := None;
       DeepgramTranscriptionOptions.callback_method := None |}
    options.

Definition transcribeBuffer (this : t) (buffer : Buffer)
    (options : option DeepgramTranscriptionOptions.t) : M W Response :=
  let mergedOptions := buffer_options this options in
  call (DeepgramService.transcribeBuffer (service this) buffer
          mergedOptions).

End Class.

End deepgram_manager.

(** The types the Deepgram facade is used at. *)
Definition deepgram_types (Response Buffer : Type) : DeepgramTypes.t :=
  {| DeepgramTypes.TranscribeRecordingRequest := TranscribeRecordingRequest.t;
     DeepgramTypes.TranscribeRecordingResponse :=
       TranscribeRecordingResponse.t;
     DeepgramTypes.DeepgramTranscriptionOptions :=
       DeepgramTranscriptionOptions.t;
     DeepgramTypes.DeepgramTranscriptionResponse := Response;
     DeepgramTypes.Insights := Insights.t;
     DeepgramTypes.Buffer := Buffer |}.

(** The Deepgram manager as the facade sees it. *)
Definition as_deepgram_manager {W Response Buffer : Type}
    (this : @deepgram_manager.t W Response Buffer)
  : DeepgramManager.t (W * trace) (deepgram_types Response Buffer) :=
  @DeepgramManager.Build_t (W * trace) (deepgram_types Response Buffer)
    (fun request => logged (deepgram_manager.transcribeRecording this request))
    (fun url options =>
       logged (deepgram_manager.transcribeUrl this url options))
    (fun recordingUrl =>
       logged (deepgram_manager.transcribeWithInsights this recordingUrl))
    (fun buffer options =>
       logged (deepgram_manager.transcribeBuffer this buffer options)).

(** A method of a facade brings the answer of the service through: when
    the [request] to the service is rejected with [reasons], no more of
    them than retries are allowed, and fulfilled with [v] when made
    once more, from a world and with a number of rejections that are
    [admitted], the method answers with the success envelope of
    [payload v] and the number of requests made; the service has been
    asked that often and nothing else has been done to the world. *)
Definition comes_through {I W T D : Type}
    (method : M (I * (W * trace)) (ResultEnvelope D)) (request : Op W T)
    (i : I) (admitted : W -> nat -> Prop) (maxRetries : Z)
    (payload : T -> D) (opened : option string) : Prop :=
  forall w log reasons v,
    admitted w (length reasons) ->
    fails_then_succeeds (call request) w reasons v ->
    Z.of_nat (length reasons) <= maxRetries ->
    exists i' tr,
      method (i, (w, log)) =
      (Fulfilled
         (success_envelope (payload v) (Z.of_nat (length reasons) + 1)
            opened),
       (i', (state_after (call request) (S (length reasons)) w, log)),
       tr).

(** The seconds [calculateConversationStats] has for a speaker after a
    row of utterances: nothing when none of them is the speaker's, and
    otherwise their durations added one after the other, in the order
    they were spoken, to [0] (and again to [0] after a sum that is [0]
    or not a number). *)
Definition spoken (speaker : Z) (utterances : list DeepgramUtterance.t)
    (current : option Number.t) : option Number.t :=
  fold_left
    (fun current u =>
       Some (Number.add (Number.or_zero current)
               (Number.sub (DeepgramUtterance.end_ u)
                  (DeepgramUtterance.start u))))
    (filter (fun u => DeepgramUtterance.speaker u =? speaker) utterances)
    current.

(** The numbers of a row, added one after the other to [0]. *)
Definition added_up (numbers : list Number.t) : Number.t :=
  fold_left Number.add numbers Number.zero.

(** More collaborators. *)
Module Transcript.
Import PrimFloat.

(** [1], [0.875], and the double next to [0.1]. *)
Definition one : Number.t := 1%float.
Definition sure : Number.t := 0.875%float.

Definition said (speaker : Z) (start end_ : Number.t) (text : string)
  : DeepgramUtterance.t :=
  {| DeepgramUtterance.start := start;
     DeepgramUtterance.end_ := end_;
     DeepgramUtterance.confidence := sure;
     DeepgramUtterance.channel := 0;
     DeepgramUtterance.transcript := text;
     DeepgramUtterance.words := [];
     DeepgramUtterance.speaker := speaker;
     DeepgramUtterance.id := "u" |}.

(** Two speakers taking turns. *)
Definition conversation : list DeepgramUtterance.t :=
  [said 0 0%float 3%float "Hello, this is the front desk.";
   said 1 3%float 5%float "Hi, I am calling about my order.";
   said 0 5%float 9%float "Of course, may I have the number?"].

Definition heard (word : string) (confidence : Number.t)
  : DeepgramWord.t :=
  {| DeepgramWord.word := word;
     DeepgramWord.start := 0%float;
     DeepgramWord.end_ := 1%float;
     DeepgramWord.confidence := confidence;
     DeepgramWord.punctuated_word := None;
     DeepgramWord.speaker := None;
     DeepgramWord.speaker_confidence := None |}.

Definition result (confidence : Number.t) (words : list DeepgramWord.t)
    (utterances : option (list DeepgramUtterance.t))
  : TranscriptionResult.t :=
  {| TranscriptionResult.transcript := "Hello, this is the front desk.";
     TranscriptionResult.confidence := confidence;
     TranscriptionResult.duration := 9%float;
     TranscriptionResult.words := words;
     TranscriptionResult.utterances := utterances;
     TranscriptionResult.language := Some "en";
     TranscriptionResult.metadata :=
       {| TranscriptionMetadata.transaction_key := "deprecated";
          TranscriptionMetadata.request_id := "req-1";
          TranscriptionMetadata.created := "2025-01-01T00:00:00Z" |} |}.

(** A service of a world that counts the requests: the first
    [failures] of them are rejected. *)
Definition service (failures : nat) : DeepgramService.t nat unit unit :=
  {| DeepgramService.transcribeFromUrl := fun _ => Fixture.flaky failures tt;
     DeepgramService.transcribeFromUrlSimplified := fun _ =>
       Fixture.flaky failures
         (result sure [heard "Hello" one] (Some conversation));
     DeepgramService.transcribeBuffer := fun _ _ =>
       Fixture.flaky failures tt;
     DeepgramService.validateApiKey := Fixture.flaky failures true |}.

(** [{ apiKey, enableDiarization: false, enableUtterances: false }] *)
Definition managerConfig : DeepgramManagerConfig.t :=
  {| DeepgramManagerConfig.apiKey := "key";
     DeepgramManagerConfig.defaultModel := None;
     DeepgramManagerConfig.defaultLanguage := None;
     DeepgramManagerConfig.enableSmartFormat := None;
     DeepgramManagerConfig.enableDiarization := Some false;
     DeepgramManagerConfig.enableUtterances := Some false;
     DeepgramManagerConfig.enableSentiment := None |}.

Definition manager (failures : nat) : @deepgram_manager.t nat unit unit :=
  {| deepgram_manager.service := service failures;
     deepgram_manager.config := managerConfig |}.
End Transcript.

(* ================================================================== *)
(** ** The clients of the application ([clients.ts]), got on demand *)
(* ================================================================== *)

(** [process.env], as far as the module reads it. *)
Module Env.
Record t : Type := {
  PLIVO_AUTH_ID : option string;
  PLIVO_AUTH_TOKEN : option string;
  PLIVO_PHONE_NUMBER : option string;
  APP_BASE_URL : option string;
  NEXT_PUBLIC_APP_BASE_URL : option string;
  DEEPGRAM_API_KEY : option string
}.
End Env.

(** [a || b] on two optional strings. *)
Definition orO (a b : option string) : option string :=
  if truthy a then a else b.

(** The string of a variable that is set. *)
Definition the (x : option string) : string :=
  match x with
  | Some s => s
  | None => EmptyString
  end.

Module getters.
Section Singletons.
Context {W Response Buffer : Type}.
Variable encodeURIComponent : string -> string.
(** [new PlivoService(authId, authToken)] and
    [new DeepgramService(apiKey)] *)
Variable newPlivoService : string -> string -> PlivoService.t W.
Variable newDeepgramService :
  string -> DeepgramService.t W Response Buffer.

Definition Plivo : Type :=
  @PlivoResilient.t (W * trace) GetCallDetailsResponse.t.
Definition Deepgram : Type :=
  @DeepgramResilient.t (W * trace) (deepgram_types Response Buffer).

(** The two variables of the module, [null] at first. *)
Record t : Type := {
  plivoClient : option Plivo;
  deepgramClient : option Deepgram
}.

Definition initial : t := {| plivoClient := None; deepgramClient := None |}.

(** [createPlivoResilient(config)]: the configuration is one object,
    read by the manager and by the facade. *)
Definition createPlivoResilient (managerConfig : PlivoManagerConfig.t)
    (config : ResilientConfig) : Plivo :=
  PlivoResilient.constructor config
    (as_manager encodeURIComponent
       (plivo_manager.constructor newPlivoService managerConfig)).

(** [createDeepgramResilient(config)] *)
Definition createDeepgramResilient (managerConfig : DeepgramManagerConfig.t)
    (config : ResilientConfig) : Deepgram :=
  DeepgramResilient.constructor config
    (as_deepgram_manager
       (deepgram_manager.constructor newDeepgramService managerConfig)).

Definition missing_plivo : thrown :=
  ThrownError
    (mkError
       "Missing required Plivo environment variables: PLIVO_AUTH_ID, PLIVO_AUTH_TOKEN, PLIVO_PHONE_NUMBER, APP_BASE_URL").

Definition missing_deepgram : thrown :=
  ThrownError
    (mkError
       "Missing required Deepgram environment variable: DEEPGRAM_API_KEY").

(** [getPlivoClient()], with the environment it reads. *)
Definition getPlivoClient (env : Env.t) : M t Plivo :=
  current <- gets plivoClient ;;
  match current with
  | Some client => ret client
  | None =>
      let authId := Env.PLIVO_AUTH_ID env in
      let authToken := Env.PLIVO_AUTH_TOKEN env in
      let defaultPhoneNumber := Env.PLIVO_PHONE_NUMBER env in
      let appBaseUrl :=
        orO (Env.APP_BASE_URL env) (Env.NEXT_PUBLIC_APP_BASE_URL env) in
      if negb (truthy authId) || negb (truthy authToken) ||
         negb (truthy defaultPhoneNumber) || negb (truthy appBaseUrl)
      then throw missing_plivo
      else
        let client :=
          createPlivoResilient
            {| PlivoManagerConfig.authId := the authId;
               PlivoManagerConfig.authToken := the authToken;
               PlivoManagerConfig.defaultPhoneNumber :=
                 the defaultPhoneNumber;
               PlivoManagerConfig.appBaseUrl := the appBaseUrl;
               PlivoManagerConfig.defaultTimeLimit := Some 3600%Q;
               PlivoManagerConfig.defaultRingTimeout := Some 30%Q |}
            {| circuitBreakerTimeout := Some 30000%Q;
               circuitBreakerErrorThresholdPercentage := Some 50%Q;
               circuitBreakerResetTimeout := Some 30000%Q;
               circuitBreakerRollingCountTimeout := None;
               circuitBreakerRollingCountBuckets := None;
               maxRetries := Some 3;
               retryDelay := Some 1000%Q;
               retryMultiplier := Some 2%Q;
               maxRetryDelay := Some 10000%Q |} in
        modify (fun st =>
                  {| plivoClient := Some client;
                     deepgramClient := deepgramClient st |}) ;;;
        ret client
  end.

(** [getDeepgramClient()] *)
Definition getDeepgramClient (env : Env.t) : M t Deepgram :=
  current <- gets deepgramClient ;;
  match current with
  | Some client => ret client
  | None =>
      let apiKey := Env.DEEPGRAM_API_KEY env in
      if negb (truthy apiKey) then throw missing_deepgram
      else
        let client :=
          createDeepgramResilient
            {| DeepgramManagerConfig.apiKey := the apiKey;
               DeepgramManagerConfig.defaultModel := Some nova_2;
               DeepgramManagerConfig.defaultLanguage := Some "en";
               DeepgramManagerConfig.enableSmartFormat := Some true;
               DeepgramManagerConfig.enableDiarization := Some true;
               DeepgramManagerConfig.enableUtterances := Some true;
               DeepgramManagerConfig.enableSentiment := Some false |}
            {| circuitBreakerTimeout := Some 60000%Q;
               circuitBreakerErrorThresholdPercentage := Some 50%Q;
               circuitBreakerResetTimeout := Some 30000%Q;
               circuitBreakerRollingCountTimeout := None;
               circuitBreakerRollingCountBuckets := None;
               maxRetries := Some 3;
               retryDelay := Some 2000%Q;
               retryMultiplier := Some 2%Q;
               maxRetryDelay := Some 20000%Q |} in
        modify (fun st =>
                  {| plivoClient := plivoClient st;
                     deepgramClient := Some client |}) ;;;
        ret client
  end.

(** [resetClients()]: the clients there are are shut down (which
    releases the timers of their breakers, no part of this model) and
    dropped. *)
Definition resetClients : M t unit :=
  modify (fun _ => {| plivoClient := None; deepgramClient := None |}).

(** The environment has what [getPlivoClient] needs. *)
Definition plivo_configured (env : Env.t) : Prop :=
  forall variable,
    In variable
      [Env.PLIVO_AUTH_ID env; Env.PLIVO_AUTH_TOKEN env;
       Env.PLIVO_PHONE_NUMBER env;
       orO (Env.APP_BASE_URL env) (Env.NEXT_PUBLIC_APP_BASE_URL env)] ->
    exists value, variable = Some value /\ value <> EmptyString.

(** The environment has what [getDeepgramClient] needs. *)
Definition deepgram_configured (env : Env.t) : Prop :=
  exists value,
    Env.DEEPGRAM_API_KEY env = Some value /\ value <> EmptyString.

(** A getter is lazy and keeps what it has made: from a module without
    the client it rejects with [missing], changing nothing, when the
    environment is not [configured]; when it is, the getter makes a
    client, keeps it and returns it, and leaves the other client
    alone; from then on it returns the client kept, whatever the
    environment has become. *)
Definition lazy_singleton {C O : Type} (getter : Env.t -> M t C)
    (client : t -> option C) (other : t -> O)
    (configured : Env.t -> Prop) (missing : thrown) : Prop :=
  (forall env st,
     client st = None -> ~ configured env ->
     getter env st = (Rejected missing, st, [])) /\
  (forall env st,
     client st = None -> configured env ->
     exists made st',
       getter env st = (Fulfilled made, st', []) /\
       client st' = Some made /\
       other st' = other st) /\
  (forall env st kept,
     client st = Some kept ->
     getter env st = (Fulfilled kept, st, [])).
End Singletons.
End getters.

(** More collaborators. *)
Module Deployment.
(** Every variable set, the base URL under its public name only. *)
Definition env : Env.t :=
  {| Env.PLIVO_AUTH_ID := Some "MA-ID";
     Env.PLIVO_AUTH_TOKEN := Some "token";
     Env.PLIVO_PHONE_NUMBER := Some "+15550199";
     Env.APP_BASE_URL := Some EmptyString;
     Env.NEXT_PUBLIC_APP_BASE_URL := Some "https://app.example";
     Env.DEEPGRAM_API_KEY := Some "key" |}.

(** No variable set. *)
Definition unset : Env.t :=
  {| Env.PLIVO_AUTH_ID := None;
     Env.PLIVO_AUTH_TOKEN := None;
     Env.PLIVO_PHONE_NUMBER := None;
     Env.APP_BASE_URL := None;
     Env.NEXT_PUBLIC_APP_BASE_URL := None;
     Env.DEEPGRAM_API_KEY := None |}.
End Deployment.

(* ================================================================== *)
(** ** The XML the manager writes, and the answer route *)
(* ================================================================== *)

(** The double quote and the line feed. *)
Definition quote : string := String (Ascii.ascii_of_nat 34) EmptyString.
Definition newline : string := String (Ascii.ascii_of_nat 10) EmptyString.

(** ['mp3' | 'wav'] *)
Inductive FileFormat : Type := mp3 | wav.

(** ['auto' | 'hybrid'] *)
Inductive TranscriptionType : Type := type_auto | type_hybrid.

(** The strings the three are. *)
Definition String_of_method (m : HttpMethod) : string :=
  match m with GET => "GET" | POST => "POST" end.

Definition String_of_format (f : FileFormat) : string :=
  match f with mp3 => "mp3" | wav => "wav" end.

Definition String_of_type (t : TranscriptionType) : string :=
  match t with type_auto => "auto" | type_hybrid => "hybrid" end.

(** [timeout] and [maxLength] are whole numbers of seconds. *)
Module RecordXMLOptions.
Record t : Type := {
  action : option string;
  method : option HttpMethod;
  fileFormat : option FileFormat;
  redirect : option bool;
  timeout : option Z;
  maxLength : option Z;
  playBeep : option bool;
  finishOnKey : option string;
  transcriptionType : option TranscriptionType;
  transcriptionUrl : option string;
  transcriptionMethod : option HttpMethod;
  callbackUrl : option string;
  callbackMethod : option HttpMethod
}.

(** [{}] *)
Definition empty : t :=
  {| action := None; method := None; fileFormat := None; redirect := None;
     timeout := None; maxLength := None; playBeep := None;
     finishOnKey := None; transcriptionType := None;
     transcriptionUrl := None; transcriptionMethod := None;
     callbackUrl := None; callbackMethod := None |}.
End RecordXMLOptions.

(** The three XML methods of [PlivoManager]; none of them reads the
    instance. *)
Module plivo_xml.

(** ['<?xml version="1.0" encoding="UTF-8"?>\n<Response>\n'] *)
Definition declaration : string :=
  ("<?xml version=" ++ quote ++ "1.0" ++ quote ++ " encoding=" ++ quote ++
   "UTF-8" ++ quote ++ "?>" ++ newline ++ "<Response>" ++ newline)%string.

(** [` name="${value}"`] *)
Definition attribute (name value : string) : string :=
  (" " ++ name ++ "=" ++ quote ++ value ++ quote)%string.

(** A property of the options, or its default in the destructuring. *)
Definition or_default {A : Type} (property : option A) (default : A) : A :=
  match property with
  | Some value => value
  | None => default
  end.

(** [generateRecordingXML(options = {})].  After the destructuring
    [method], [fileFormat], [redirect], [timeout], [maxLength] and
    [playBeep] are never [undefined] nor empty, so the tests on them
    hold. *)
Definition generateRecordingXML (options : option RecordXMLOptions.t)
  : string :=
  let options := or_default options RecordXMLOptions.empty in
  let action :=
    match RecordXMLOptions.action options with
    | Some action => Some action
    | None => RecordXMLOptions.callbackUrl options
    end in
  let method :=
    or_default (RecordXMLOptions.method options)
      (or_default (RecordXMLOptions.callbackMethod options) POST) in
  let fileFormat := or_default (RecordXMLOptions.fileFormat options) mp3 in
  let redirect := or_default (RecordXMLOptions.redirect options) true in
  let timeout := or_default (RecordXMLOptions.timeout options) 4 in
  let maxLength := or_default (RecordXMLOptions.maxLength options) 3600 in
  let playBeep := or_default (RecordXMLOptions.playBeep options) true in
  let finishOnKey :=
    or_default (RecordXMLOptions.finishOnKey options) "#" in
  let transcriptionType := RecordXMLOptions.transcriptionType options in
  let transcriptionUrl := RecordXMLOptions.transcriptionUrl options in
  let transcriptionMethod := RecordXMLOptions.transcriptionMethod options in
  let xml := declaration in
  let xml :=
    (xml ++
     "  <Speak>This call will be recorded for quality and training purposes.</Speak>"
     ++ newline)%string in
  let xml := (xml ++ "  <Record")%string in
  let xml :=
    if truthy action then (xml ++ attribute "action" (the action))%string
    else xml in
  let xml := (xml ++ attribute "method" (String_of_method method))%string in
  let xml :=
    (xml ++ attribute "fileFormat" (String_of_format fileFormat))%string in
  let xml := (xml ++ attribute "redirect" (String_of_bool redirect))%string in
  let xml := (xml ++ attribute "timeout" (String_of_number timeout))%string in
  let xml :=
    (xml ++ attribute "maxLength" (String_of_number maxLength))%string in
  let xml := (xml ++ attribute "playBeep" (String_of_bool playBeep))%string in
  let xml :=
    if truthy (Some finishOnKey)
    then (xml ++ attribute "finishOnKey" finishOnKey)%string
    else xml in
  let xml :=
    match transcriptionType with
    | Some type =>
        (xml ++ attribute "transcriptionType" (String_of_type type))%string
    | None => xml
    end in
  let xml :=
    if truthy transcriptionUrl
    then (xml ++ attribute "transcriptionUrl" (the transcriptionUrl))%string
    else xml in
  let xml :=
    match transcriptionMethod with
    | Some m =>
        (xml ++ attribute "transcriptionMethod" (String_of_method m))%string
    | None => xml
    end in
  let xml := (xml ++ "/>" ++ newline)%string in
  let xml := (xml ++ "</Response>")%string in
  xml.

(** [generateSpeakXML(text, voice?)] *)
Definition generateSpeakXML (text : string) (voice : option string)
  : string :=
  let xml := declaration in
  let xml := (xml ++ "  <Speak")%string in
  let xml :=
    if truthy voice then (xml ++ attribute "voice" (the voice))%string
    else xml in
  let xml := (xml ++ ">" ++ text ++ "</Speak>" ++ newline)%string in
  let xml := (xml ++ "</Response>")%string in
  xml.

(** [generateHangupXML(reason?)] *)
Definition generateHangupXML (reason : option string) : string :=
  let xml := declaration in
  let xml :=
    if truthy reason
    then (xml ++ "  <Speak>" ++ the reason ++ "</Speak>" ++ newline)%string
    else xml in
  let xml := (xml ++ "  <Hangup/>" ++ newline)%string in
  let xml := (xml ++ "</Response>")%string in
  xml.

End plivo_xml.

(** [new NextResponse(body, { status, headers })] *)
Module NextResponse.
Record t : Type := {
  body : string;
  status : Z;
  headers : list (string * string)
}.
End NextResponse.

(** The route [/api/plivo/answer]. *)
Module answer_route.
Section Route.
Context {W Response Buffer : Type}.
Variable encodeURIComponent : string -> string.
Variable newPlivoService : string -> string -> PlivoService.t W.

(** The XML of the [catch] block. *)
Definition errorXml : string :=
  ("<?xml version=" ++ quote ++ "1.0" ++ quote ++ " encoding=" ++ quote ++
   "UTF-8" ++ quote ++ "?>" ++ newline ++
   "<Response>" ++ newline ++
   "  <Speak>We're sorry, there was an error processing your call.</Speak>"
   ++ newline ++
   "  <Hangup/>" ++ newline ++
   "</Response>")%string.

Definition xml_response (xml : string) : NextResponse.t :=
  {| NextResponse.body := xml;
     NextResponse.status := 200;
     NextResponse.headers := [("Content-Type", "application/xml")] |}.

(** [POST(request)], with what [searchParams.get('recording_callback')]
    gives ([null] or a string) and the environment; the manager got
    from the client is asked for the XML, which does not depend on
    it. *)
Definition POST (recordingCallback : option string) (env : Env.t)
  : M (@getters.t W Response Buffer) NextResponse.t :=
  try_catch
    (plivoClient <-
       getters.getPlivoClient encodeURIComponent newPlivoService env ;;
     let xml :=
       plivo_xml.generateRecordingXML
         (Some
            {| RecordXMLOptions.action := None;
               RecordXMLOptions.method := None;
               RecordXMLOptions.fileFormat := Some mp3;
               RecordXMLOptions.redirect := Some true;
               RecordXMLOptions.timeout := Some 4;
               RecordXMLOptions.maxLength := Some 3600;
               RecordXMLOptions.playBeep := Some true;
               RecordXMLOptions.finishOnKey := Some "#";
               RecordXMLOptions.transcriptionType := None;
               RecordXMLOptions.transcriptionUrl := None;
               RecordXMLOptions.transcriptionMethod := None;
               RecordXMLOptions.callbackUrl := orO recordingCallback None;
               RecordXMLOptions.callbackMethod := Some POST |}) in
     ret (xml_response xml))
    (fun error =>
       console.error [Str "[Plivo Answer] Error:"; Err error] ;;;
       ret (xml_response errorXml)).

(** [GET(request)] *)
Definition GET (recordingCallback : option string) (env : Env.t)
  : M (@getters.t W Response Buffer) NextResponse.t :=
  POST recordingCallback env.
End Route.
End answer_route.

(* ================================================================== *)
(** * Properties *)
(* ================================================================== *)

(** ** The methods have the common shape *)

Lemma initiateRecordedCall_shape {W G : Type} `{Clock W}
    (request : InitiateRecordedCallRequest.t) :
  @PlivoResilient.initiateRecordedCall W G _ request =
  guarded plivo_params (Some PlivoResilient.makeCallBreakerL)
    (fun this =>
       PlivoManager.initiateRecordedCall (PlivoResilient.manager this) request)
    "initiateRecordedCall" initiated.
Proof. reflexivity. Qed.

Lemma makeCall_shape {W G : Type} `{Clock W} (to : string)
    (from answerUrl : option string) :
  @PlivoResilient.makeCall W G _ to from answerUrl =
  guarded plivo_params (Some PlivoResilient.makeCallBreakerL)
    (fun this =>
       PlivoManager.makeCall (PlivoResilient.manager this) to from answerUrl)
    "makeCall" made.
Proof. reflexivity. Qed.

Lemma terminateCall_shape {W G : Type} `{Clock W} (callUuid : string) :
  @PlivoResilient.terminateCall W G callUuid =
  guarded plivo_params None
    (fun this =>
       PlivoManager.terminateCall (PlivoResilient.manager this) callUuid)
    "terminateCall" terminated.
Proof. reflexivity. Qed.

Lemma transcribeUrl_shape {W : Type} `{Clock W} {D : DeepgramTypes.t}
    (url : string)
    (options : option (DeepgramTypes.DeepgramTranscriptionOptions D)) :
  @DeepgramResilient.transcribeUrl W _ D url options =
  guarded deepgram_params (Some DeepgramResilient.transcribeBreakerL)
    (fun this =>
       DeepgramManager.transcribeUrl (DeepgramResilient.manager this) url
         options)
    "transcribeUrl" (fun result => result).
Proof. reflexivity. Qed.

Lemma getCallDetails_shape {W G : Type} `{Clock W} (callUuid : string) :
  @PlivoResilient.getCallDetails W G _ callUuid =
  guarded plivo_params (Some PlivoResilient.getCallDetailsBreakerL)
    (fun this =>
       PlivoManager.getCallDetails (PlivoResilient.manager this) callUuid)
    "getCallDetails" (fun result => result).
Proof. reflexivity. Qed.

Lemma transcribeRecording_shape {W : Type} `{Clock W} {D : DeepgramTypes.t}
    (request : DeepgramTypes.TranscribeRecordingRequest D) :
  @DeepgramResilient.transcribeRecording W _ D request =
  guarded deepgram_params (Some DeepgramResilient.transcribeBreakerL)
    (fun this =>
       DeepgramManager.transcribeRecording (DeepgramResilient.manager this)
         request)
    "transcribeRecording" (fun result => result).
Proof. reflexivity. Qed.

Lemma transcribeWithInsights_shape {W : Type} `{Clock W} {D : DeepgramTypes.t}
    (recordingUrl : string) :
  @DeepgramResilient.transcribeWithInsights W _ D recordingUrl =
  guarded deepgram_params (Some DeepgramResilient.transcribeBreakerL)
    (fun this =>
       DeepgramManager.transcribeWithInsights
         (DeepgramResilient.manager this) recordingUrl)
    "transcribeWithInsights" (fun result => result).
Proof. reflexivity. Qed.

Lemma transcribeBuffer_shape {W : Type} `{Clock W} {D : DeepgramTypes.t}
    (buffer : DeepgramTypes.Buffer D)
    (options : option (DeepgramTypes.DeepgramTranscriptionOptions D)) :
  @DeepgramResilient.transcribeBuffer W _ D buffer options =
  guarded deepgram_params (Some DeepgramResilient.transcribeBreakerL)
    (fun this =>
       DeepgramManager.transcribeBuffer (DeepgramResilient.manager this)
         buffer options)
    "transcribeBuffer" (fun result => result).
Proof. reflexivity. Qed.

Lemma plivo_executeWithRetry_engine {W G St T : Type}
    (this : Lens St (@PlivoResilient.t W G)) (operation : M St T)
    (operationName : string) :
  PlivoResilient.executeWithRetry this operation operationName =
  engine plivo_params this operation operationName.
Proof. reflexivity. Qed.

Lemma deepgram_executeWithRetry_engine {W St T : Type} {D : DeepgramTypes.t}
    (this : Lens St (@DeepgramResilient.t W D)) (operation : M St T)
    (operationName : string) :
  DeepgramResilient.executeWithRetry this operation operationName =
  engine deepgram_params this operation operationName.
Proof. reflexivity. Qed.

(** ** The retry loop *)

(** The last equation, in the shape of the source loop. *)
Lemma retry_loop_step {St T : Type} (tag : string) (maxRetries : Z)
    (retryDelay retryMultiplier maxRetryDelay : Q)
    (operation : M St T) (operationName : string)
    (attempt : Z) (lastError : option JsError) :
  retry_loop tag maxRetries retryDelay retryMultiplier maxRetryDelay
    operation operationName attempt lastError =
  if attempt <=? maxRetries then
    try_catch operation
      (fun error =>
         on_failure tag maxRetries retryDelay retryMultiplier maxRetryDelay
           operationName attempt (asError error) ;;;
         retry_loop tag maxRetries retryDelay retryMultiplier maxRetryDelay
           operation operationName (attempt + 1) (Some (asError error)))
  else throw (throwable lastError).
Proof.
  unfold retry_loop at 1.
  rewrite Subterm.FixWf_unfold.
  - unfold retry_loop_functional at 1.
    destruct (Z_le_dec attempt maxRetries) as [Hle | Hgt]; cbn;
      destruct (Z.leb_spec attempt maxRetries); (reflexivity || lia).
  - intros x f g H. unfold retry_loop_functional.
    destruct (Z_le_dec x maxRetries) as [Hle | Hgt]; cbn; [ | reflexivity].
    rewrite H. reflexivity.
Qed.


Lemma on_failure_run {St : Type} (p : RetryParams) (operationName : string)
    (attempt : Z) (lastError : JsError) (st : St) :
  on_failure (p_tag p) (p_maxRetries p) (p_retryDelay p)
    (p_retryMultiplier p) (p_maxRetryDelay p) operationName attempt
    lastError st =
  (Fulfilled tt, st, failure_events p operationName attempt lastError).
Proof.
  unfold failure_events, on_failure.
  destruct (attempt <? p_maxRetries p); reflexivity.
Qed.

Section Attempts.
Context {St T : Type}.
Variable operation : M St T.

Lemma outcomes_length (n : nat) (st : St) :
  length (outcomes operation n st) = n.
Proof.
  revert st. induction n as [| n IH]; intros st; cbn; [reflexivity | ].
  destruct (operation st) as [[r st1] t]. cbn. now rewrite IH.
Qed.

Lemma outcomes_S (n : nat) (st : St) :
  outcomes operation (S n) st =
  fst (fst (operation st)) ::
  outcomes operation n (snd (fst (operation st))).
Proof. cbn. destruct (operation st) as [[r st1] t]. reflexivity. Qed.

Lemma state_after_S (n : nat) (st : St) :
  state_after operation (S n) st =
  state_after operation n (snd (fst (operation st))).
Proof. cbn. destruct (operation st) as [[r st1] t]. reflexivity. Qed.

(** One more invocation, seen from the end. *)
Lemma state_after_snoc (n : nat) (st : St) :
  state_after operation (S n) st =
  snd (fst (operation (state_after operation n st))).
Proof.
  revert st. induction n as [| n IH]; intros st.
  - rewrite state_after_S. reflexivity.
  - rewrite state_after_S, IH, state_after_S. reflexivity.
Qed.

Lemma outcomes_snoc (n : nat) (st : St) :
  outcomes operation (S n) st =
  outcomes operation n st ++
  [fst (fst (operation (state_after operation n st)))].
Proof.
  revert st. induction n as [| n IH]; intros st.
  - rewrite outcomes_S. reflexivity.
  - rewrite outcomes_S, IH, (outcomes_S n), state_after_S. reflexivity.
Qed.

(** A row of failures followed by a success, taken apart. *)
Lemma fails_then_succeeds_inv (st : St) (reasons : list thrown) (v : T) :
  fails_then_succeeds operation st reasons v ->
  outcomes operation (length reasons) st = map Rejected reasons /\
  exists t,
    operation (state_after operation (length reasons) st) =
    (Fulfilled v, state_after operation (S (length reasons)) st, t).
Proof.
  unfold fails_then_succeeds. intros H.
  rewrite outcomes_snoc in H.
  apply app_inj_tail_iff in H as [Hout Hlast].
  split; [exact Hout | ].
  rewrite state_after_snoc.
  destruct (operation (state_after operation (length reasons) st))
    as [[r st1] t] eqn:E.
  cbn in Hlast |- *. subst r. now exists t.
Qed.

Lemma always_rejects_prefix (st : St) (n : nat) :
  always_rejects operation st ->
  exists reasons,
    length reasons = n /\
    outcomes operation n st = map Rejected reasons.
Proof.
  intros H. specialize (H n).
  pose proof (outcomes_length n st) as Hlen.
  revert Hlen H. generalize (outcomes operation n st) as l.
  intros l. revert n. induction l as [| r l IH]; intros n Hlen Hall.
  - exists []. cbn in *. split; [lia | reflexivity].
  - apply Forall_cons_iff in Hall as [Hr Hrest].
    destruct n as [| n]; [discriminate | ].
    destruct (IH n) as [reasons [Hl Hm]]; [cbn in Hlen; lia | exact Hrest | ].
    destruct r as [v | e]; [contradiction | ].
    exists (e :: reasons). cbn. rewrite Hl, Hm. split; reflexivity.
Qed.
End Attempts.

Section RetryFacts.
Context {St T : Type}.
Variable p : RetryParams.
Variable operation : M St T.
Variable operationName : string.

Local Notation "'loop'" :=
  (retry_loop (p_tag p) (p_maxRetries p) (p_retryDelay p)
     (p_retryMultiplier p) (p_maxRetryDelay p) operation operationName).

(** Past the last attempt the loop is left and [lastError] thrown. *)
Lemma loop_exit (attempt : Z) (lastError : option JsError) (st : St) :
  p_maxRetries p < attempt ->
  loop attempt lastError st = (Rejected (throwable lastError), st, []).
Proof.
  intros H. rewrite retry_loop_step.
  destruct (Z.leb_spec attempt (p_maxRetries p)); [lia | reflexivity].
Qed.

(** An attempt that fulfils ends the loop with its value. *)
Lemma loop_success (attempt : Z) (lastError : option JsError) (st st1 : St)
    (v : T) (t : trace) :
  attempt <= p_maxRetries p ->
  operation st = (Fulfilled v, st1, t) ->
  loop attempt lastError st = (Fulfilled v, st1, t).
Proof.
  intros H E. rewrite retry_loop_step.
  destruct (Z.leb_spec attempt (p_maxRetries p)); [ | lia].
  unfold try_catch. rewrite E. reflexivity.
Qed.

(** An attempt that rejects is followed by the catch block and the next
    attempt. *)
Lemma loop_failure (attempt : Z) (lastError : option JsError) (st st1 : St)
    (e : thrown) (t : trace) :
  attempt <= p_maxRetries p ->
  operation st = (Rejected e, st1, t) ->
  loop attempt lastError st =
  let '(r, st2, t2) := loop (attempt + 1) (Some (asError e)) st1 in
  (r, st2, t ++ failure_events p operationName attempt (asError e) ++ t2).
Proof.
  intros H E. rewrite retry_loop_step.
  destruct (Z.leb_spec attempt (p_maxRetries p)); [ | lia].
  unfold try_catch. rewrite E. unfold bind.
  rewrite on_failure_run.
  destruct (retry_loop _ _ _ _ _ _ _ (attempt + 1) _ st1) as [[r st2] t2].
  reflexivity.
Qed.

(** A row of failed attempts: the loop goes on after it, with the last
    reason as [lastError]. *)
Lemma loop_prefix (reasons : list thrown) :
  forall (attempt : Z) (lastError : option JsError) (st : St),
    outcomes operation (length reasons) st = map Rejected reasons ->
    attempt + Z.of_nat (length reasons) <= p_maxRetries p + 1 ->
    exists pre,
      (quiet operation -> pre = retry_events p operationName attempt reasons)
      /\ loop attempt lastError st =
         let '(r, st', tr) :=
           loop (attempt + Z.of_nat (length reasons))
             (last_error lastError reasons)
             (state_after operation (length reasons) st) in
         (r, st', pre ++ tr).
Proof.
  induction reasons as [| e rest IH]; intros attempt lastError st Hout Hle.
  - exists []. split; [reflexivity | ].
    cbn [length Z.of_nat state_after last_error fold_left].
    rewrite Z.add_0_r.
    destruct (loop attempt lastError st) as [[r st'] tr]. reflexivity.
  - cbn [length] in Hout, Hle |- *.
    rewrite outcomes_S in Hout. cbn [map] in Hout.
    injection Hout as Hhead Hout.
    destruct (operation st) as [[r st1] t] eqn:E. cbn in Hhead, Hout. subst r.
    destruct (IH (attempt + 1) (Some (asError e)) st1 Hout) as [pre [Hq Hrun]];
      [lia | ].
    exists (t ++ failure_events p operationName attempt (asError e) ++ pre).
    split.
    + intros Q. rewrite (Hq Q). pose proof (Q st) as Qst. rewrite E in Qst.
      cbn in Qst. subst t. reflexivity.
    + rewrite (@loop_failure attempt lastError st st1 e t) by (lia || exact E).
      rewrite Hrun. rewrite state_after_S, E. cbn [fst snd].
      replace (attempt + Z.of_nat (S (length rest)))
        with (attempt + 1 + Z.of_nat (length rest)) by lia.
      change (last_error lastError (e :: rest))
        with (last_error (Some (asError e)) rest).
      destruct (loop (attempt + 1 + Z.of_nat (length rest)) _ _)
        as [[r st'] tr].
      rewrite <- !app_assoc. reflexivity.
Qed.

(** Failures up to the bound, then a success. *)
Lemma loop_fails_then_succeeds (reasons : list thrown) (v : T) (st : St)
    (lastError : option JsError) :
  fails_then_succeeds operation st reasons v ->
  Z.of_nat (length reasons) <= p_maxRetries p ->
  exists tr,
    (quiet operation -> tr = retry_events p operationName 0 reasons) /\
    loop 0 lastError st =
    (Fulfilled v, state_after operation (S (length reasons)) st, tr).
Proof.
  intros H Hle.
  destruct (fails_then_succeeds_inv H) as [Hout [t Hlast]].
  destruct (loop_prefix reasons 0 lastError st Hout) as [pre [Hq Hrun]];
    [lia | ].
  exists (pre ++ t). split.
  - intros Q. rewrite (Hq Q). pose proof (Q (state_after operation
      (length reasons) st)) as Qst. rewrite Hlast in Qst. cbn in Qst.
    subst t. apply app_nil_r.
  - rewrite Hrun.
    rewrite (@loop_success _ _ (state_after operation (length reasons) st)
               (state_after operation (S (length reasons)) st) v t);
      [reflexivity | lia | exact Hlast].
Qed.

(** Failures on every attempt the bound allows. *)
Lemma loop_exhausted (reasons : list thrown) (st : St)
    (lastError : option JsError) :
  length reasons = Z.to_nat (p_maxRetries p + 1) ->
  outcomes operation (length reasons) st = map Rejected reasons ->
  exists tr,
    (quiet operation -> tr = retry_events p operationName 0 reasons) /\
    loop 0 lastError st =
    (Rejected (throwable (last_error lastError reasons)),
     state_after operation (length reasons) st, tr).
Proof.
  intros Hlen Hout.
  destruct (Z.ltb_spec (p_maxRetries p) 0) as [Hneg | Hpos].
  - destruct reasons as [| e rest]; [ | cbn in Hlen; lia].
    exists []. split; [reflexivity | ].
    rewrite loop_exit by lia. reflexivity.
  - destruct (loop_prefix reasons 0 lastError st Hout) as [pre [Hq Hrun]];
      [lia | ].
    exists pre. split; [exact Hq | ].
    rewrite Hrun, loop_exit by lia.
    rewrite app_nil_r. reflexivity.
Qed.

(** What every attempt keeps, the loop keeps. *)
Lemma loop_invariant (P : St -> Prop) :
  (forall st, P st -> P (snd (fst (operation st)))) ->
  forall (n : nat) (attempt : Z) (lastError : option JsError) (st : St),
    n = Z.to_nat (p_maxRetries p + 1 - attempt) ->
    P st -> P (snd (fst (loop attempt lastError st))).
Proof.
  intros Hop. induction n as [| n IH]; intros attempt lastError st Hn HP.
  - rewrite loop_exit by lia. exact HP.
  - destruct (operation st) as [[[v | e] st1] t] eqn:E.
    + rewrite (@loop_success attempt lastError st st1 v t)
        by (lia || exact E).
      specialize (Hop st HP). rewrite E in Hop. exact Hop.
    + rewrite (@loop_failure attempt lastError st st1 e t)
        by (lia || exact E).
      specialize (Hop st HP). rewrite E in Hop. cbn in Hop.
      specialize (IH (attempt + 1) (Some (asError e)) st1).
      destruct (loop (attempt + 1) (Some (asError e)) st1) as [[r st2] t2].
      apply IH; [lia | exact Hop].
Qed.
End RetryFacts.

(** ** The circuit breaker *)

Lemma succeed_run (b : CircuitBreaker.t) :
  CircuitBreaker.succeed b =
  (Fulfilled tt, snd (fst (CircuitBreaker.succeed b)),
   snd (CircuitBreaker.succeed b)).
Proof.
  unfold CircuitBreaker.succeed, bind, modify, gets, ret,
    CircuitBreaker.transition.
  cbn. destruct (CircuitBreaker.state b); reflexivity.
Qed.

Lemma fail_run (b : CircuitBreaker.t) :
  CircuitBreaker.fail b =
  (Fulfilled tt, snd (fst (CircuitBreaker.fail b)),
   snd (CircuitBreaker.fail b)).
Proof.
  unfold CircuitBreaker.fail, bind, modify, gets, ret,
    CircuitBreaker.transition.
  cbn. destruct (CircuitBreaker.state b); try reflexivity.
  destruct (Qle_bool _ _); reflexivity.
Qed.

Lemma succeed_window (b : CircuitBreaker.t) :
  CircuitBreaker.window (snd (fst (CircuitBreaker.succeed b))) =
  CircuitBreaker.window b ++ [CircuitBreaker.Success].
Proof.
  unfold CircuitBreaker.succeed, bind, modify, gets, ret,
    CircuitBreaker.transition.
  cbn. destruct (CircuitBreaker.state b); reflexivity.
Qed.

Lemma fail_window (b : CircuitBreaker.t) :
  CircuitBreaker.window (snd (fst (CircuitBreaker.fail b))) =
  CircuitBreaker.window b ++ [CircuitBreaker.Failure].
Proof.
  unfold CircuitBreaker.fail, bind, modify, gets, ret,
    CircuitBreaker.transition.
  cbn. destruct (CircuitBreaker.state b); try reflexivity.
  destruct (Qle_bool _ _); reflexivity.
Qed.

(** A trial that went through and succeeded leaves the breaker closed. *)
Lemma succeed_closes (b : CircuitBreaker.t) :
  CircuitBreaker.opened b = false ->
  CircuitBreaker.state (snd (fst (CircuitBreaker.succeed b))) =
  CircuitBreaker.closed.
Proof.
  unfold CircuitBreaker.opened, CircuitBreaker.succeed, bind, modify, gets,
    ret, CircuitBreaker.transition.
  cbn. destruct (CircuitBreaker.state b) eqn:E; intros H;
    cbn; rewrite ?E; (reflexivity || discriminate).
Qed.

Lemma call_run {W T : Type} (op : Op W T) (w : W) :
  call op w = (fst (op w), snd (op w), []).
Proof. unfold call. destruct (op w) as [r w1]. reflexivity. Qed.

Section ShapeFacts.
Context {I W : Type}.
Variable params : I -> RetryParams.

Lemma engine_run {St T : Type} (this : Lens St I) (operation : M St T)
    (operationName : string) (st : St) :
  engine params this operation operationName st =
  retry_loop (p_tag (params (view this st)))
    (p_maxRetries (params (view this st)))
    (p_retryDelay (params (view this st)))
    (p_retryMultiplier (params (view this st)))
    (p_maxRetryDelay (params (view this st))) operation operationName
    0 None st.
Proof.
  unfold engine, bind, gets.
  destruct (retry_loop _ _ _ _ _ _ _ _ _ st) as [[r st1] t]. reflexivity.
Qed.

Section Counting.
Context {T : Type}.
Variable op : I -> Op W T.

Lemma counting_run (rc : Z) (i : I) (w : W) :
  counting op (rc, (i, w)) =
  (fst (op i w), (rc + 1, (i, snd (op i w))), []).
Proof.
  unfold counting, bind, modify, gets, zoom, call. cbn.
  destruct (op i w) as [r w1]. reflexivity.
Qed.

Lemma counting_quiet : quiet (counting op).
Proof. intros [rc [i w]]. rewrite counting_run. reflexivity. Qed.

Lemma counting_outcomes (n : nat) :
  forall (rc : Z) (i : I) (w : W),
    outcomes (counting op) n (rc, (i, w)) = outcomes (call (op i)) n w.
Proof.
  induction n as [| n IH]; intros rc i w; [reflexivity | ].
  rewrite !outcomes_S, counting_run, call_run. cbn [fst snd].
  rewrite IH. reflexivity.
Qed.

Lemma counting_state_after (n : nat) :
  forall (rc : Z) (i : I) (w : W),
    state_after (counting op) n (rc, (i, w)) =
    (rc + Z.of_nat n, (i, state_after (call (op i)) n w)).
Proof.
  induction n as [| n IH]; intros rc i w.
  - cbn. now rewrite Z.add_0_r.
  - rewrite !state_after_S, counting_run, call_run. cbn [fst snd].
    rewrite IH. f_equal. lia.
Qed.

(** The retrying run never touches the instance. *)
Lemma engine_keeps_instance (operationName : string) (rc : Z) (i : I)
    (w : W) :
  exists r rc' w' tr,
    engine params (composeL sndL fstL) (counting op) operationName
      (rc, (i, w)) = (r, (rc', (i, w')), tr).
Proof.
  rewrite engine_run.
  set (p := params (view (composeL sndL fstL) (rc, (i, w)))).
  pose proof (@loop_invariant _ _ p (counting op) operationName
                (fun st => fst (snd st) = i)) as Inv.
  specialize (Inv (fun st H => ltac:(destruct st as [rc0 [i0 w0]];
    rewrite counting_run; exact H))).
  specialize (Inv _ 0 None (rc, (i, w)) eq_refl eq_refl).
  destruct (retry_loop _ _ _ _ _ _ _ _ _ _) as [[r [rc' [i' w']]] tr].
  cbn in Inv. subst i'. now exists r, rc', w', tr.
Qed.
End Counting.
End ShapeFacts.

(** ** The envelope around a guarded run *)

Section EnvelopedFacts.
Context {I W T D : Type} `{Clock W}.
Variable payload : T -> D.
Variable m : M (Z * (I * W)) T.

Lemma enveloped_ungated (i : I) (w w' : W) (r : settled T) (rc : Z)
    (tr : trace) :
  m (0, (i, w)) = (r, (rc, (i, w')), tr) ->
  enveloped None payload m (i, w) =
  (Fulfilled
     match r with
     | Fulfilled v => success_envelope (payload v) rc None
     | Rejected e => failure_envelope e None
     end, (i, w'), tr).
Proof.
  intros E.
  unfold enveloped, with_local, try_catch, bind, gate, gets, ret.
  rewrite E. destruct r as [v | e]; cbn; rewrite ?app_nil_r; reflexivity.
Qed.

Variable b : Lens I CircuitBreaker.t.
Hypothesis b_lawful : lawful b.

(** An open breaker: no run, one rejection counted. *)
Lemma enveloped_open (i : I) (w : W) :
  CircuitBreaker.opened (view b i) = true ->
  enveloped (Some b) payload m (i, w) =
  (Fulfilled (failure_envelope CircuitBreaker.circuit_open (Some "true")),
   (update b (CircuitBreaker.record CircuitBreaker.Reject (view b i)) i, w),
   []).
Proof.
  intros Hopen.
  unfold CircuitBreaker.opened in Hopen.
  unfold enveloped, with_local, try_catch, bind, gate, CircuitBreaker.fire,
    bind, gets, ret, throw, zoom, modify, sampled.
  cbn [view update composeL sndL fstL fst snd].
  destruct (CircuitBreaker.state (view b i)) eqn:E; try discriminate.
  cbn [view update composeL sndL fstL fst snd].
  rewrite b_lawful. unfold CircuitBreaker.opened. cbn. rewrite E.
  reflexivity.
Qed.

(** A breaker that lets the run through counts its outcome once: that
    of the run when it was in time, a failure when it was late. *)
Lemma enveloped_through (i : I) (w w' : W) (r : settled T) (rc : Z)
    (tr : trace) :
  CircuitBreaker.opened (view b i) = false ->
  m (0, (i, w)) = (r, (rc, (i, w')), tr) ->
  enveloped (Some b) payload m (i, w) =
  match CircuitBreaker.verdict (view b i) (elapsed w w' tr) r with
  | Fulfilled v =>
      let b' := snd (fst (CircuitBreaker.succeed (view b i))) in
      (Fulfilled
         (success_envelope (payload v) rc
            (Some (String_of_bool (CircuitBreaker.opened b')))),
       (update b b' i, w'),
       tr ++ snd (CircuitBreaker.succeed (view b i)))
  | Rejected e =>
      let b' := snd (fst (CircuitBreaker.fail (view b i))) in
      (Fulfilled
         (failure_envelope e
            (Some (String_of_bool (CircuitBreaker.opened b')))),
       (update b b' i, w'),
       tr ++ snd (CircuitBreaker.fail (view b i)))
  end.
Proof.
  intros Hopen E.
  unfold CircuitBreaker.opened in Hopen.
  unfold enveloped, with_local, try_catch, gate, CircuitBreaker.fire.
  unfold bind at 1 2. unfold gets at 1.
  cbn [view update composeL sndL fstL fst snd].
  assert (Hrun :
    (started <- gets (fun st : Z * (I * W) => now (snd (snd st))) ;;
     run <- CircuitBreaker.timed m ;;
     ended <- gets (fun st : Z * (I * W) => now (snd (snd st))) ;;
     match
       CircuitBreaker.verdict (view b i) (ended - started + snd run)%Q
         (fst run)
     with
     | Fulfilled result =>
         zoom (composeL (composeL sndL fstL) b) CircuitBreaker.succeed ;;;
         ret result
     | Rejected reason =>
         zoom (composeL (composeL sndL fstL) b) CircuitBreaker.fail ;;;
         throw reason
     end) (0, (i, w)) =
    match CircuitBreaker.verdict (view b i) (elapsed w w' tr) r with
    | Fulfilled v =>
        (Fulfilled v,
         (rc, (update b (snd (fst (CircuitBreaker.succeed (view b i)))) i,
               w')),
         tr ++ snd (CircuitBreaker.succeed (view b i)))
    | Rejected e =>
        (Rejected e,
         (rc, (update b (snd (fst (CircuitBreaker.fail (view b i)))) i,
               w')),
         tr ++ snd (CircuitBreaker.fail (view b i)))
    end).
  { unfold bind, gets, CircuitBreaker.timed, zoom, ret, throw. rewrite E.
    cbn [fst snd]. fold (elapsed w w' tr).
    destruct (CircuitBreaker.verdict (view b i) (elapsed w w' tr) r)
      as [v | e]; cbn [view update composeL sndL fstL fst snd].
    - rewrite (succeed_run (view b i)). cbn [fst snd app].
      rewrite !app_nil_r. reflexivity.
    - rewrite (fail_run (view b i)). cbn [fst snd app].
      rewrite !app_nil_r. reflexivity. }
  destruct (CircuitBreaker.state (view b i)) eqn:Est; try discriminate.
  - rewrite Hrun.
    destruct (CircuitBreaker.verdict (view b i) (elapsed w w' tr) r)
      as [v | e];
      unfold bind, gets, ret, sampled;
      cbn [view update composeL sndL fstL fst snd];
      rewrite b_lawful, ?app_nil_r; reflexivity.
  - rewrite Hrun.
    destruct (CircuitBreaker.verdict (view b i) (elapsed w w' tr) r)
      as [v | e];
      unfold bind, gets, ret, sampled;
      cbn [view update composeL sndL fstL fst snd];
      rewrite b_lawful, ?app_nil_r; reflexivity.
Qed.
End EnvelopedFacts.

(** ** The breakers of the two classes *)

Lemma makeCallBreakerL_lawful {W G : Type} :
  lawful (@PlivoResilient.makeCallBreakerL W G).
Proof. intros b this. reflexivity. Qed.

Lemma getCallDetailsBreakerL_lawful {W G : Type} :
  lawful (@PlivoResilient.getCallDetailsBreakerL W G).
Proof. intros b this. reflexivity. Qed.

Lemma transcribeBreakerL_lawful {W : Type} {D : DeepgramTypes.t} :
  lawful (@DeepgramResilient.transcribeBreakerL W D).
Proof. intros b this. reflexivity. Qed.

(** ** What holds of every method of the common shape *)

Lemma success_envelope_exactly_one {D : Type} (payload : D) (rc : Z)
    (opened : option string) :
  exactly_one_of (success_envelope payload rc opened).
Proof.
  unfold exactly_one_of. cbn. intuition discriminate.
Qed.

Lemma failure_envelope_exactly_one {D : Type} (reason : thrown)
    (opened : option string) :
  exactly_one_of (@failure_envelope D reason opened).
Proof.
  unfold exactly_one_of. cbn. intuition discriminate.
Qed.

Lemma String_of_bool_cases (flag : bool) (s : option string) :
  s = Some (String_of_bool flag) ->
  (s = Some "true" \/ s = Some "false") /\
  s <> Some "closed" /\ s <> Some "open" /\ s <> Some "half-open".
Proof.
  intros ->. destruct flag; cbn; repeat split; auto; discriminate.
Qed.

Section GuardedFacts.
Context {I W T D : Type} `{Clock W}.
Variable params : I -> RetryParams.
Variable op : I -> Op W T.
Variable operationName : string.
Variable payload : T -> D.

(** The two ways a method without a breaker ends. *)
Lemma guarded_ungated_cases (i : I) (w : W) :
  exists r rc w' tr,
    engine params (composeL sndL fstL) (counting op) operationName
      (0, (i, w)) = (r, (rc, (i, w')), tr) /\
    guarded params None op operationName payload (i, w) =
    (Fulfilled
       match r with
       | Fulfilled v => success_envelope (payload v) rc None
       | Rejected e => failure_envelope e None
       end, (i, w'), tr).
Proof.
  destruct (engine_keeps_instance params op operationName 0 i w)
    as (r & rc & w' & tr & E).
  exists r, rc, w', tr. split; [exact E | ].
  unfold guarded. now apply enveloped_ungated.
Qed.

Variable b : Lens I CircuitBreaker.t.
Hypothesis b_lawful : lawful b.

(** The three ways a method with a breaker ends. *)
Lemma guarded_gated_cases (i : I) (w : W) :
  (CircuitBreaker.opened (view b i) = true /\
   guarded params (Some b) op operationName payload (i, w) =
   (Fulfilled (failure_envelope CircuitBreaker.circuit_open (Some "true")),
    (update b (CircuitBreaker.record CircuitBreaker.Reject (view b i)) i, w),
    []))
  \/
  (CircuitBreaker.opened (view b i) = false /\
   exists r rc w' tr,
     engine params (composeL sndL fstL) (counting op) operationName
       (0, (i, w)) = (r, (rc, (i, w')), tr) /\
     guarded params (Some b) op operationName payload (i, w) =
     match CircuitBreaker.verdict (view b i) (elapsed w w' tr) r with
     | Fulfilled v =>
         let b' := snd (fst (CircuitBreaker.succeed (view b i))) in
         (Fulfilled
            (success_envelope (payload v) rc
               (Some (String_of_bool (CircuitBreaker.opened b')))),
          (update b b' i, w'),
          tr ++ snd (CircuitBreaker.succeed (view b i)))
     | Rejected e =>
         let b' := snd (fst (CircuitBreaker.fail (view b i))) in
         (Fulfilled
            (failure_envelope e
               (Some (String_of_bool (CircuitBreaker.opened b')))),
          (update b b' i, w'),
          tr ++ snd (CircuitBreaker.fail (view b i)))
     end).
Proof.
  destruct (CircuitBreaker.opened (view b i)) eqn:Hopen.
  - left. split; [reflexivity | ].
    unfold guarded. now apply enveloped_open.
  - right. split; [reflexivity | ].
    destruct (engine_keeps_instance params op operationName 0 i w)
      as (r & rc & w' & tr & E).
    exists r, rc, w', tr. split; [exact E | ].
    unfold guarded. now apply enveloped_through.
Qed.

Lemma guarded_ungated_fail_soft :
  fail_soft (guarded params None op operationName payload).
Proof.
  intros [i w].
  destruct (guarded_ungated_cases i w) as (r & rc & w' & tr & _ & E).
  rewrite E. do 3 eexists. split; [reflexivity | ].
  destruct r; [apply success_envelope_exactly_one
              | apply failure_envelope_exactly_one].
Qed.

Lemma guarded_gated_fail_soft :
  fail_soft (guarded params (Some b) op operationName payload).
Proof.
  intros [i w].
  destruct (guarded_gated_cases i w)
    as [[_ E] | [_ (r & rc & w' & tr & _ & E)]]; rewrite E.
  - do 3 eexists. split; [reflexivity | ].
    apply failure_envelope_exactly_one.
  - destruct (CircuitBreaker.verdict _ _ r); cbn zeta; do 3 eexists;
      (split; [reflexivity | ]);
      [apply success_envelope_exactly_one
      | apply failure_envelope_exactly_one].
Qed.

Lemma guarded_reports_opened :
  reports_opened (guarded params (Some b) op operationName payload) b.
Proof.
  intros [i w].
  destruct (guarded_gated_cases i w)
    as [[Hopen E] | [_ (r & rc & w' & tr & _ & E)]]; rewrite E.
  - do 4 eexists. split; [reflexivity | ].
    rewrite b_lawful.
    assert (Hflag : circuitBreakerState
              (@failure_envelope D CircuitBreaker.circuit_open (Some "true"))
            = Some (String_of_bool (CircuitBreaker.opened
                (CircuitBreaker.record CircuitBreaker.Reject (view b i))))).
    { unfold CircuitBreaker.opened in *. cbn.
      destruct (CircuitBreaker.state (view b i)); try discriminate.
      reflexivity. }
    split; [exact Hflag | ]. exact (String_of_bool_cases _ Hflag).
  - destruct (CircuitBreaker.verdict _ _ r); cbn zeta; do 4 eexists;
      (split; [reflexivity | ]); rewrite b_lawful;
      (split; [reflexivity | ]);
      apply (String_of_bool_cases _ eq_refl).
Qed.

Lemma guarded_ungated_silent_on_failure :
  silent_on_failure (guarded params None op operationName payload).
Proof.
  intros [i w] env st' tr0 Hrun Hfail.
  destruct (guarded_ungated_cases i w) as (r & rc & w' & tr & _ & E).
  rewrite E in Hrun. injection Hrun as <- _ _.
  destruct r; [discriminate | reflexivity].
Qed.

Lemma guarded_gated_silent_on_failure :
  silent_on_failure (guarded params (Some b) op operationName payload).
Proof.
  intros [i w] env st' tr0 Hrun Hfail.
  destruct (guarded_gated_cases i w)
    as [[_ E] | [_ (r & rc & w' & tr & _ & E)]]; rewrite E in Hrun.
  - injection Hrun as <- _ _. reflexivity.
  - destruct (CircuitBreaker.verdict _ _ r); cbn zeta in Hrun;
      injection Hrun as <- _ _; [discriminate | reflexivity].
Qed.
End GuardedFacts.

(** ** Spied operations *)

Section Spies.
Context {W T : Type}.
Variable op : Op W T.

Lemma spy_op_run (calls : nat) (w : W) :
  spy_op op (calls, w) = (fst (op w), (S calls, snd (op w))).
Proof. unfold spy_op. cbn. destruct (op w) as [r w1]. reflexivity. Qed.

Lemma spy_op_outcomes (n : nat) :
  forall (calls : nat) (w : W),
    outcomes (call (spy_op op)) n (calls, w) = outcomes (call op) n w.
Proof.
  induction n as [| n IH]; intros calls w; [reflexivity | ].
  rewrite !outcomes_S, !call_run, !spy_op_run. cbn [fst snd].
  now rewrite IH.
Qed.

Lemma spy_op_state_after (n : nat) :
  forall (calls : nat) (w : W),
    state_after (call (spy_op op)) n (calls, w) =
    ((calls + n)%nat, state_after (call op) n w).
Proof.
  induction n as [| n IH]; intros calls w.
  - cbn. now rewrite Nat.add_0_r.
  - rewrite !state_after_S, !call_run, !spy_op_run. cbn [fst snd].
    rewrite IH. f_equal. lia.
Qed.

Lemma spy_op_fails_then_succeeds (calls : nat) (w : W)
    (reasons : list thrown) (v : T) :
  fails_then_succeeds (call op) w reasons v ->
  fails_then_succeeds (call (spy_op op)) (calls, w) reasons v.
Proof.
  unfold fails_then_succeeds. now rewrite spy_op_outcomes.
Qed.
End Spies.

Section SpiedOperations.
Context {St T : Type}.
Variable operation : M St T.

Lemma spy_run (calls : nat) (st : St) :
  spy operation (calls, st) =
  (fst (fst (operation st)), (S calls, snd (fst (operation st))),
   snd (operation st)).
Proof.
  unfold spy. cbn. destruct (operation st) as [[r st1] t]. reflexivity.
Qed.



Lemma spy_quiet : quiet operation -> quiet (spy operation).
Proof.
  intros Q [calls st]. rewrite spy_run. exact (Q st).
Qed.
End SpiedOperations.

(** ** The engine on the closure of a method *)

Section EngineOnClosure.
Context {I W T : Type}.
Variable params : I -> RetryParams.
Variable op : I -> Op W T.
Variable operationName : string.

Lemma engine_counting_success (rc : Z) (i : I) (w : W)
    (reasons : list thrown) (v : T) :
  fails_then_succeeds (call (op i)) w reasons v ->
  Z.of_nat (length reasons) <= p_maxRetries (params i) ->
  engine params (composeL sndL fstL) (counting op) operationName
    (rc, (i, w)) =
  (Fulfilled v,
   (rc + Z.of_nat (S (length reasons)),
    (i, state_after (call (op i)) (S (length reasons)) w)),
   retry_events (params i) operationName 0 reasons).
Proof.
  intros H Hle. rewrite engine_run.
  cbn [view composeL sndL fstL fst snd].
  assert (H' : fails_then_succeeds (counting op) (rc, (i, w)) reasons v).
  { unfold fails_then_succeeds. rewrite counting_outcomes. exact H. }
  destruct (loop_fails_then_succeeds (params i) operationName None H' Hle)
    as [tr [Hq E]].
  rewrite E, (Hq (counting_quiet op)), counting_state_after. reflexivity.
Qed.

Lemma engine_counting_exhausted (rc : Z) (i : I) (w : W) :
  always_rejects (call (op i)) w ->
  exists reasons,
    length reasons = Z.to_nat (p_maxRetries (params i) + 1) /\
    outcomes (call (op i)) (length reasons) w = map Rejected reasons /\
    engine params (composeL sndL fstL) (counting op) operationName
      (rc, (i, w)) =
    (Rejected (throwable (last_error None reasons)),
     (rc + Z.of_nat (length reasons),
      (i, state_after (call (op i)) (length reasons) w)),
     retry_events (params i) operationName 0 reasons).
Proof.
  intros H.
  destruct (always_rejects_prefix
              (Z.to_nat (p_maxRetries (params i) + 1)) H)
    as [reasons [Hlen Hout]].
  exists reasons. split; [exact Hlen | ]. rewrite Hlen.
  split; [exact Hout | ].
  rewrite engine_run. cbn [view composeL sndL fstL fst snd].
  assert (Hout' : outcomes (counting op) (length reasons) (rc, (i, w)) =
                  map Rejected reasons).
  { rewrite counting_outcomes, Hlen. exact Hout. }
  destruct (loop_exhausted (params i) (counting op) operationName
              reasons (rc, (i, w)) None Hlen Hout') as [tr [Hq E]].
  rewrite E, (Hq (counting_quiet op)), counting_state_after, Hlen.
  reflexivity.
Qed.
End EngineOnClosure.

(** ** The time of a run *)

Lemma timer_positive (ms : Q) : (1 <= timer ms)%Q.
Proof.
  unfold timer.
  destruct (Qle_bool 1 ms) eqn:Hlow; cbn [andb]; [ | apply Qle_refl].
  destruct (Qle_bool ms 2147483647); [ | apply Qle_refl].
  apply Qle_bool_iff in Hlow.
  change 1%Q with (inject_Z 1). rewrite <- Zle_Qle.
  apply Qfloor_resp_le in Hlow. exact Hlow.
Qed.

(** Whether a run was late depends on the time it took, not on how the
    number is written. *)
Lemma late_Qeq (b : CircuitBreaker.t) (x y : Q) :
  (x == y)%Q -> CircuitBreaker.late b x = CircuitBreaker.late b y.
Proof.
  intros Hxy. unfold CircuitBreaker.late.
  destruct (CircuitBreaker.deadline b) as [ms | ]; [ | reflexivity].
  destruct (Qle_bool ms x) eqn:Hx, (Qle_bool ms y) eqn:Hy; try reflexivity.
  - apply Qle_bool_iff in Hx. rewrite Hxy in Hx.
    apply Qle_bool_iff in Hx. congruence.
  - apply Qle_bool_iff in Hy. rewrite <- Hxy in Hy.
    apply Qle_bool_iff in Hy. congruence.
Qed.

(** A run that takes no time is never late: the deadline is a
    millisecond away at least. *)
Lemma late_at_once (b : CircuitBreaker.t) (x : Q) :
  (x <= 0)%Q -> CircuitBreaker.late b x = false.
Proof.
  intros Hx. unfold CircuitBreaker.late, CircuitBreaker.deadline.
  assert (Hnot : forall ms, Qle_bool (timer ms) x = false).
  { intros ms. destruct (Qle_bool (timer ms) x) eqn:E; [ | reflexivity].
    apply Qle_bool_iff in E. pose proof (timer_positive ms) as Hpos.
    exfalso. apply (Qlt_irrefl 0).
    apply Qlt_le_trans with (y := 1%Q); [reflexivity | ].
    apply Qle_trans with (y := timer ms); [exact Hpos | ].
    apply Qle_trans with (y := x); assumption. }
  destruct (CircuitBreaker.timeout (CircuitBreaker.options b)) as [ms | ].
  - destruct (Qeq_bool ms 0); [reflexivity | apply Hnot].
  - apply Hnot.
Qed.

Lemma elapsed_nothing {W : Type} `{Clock W} (w : W) :
  (elapsed w w [] <= 0)%Q.
Proof.
  unfold elapsed, slept. cbn [sleeps flat_map fold_right].
  setoid_replace (now w - now w + 0)%Q with 0%Q by ring. apply Qle_refl.
Qed.

Lemma slept_retry_events (p : RetryParams) (operationName : string)
    (reasons : list thrown) :
  forall attempt,
    attempt + Z.of_nat (length reasons) <= p_maxRetries p ->
    slept (retry_events p operationName attempt reasons) =
    backoff p attempt (length reasons).
Proof.
  induction reasons as [| reason rest IH]; intros attempt Hle;
    [reflexivity | ].
  cbn [length] in Hle. cbn [retry_events length backoff].
  unfold failure_events, on_failure.
  destruct (Z.ltb_spec attempt (p_maxRetries p)) as [Hlt | Hge]; [ | lia].
  unfold slept, sleeps.
  cbn [snd bind console.warn sleep emit app flat_map fold_right].
  fold (sleeps (retry_events p operationName (attempt + 1) rest)).
  fold (slept (retry_events p operationName (attempt + 1) rest)).
  rewrite IH by lia. reflexivity.
Qed.

(** The time of a run that fails [k] times and then succeeds. *)
Lemma elapsed_run_time {W T : Type} `{Clock W} (p : RetryParams)
    (op : Op W T) (operationName : string) (w : W) (reasons : list thrown) :
  Z.of_nat (length reasons) <= p_maxRetries p ->
  elapsed w (state_after (call op) (S (length reasons)) w)
    (retry_events p operationName 0 reasons) =
  run_time p op w (length reasons).
Proof.
  intros Hle. unfold elapsed, run_time.
  rewrite slept_retry_events by lia. reflexivity.
Qed.

(** ** Samples, first successes and open breakers, for the common shape *)

Section GuardedBehaviour.
Context {I W T D : Type} `{Clock W}.
Variable params : I -> RetryParams.
Variable operationName : string.
Variable payload : T -> D.
Variable b : Lens I CircuitBreaker.t.
Hypothesis b_lawful : lawful b.

Lemma guarded_one_sample (op : I -> Op W T) :
  one_sample (guarded params (Some b) op operationName payload) b op
    params.
Proof.
  intros i w.
  destruct (guarded_gated_cases params op operationName payload b_lawful i w)
    as [[Hopen E] | [Hopen (r & rc & w' & tr & Erun & E)]]; rewrite E.
  - do 4 eexists. exists CircuitBreaker.Reject.
    split; [reflexivity | ]. rewrite b_lawful.
    split; [reflexivity | ].
    rewrite Hopen. repeat split; intros; (reflexivity || discriminate).
  - assert (Hsuccess : forall reasons v,
              fails_then_succeeds (call (op i)) w reasons v ->
              Z.of_nat (length reasons) <= p_maxRetries (params i) ->
              CircuitBreaker.verdict (view b i) (elapsed w w' tr) r =
              if CircuitBreaker.late (view b i)
                   (run_time (params i) (op i) w (length reasons))
              then Rejected (CircuitBreaker.timed_out (view b i))
              else Fulfilled v).
    { intros reasons v Hf Hle.
      rewrite (engine_counting_success params op operationName 0 i Hf Hle)
        in Erun.
      assert (Hr : r = Fulfilled v) by congruence.
      assert (Hw : w' = state_after (call (op i)) (S (length reasons)) w)
        by congruence.
      assert (Ht : tr = retry_events (params i) operationName 0 reasons)
        by congruence.
      rewrite Hr, Hw, Ht, elapsed_run_time by exact Hle. reflexivity. }
    assert (Hfailure : always_rejects (call (op i)) w ->
              exists e,
                CircuitBreaker.verdict (view b i) (elapsed w w' tr) r =
                Rejected e).
    { intros Hr.
      destruct (engine_counting_exhausted params op operationName 0 i Hr)
        as (reasons & _ & _ & E').
      rewrite E' in Erun.
      assert (Hrej : r = Rejected (throwable (last_error None reasons)))
        by congruence.
      rewrite Hrej. unfold CircuitBreaker.verdict.
      destruct (CircuitBreaker.late _ _); eexists; reflexivity. }
    destruct (CircuitBreaker.verdict (view b i) (elapsed w w' tr) r)
      as [v | e] eqn:Ev; cbn zeta.
    + do 4 eexists. exists CircuitBreaker.Success.
      split; [reflexivity | ]. rewrite b_lawful, succeed_window.
      split; [reflexivity | ].
      rewrite Hopen.
      split; [discriminate | ]. split; [reflexivity | ]. split.
      * intros _ reasons v0 Hf Hle.
        specialize (Hsuccess reasons v0 Hf Hle).
        destruct (CircuitBreaker.late _ _); [discriminate | reflexivity].
      * intros _ Hr. destruct (Hfailure Hr) as [e He]. discriminate.
    + do 4 eexists. exists CircuitBreaker.Failure.
      split; [reflexivity | ]. rewrite b_lawful, fail_window.
      split; [reflexivity | ].
      rewrite Hopen.
      split; [discriminate | ]. split; [reflexivity | ]. split.
      * intros _ reasons v0 Hf Hle.
        specialize (Hsuccess reasons v0 Hf Hle).
        destruct (CircuitBreaker.late _ _); [reflexivity | discriminate].
      * reflexivity.
Qed.

Lemma guarded_fails_fast_when_open (op : I -> Op W T) :
  fails_fast_when_open (guarded params (Some b) op operationName payload) b.
Proof.
  intros i w Hopen.
  destruct (guarded_gated_cases params op operationName payload b_lawful i w)
    as [[_ E] | [Hclosed _]]; [ | congruence].
  rewrite E. eexists. reflexivity.
Qed.

(** Over a spied delegate. *)
Variable op' : I -> Op (nat * W) T.

Lemma guarded_gated_first_success (i : I) (op : Op W T) :
  op' i = spy_op op ->
  first_success_returned
    (guarded params (Some b) op' operationName payload) i op
    (in_time (view b i) (params i) op)
    (p_maxRetries (params i)) payload (Some "false").
Proof.
  intros Hop calls w reasons v [Hclosed Htime] Hf Hle.
  pose proof (spy_op_fails_then_succeeds calls Hf) as H'.
  rewrite <- Hop in H'.
  pose proof (engine_counting_success params op' operationName 0 i H' Hle)
    as Erun.
  unfold guarded.
  rewrite (@enveloped_through _ _ _ _ _ payload _ b b_lawful i _ _ _ _ _
             Hclosed Erun).
  rewrite elapsed_run_time by exact Hle.
  assert (Hspied :
    run_time (params i) (op' i) (calls, w) (length reasons) =
    run_time (params i) op w (length reasons)).
  { unfold run_time. rewrite Hop, spy_op_state_after. reflexivity. }
  unfold CircuitBreaker.verdict. rewrite Hspied, Htime. cbn zeta.
  unfold CircuitBreaker.opened at 1.
  rewrite (succeed_closes _ Hclosed). cbn [String_of_bool].
  rewrite Hop, spy_op_state_after.
  replace (0 + Z.of_nat (S (length reasons)))
    with (Z.of_nat (length reasons) + 1) by lia.
  do 2 eexists. reflexivity.
Qed.

Lemma guarded_ungated_first_success (i : I) (op : Op W T) :
  op' i = spy_op op ->
  first_success_returned
    (guarded params None op' operationName payload) i op
    (fun _ _ => True)
    (p_maxRetries (params i)) payload None.
Proof.
  intros Hop calls w reasons v _ Hf Hle.
  pose proof (spy_op_fails_then_succeeds calls Hf) as H'.
  rewrite <- Hop in H'.
  pose proof (engine_counting_success params op' operationName 0 i H' Hle)
    as Erun.
  unfold guarded.
  rewrite (@enveloped_ungated _ _ _ _ _ payload _ i _ _ _ _ _ Erun).
  rewrite Hop, spy_op_state_after.
  replace (0 + Z.of_nat (S (length reasons)))
    with (Z.of_nat (length reasons) + 1) by lia.
  do 2 eexists. reflexivity.
Qed.
End GuardedBehaviour.

(** ** [waitForRecording] *)

Lemma waitForRecording_first_success {W G : Type}
    (this : @PlivoResilient.t W G) (callUuid : string)
    (maxAttempts : option Z) (delayMs : option Q) (calls : nat) (w w1 : W)
    (details : G) :
  0 <= orZ (maxRetries (PlivoResilient.config this)) 3 ->
  PlivoManager.waitForRecording (PlivoResilient.manager this) callUuid
    match maxAttempts with Some n => n | None => 30 end
    match delayMs with Some d => d | None => 2000%Q end w =
  (Fulfilled (Some details), w1) ->
  PlivoResilient.waitForRecording callUuid maxAttempts delayMs
    (spied_plivo this, (calls, w)) =
  (Fulfilled (Some details), (spied_plivo this, (S calls, w1)), []).
Proof.
  intros Hle Hop.
  unfold PlivoResilient.waitForRecording, try_catch.
  unfold bind at 1.
  rewrite plivo_executeWithRetry_engine, engine_run.
  cbn [view fstL fst].
  rewrite (@loop_success _ _ (plivo_params (spied_plivo this)) _ _ 0 None
             (spied_plivo this, (calls, w))
             (spied_plivo this, (S calls, w1)) details []).
  - reflexivity.
  - exact Hle.
  - unfold bind, PlivoResilient.delegate, gets, zoom, call, bind, ret.
    cbn [view update fstL sndL fst snd spied_plivo PlivoResilient.manager
         spied_plivo_manager PlivoManager.waitForRecording].
    rewrite spy_op_run, Hop. reflexivity.
Qed.


(** ** The backoff policy *)






(** ** Traces of the engine *)



Section EngineTraces.
Variable p : RetryParams.
Variable operationName : string.


End EngineTraces.


(** ** The engine of either class *)

Section EngineFacts.
Context {I St T : Type}.
Variable params : I -> RetryParams.



End EngineFacts.

(** ** The examples *)



(** ** The two clients *)

Section ClientsFacts.
Context {W G : Type} `{Clock W} {D : DeepgramTypes.t}.

Lemma on_client_state {I A : Type} (client : Lens (@clients.t W G D) I)
    (m : M (I * W) A) (st : (@clients.t W G D) * W) :
  snd (fst (clients.on_client client m st)) =
  (update client (fst (snd (fst (m (view client (fst st), snd st)))))
     (fst st),
   snd (snd (fst (m (view client (fst st), snd st))))).
Proof.
  unfold clients.on_client.
  destruct (m (view client (fst st), snd st)) as [[r [i w]] tr].
  reflexivity.
Qed.

Lemma forget_state {St A : Type} (m : M St A) (st : St) :
  snd (fst (clients.forget m st)) = snd (fst (m st)).
Proof.
  unfold clients.forget. destruct (m st) as [[r st1] tr]. reflexivity.
Qed.

Lemma zoom_state {S A B : Type} (l : Lens S A) (m : M A B) (st : S) :
  snd (fst (zoom l m st)) = update l (snd (fst (m (view l st)))) st.
Proof.
  unfold zoom. destruct (m (view l st)) as [[r a] tr]. reflexivity.
Qed.

Lemma perform_deepgram_keeps_plivo (a : clients.action)
    (st : (@clients.t W G D) * W) :
  clients.on_plivo a = false ->
  clients.plivoClient (fst (snd (fst (clients.perform a st)))) =
  clients.plivoClient (fst st).
Proof.
  destruct a; try discriminate; intros _; unfold clients.perform;
    rewrite ?forget_state, ?on_client_state, ?zoom_state; reflexivity.
Qed.

Lemma perform_plivo_keeps_deepgram (a : clients.action)
    (st : (@clients.t W G D) * W) :
  clients.on_plivo a = true ->
  clients.deepgramClient (fst (snd (fst (clients.perform a st)))) =
  clients.deepgramClient (fst st).
Proof.
  destruct a; try discriminate; intros _; unfold clients.perform;
    rewrite ?forget_state, ?on_client_state, ?zoom_state; reflexivity.
Qed.

Lemma perform_all_keeps (X : Type) (part : (@clients.t W G D) -> X)
    (allowed : clients.action -> Prop) :
  (forall a st, allowed a ->
     part (fst (snd (fst (clients.perform a st)))) = part (fst st)) ->
  forall actions st,
    Forall allowed actions ->
    part (fst (snd (fst (clients.perform_all actions st)))) =
    part (fst st).
Proof.
  intros Hstep. induction actions as [| a rest IH]; intros st Hall.
  - reflexivity.
  - apply Forall_cons_iff in Hall as [Ha Hrest].
    cbn [clients.perform_all]. unfold bind.
    specialize (Hstep a st Ha).
    destruct (clients.perform a st) as [[[u | e] st1] t1];
      cbn [fst snd] in Hstep |- *; [ | exact Hstep].
    specialize (IH st1 Hrest).
    destruct (clients.perform_all rest st1) as [[r st2] t2].
    cbn [fst snd] in IH |- *. congruence.
Qed.

(** A method of the Plivo client does not look at the Deepgram
    client. *)
Lemma on_plivo_client_ignores_deepgram {A : Type}
    (m : M (@PlivoResilient.t W G * W) A) (c : (@clients.t W G D))
    (d : @DeepgramResilient.t W D) (w : W) :
  let run := clients.on_client clients.plivoClientL m (c, w) in
  let run' :=
    clients.on_client clients.plivoClientL m
      (update clients.deepgramClientL d c, w) in
  fst (fst run') = fst (fst run) /\
  snd run' = snd run /\
  snd (snd (fst run')) = snd (snd (fst run)) /\
  clients.plivoClient (fst (snd (fst run'))) =
    clients.plivoClient (fst (snd (fst run))) /\
  clients.deepgramClient (fst (snd (fst run'))) = d.
Proof.
  unfold clients.on_client.
  cbn [view update fst snd clients.plivoClientL clients.deepgramClientL
       clients.plivoClient clients.deepgramClient].
  destruct (m (clients.plivoClient c, w)) as [[r [i w']] tr].
  cbn. repeat split.
Qed.
End ClientsFacts.

(* ================================================================== *)
(** * The claims *)
(* ================================================================== *)

(** C1, as stated, fails: the breaker has a deadline, and a run that is
    late for it counts as a failure whatever it ends with.  In a world
    where every call of the manager takes twelve seconds, the delegate
    fails twice and succeeds the third time, within the three retries of
    the defaults; the run takes thirty-nine seconds, the deadline is at
    thirty, and the one sample of the call is a failure. *)
Lemma late_success_counts_as_failure :
  let this :=
    PlivoResilient.constructor Fixture.unset (Fixture.slowPlivoManager 2) in
  let op :=
    PlivoManager.initiateRecordedCall (PlivoResilient.manager this)
      Fixture.request in
  let w := Fixture.behind 0 in
  fails_then_succeeds (call op) w [Fixture.boom; Fixture.boom]
    Fixture.response /\
  2 <= orZ (maxRetries (PlivoResilient.config this)) 3 /\
  (run_time (plivo_params this) op w 2 == 39000)%Q /\
  CircuitBreaker.deadline (PlivoResilient.makeCallBreaker this) =
    Some 30000%Q /\
  exists env this' w' tr,
    PlivoResilient.initiateRecordedCall Fixture.request (this, w) =
    (Fulfilled env, (this', w'), tr) /\
    success env = false /\
    CircuitBreaker.window (PlivoResilient.makeCallBreaker this') =
      [CircuitBreaker.Failure].
Proof.
  cbv zeta. split; [reflexivity | ]. split; [vm_compute; discriminate | ].
  split; [reflexivity | ]. split; [reflexivity | ].
  do 4 eexists. split; [vm_compute; reflexivity | ].
  split; reflexivity.
Qed.

(** C1, amended.  One call of a method that goes through a breaker adds
    exactly one sample to the window of that breaker, however many
    attempts the retry loop inside makes: a success or a failure as the
    envelope says [success: true] or [false] (and a rejection when the
    breaker is open and the loop does not run).  When the delegate fails
    no more than [maxRetries] times and then succeeds, it is one success
    if the run is over before the deadline of the breaker and one
    failure if it is late; when the delegate keeps rejecting it is one
    failure. *)
Theorem one_call_one_sample (W G : Type) `{Clock W} (D : DeepgramTypes.t) :
  (forall request,
     one_sample (@PlivoResilient.initiateRecordedCall W G _ request)
       PlivoResilient.makeCallBreakerL
       (fun this =>
          PlivoManager.initiateRecordedCall (PlivoResilient.manager this)
            request)
       plivo_params) /\
  (forall to from answerUrl,
     one_sample (@PlivoResilient.makeCall W G _ to from answerUrl)
       PlivoResilient.makeCallBreakerL
       (fun this =>
          PlivoManager.makeCall (PlivoResilient.manager this) to from
            answerUrl)
       plivo_params) /\
  (forall callUuid,
     one_sample (@PlivoResilient.getCallDetails W G _ callUuid)
       PlivoResilient.getCallDetailsBreakerL
       (fun this =>
          PlivoManager.getCallDetails (PlivoResilient.manager this) callUuid)
       plivo_params) /\
  (forall request,
     one_sample (@DeepgramResilient.transcribeRecording W _ D request)
       DeepgramResilient.transcribeBreakerL
       (fun this =>
          DeepgramManager.transcribeRecording (DeepgramResilient.manager this)
            request)
       deepgram_params) /\
  (forall url options,
     one_sample (@DeepgramResilient.transcribeUrl W _ D url options)
       DeepgramResilient.transcribeBreakerL
       (fun this =>
          DeepgramManager.transcribeUrl (DeepgramResilient.manager this) url
            options)
       deepgram_params) /\
  (forall recordingUrl,
     one_sample
       (@DeepgramResilient.transcribeWithInsights W _ D recordingUrl)
       DeepgramResilient.transcribeBreakerL
       (fun this =>
          DeepgramManager.transcribeWithInsights
            (DeepgramResilient.manager this) recordingUrl)
       deepgram_params) /\
  (forall buffer options,
     one_sample (@DeepgramResilient.transcribeBuffer W _ D buffer options)
       DeepgramResilient.transcribeBreakerL
       (fun this =>
          DeepgramManager.transcribeBuffer (DeepgramResilient.manager this)
            buffer options)
       deepgram_params).
Proof.
  repeat split; intros.
  - rewrite initiateRecordedCall_shape.
    exact (guarded_one_sample plivo_params _ _ makeCallBreakerL_lawful _).
  - rewrite makeCall_shape.
    exact (guarded_one_sample plivo_params _ _ makeCallBreakerL_lawful _).
  - rewrite getCallDetails_shape.
    exact (guarded_one_sample plivo_params _ _
             getCallDetailsBreakerL_lawful _).
  - rewrite transcribeRecording_shape.
    exact (guarded_one_sample deepgram_params _ _
             transcribeBreakerL_lawful _).
  - rewrite transcribeUrl_shape.
    exact (guarded_one_sample deepgram_params _ _
             transcribeBreakerL_lawful _).
  - rewrite transcribeWithInsights_shape.
    exact (guarded_one_sample deepgram_params _ _
             transcribeBreakerL_lawful _).
  - rewrite transcribeBuffer_shape.
    exact (guarded_one_sample deepgram_params _ _
             transcribeBreakerL_lawful _).
Qed.

(** A call whose delegate fails twice and then succeeds, less than four
    seconds in all, leaves one success in the window of a fresh
    breaker. *)
Lemma one_call_one_sample_witness :
  exists env this' w' tr,
    PlivoResilient.initiateRecordedCall Fixture.request
      (Fixture.plivo 2, 0%nat) = (Fulfilled env, (this', w'), tr) /\
    CircuitBreaker.window (PlivoResilient.makeCallBreaker this') =
      [CircuitBreaker.Success].
Proof.
  destruct (proj1 (@one_call_one_sample nat string _ Fixture.types)
              Fixture.request (Fixture.plivo 2) 0%nat)
    as (env & this' & w' & tr & s & E & Hwindow & _ & _ & Hsuccess & _).
  exists env, this', w', tr. split; [exact E | ].
  rewrite (Hsuccess eq_refl [Fixture.boom; Fixture.boom] Fixture.response)
    in Hwindow.
  - exact Hwindow.
  - reflexivity.
  - vm_compute. discriminate.
Defined.







(** C4, as stated, fails: with the breaker of the method open, a
    delegate that would succeed at once is not invoked and the envelope
    is a failure. *)
Lemma first_success_not_returned_when_open :
  ~ exists opened,
      first_success_returned
        (PlivoResilient.initiateRecordedCall Fixture.request)
        (spied_plivo (Fixture.plivo_open 0))
        (PlivoManager.initiateRecordedCall (Fixture.plivoManager 0)
           Fixture.request)
        (fun _ _ => True) 3 initiated opened.
Proof.
  intros [opened H].
  destruct (H 0%nat 0%nat [] Fixture.response I eq_refl) as (i' & tr & E);
    [cbn; lia | ].
  vm_compute in E. discriminate E.
Qed.

(** C4, amended.  When the breaker of the method is not open and the
    delegate fails [k] times, [k <= maxRetries], and then succeeds, all
    of it before the deadline of the breaker (the [k + 1] calls of the
    delegate and the [k] waits in between take less than its timeout),
    the method returns the envelope with [success: true], the payload of
    the delegate's value in [data] and [retryCount = k + 1], and the
    delegate has been invoked [k + 1] times, not once more.
    [terminateCall] has no breaker and no deadline, and does so
    always. *)
Theorem first_success_is_returned (W G : Type) `{Clock W}
    (D : DeepgramTypes.t) :
  (forall (this : @PlivoResilient.t W G) request,
     let op :=
       PlivoManager.initiateRecordedCall (PlivoResilient.manager this)
         request in
     first_success_returned
       (PlivoResilient.initiateRecordedCall request) (spied_plivo this) op
       (in_time (PlivoResilient.makeCallBreaker this) (plivo_params this) op)
       (orZ (maxRetries (PlivoResilient.config this)) 3)
       initiated (Some "false")) /\
  (forall (this : @PlivoResilient.t W G) to from answerUrl,
     let op :=
       PlivoManager.makeCall (PlivoResilient.manager this) to from
         answerUrl in
     first_success_returned
       (PlivoResilient.makeCall to from answerUrl) (spied_plivo this) op
       (in_time (PlivoResilient.makeCallBreaker this) (plivo_params this) op)
       (orZ (maxRetries (PlivoResilient.config this)) 3)
       made (Some "false")) /\
  (forall (this : @PlivoResilient.t W G) callUuid,
     let op :=
       PlivoManager.getCallDetails (PlivoResilient.manager this) callUuid in
     first_success_returned
       (PlivoResilient.getCallDetails callUuid) (spied_plivo this) op
       (in_time (PlivoResilient.getCallDetailsBreaker this)
          (plivo_params this) op)
       (orZ (maxRetries (PlivoResilient.config this)) 3)
       (fun result => result) (Some "false")) /\
  (forall (this : @PlivoResilient.t W G) callUuid,
     first_success_returned
       (PlivoResilient.terminateCall callUuid) (spied_plivo this)
       (PlivoManager.terminateCall (PlivoResilient.manager this) callUuid)
       (fun _ _ => True)
       (orZ (maxRetries (PlivoResilient.config this)) 3)
       terminated None) /\
  (forall (this : @DeepgramResilient.t W D) request,
     let op :=
       DeepgramManager.transcribeRecording (DeepgramResilient.manager this)
         request in
     first_success_returned
       (DeepgramResilient.transcribeRecording request) (spied_deepgram this)
       op
       (in_time (DeepgramResilient.transcribeBreaker this)
          (deepgram_params this) op)
       (orZ (maxRetries (DeepgramResilient.config this)) 3)
       (fun result => result) (Some "false")) /\
  (forall (this : @DeepgramResilient.t W D) url options,
     let op :=
       DeepgramManager.transcribeUrl (DeepgramResilient.manager this) url
         options in
     first_success_returned
       (DeepgramResilient.transcribeUrl url options) (spied_deepgram this) op
       (in_time (DeepgramResilient.transcribeBreaker this)
          (deepgram_params this) op)
       (orZ (maxRetries (DeepgramResilient.config this)) 3)
       (fun result => result) (Some "false")) /\
  (forall (this : @DeepgramResilient.t W D) recordingUrl,
     let op :=
       DeepgramManager.transcribeWithInsights
         (DeepgramResilient.manager this) recordingUrl in
     first_success_returned
       (DeepgramResilient.transcribeWithInsights recordingUrl)
       (spied_deepgram this) op
       (in_time (DeepgramResilient.transcribeBreaker this)
          (deepgram_params this) op)
       (orZ (maxRetries (DeepgramResilient.config this)) 3)
       (fun result => result) (Some "false")) /\
  (forall (this : @DeepgramResilient.t W D) buffer options,
     let op :=
       DeepgramManager.transcribeBuffer (DeepgramResilient.manager this)
         buffer options in
     first_success_returned
       (DeepgramResilient.transcribeBuffer buffer options)
       (spied_deepgram this) op
       (in_time (DeepgramResilient.transcribeBreaker this)
          (deepgram_params this) op)
       (orZ (maxRetries (DeepgramResilient.config this)) 3)
       (fun result => result) (Some "false")).
Proof.
  repeat split; intros; cbv zeta.
  - rewrite initiateRecordedCall_shape.
    exact (guarded_gated_first_success plivo_params _ _
             makeCallBreakerL_lawful _ (spied_plivo this) eq_refl).
  - rewrite makeCall_shape.
    exact (guarded_gated_first_success plivo_params _ _
             makeCallBreakerL_lawful _ (spied_plivo this) eq_refl).
  - rewrite getCallDetails_shape.
    exact (guarded_gated_first_success plivo_params _ _
             getCallDetailsBreakerL_lawful _ (spied_plivo this) eq_refl).
  - rewrite terminateCall_shape.
    exact (guarded_ungated_first_success plivo_params _ _ _
             (spied_plivo this) eq_refl).
  - rewrite transcribeRecording_shape.
    exact (guarded_gated_first_success deepgram_params _ _
             transcribeBreakerL_lawful _ (spied_deepgram this) eq_refl).
  - rewrite transcribeUrl_shape.
    exact (guarded_gated_first_success deepgram_params _ _
             transcribeBreakerL_lawful _ (spied_deepgram this) eq_refl).
  - rewrite transcribeWithInsights_shape.
    exact (guarded_gated_first_success deepgram_params _ _
             transcribeBreakerL_lawful _ (spied_deepgram this) eq_refl).
  - rewrite transcribeBuffer_shape.
    exact (guarded_gated_first_success deepgram_params _ _
             transcribeBreakerL_lawful _ (spied_deepgram this) eq_refl).
Qed.

(** Two failures, then a success, in less than four seconds:
    [retryCount] is [3] and the delegate has been invoked three times. *)
Lemma first_success_is_returned_witness :
  exists this' tr,
    PlivoResilient.initiateRecordedCall Fixture.request
      (spied_plivo (Fixture.plivo 2), (0%nat, 0%nat)) =
    (Fulfilled
       (success_envelope (initiated Fixture.response) 3 (Some "false")),
     (this', (3%nat, 3%nat)), tr).
Proof.
  destruct (proj1 (@first_success_is_returned nat string _ Fixture.types)
              (Fixture.plivo 2) Fixture.request 0%nat 0%nat
              [Fixture.boom; Fixture.boom] Fixture.response)
    as (this' & tr & E).
  - split; reflexivity.
  - reflexivity.
  - vm_compute. discriminate.
  - exists this', tr. exact E.
Defined.

(** C5.  Whatever the input and whatever the delegate does (success,
    rejection, exhausted retries, or the breaker being open), each of
    [initiateRecordedCall], [makeCall], [getCallDetails], [terminateCall],
    [transcribeRecording], [transcribeUrl], [transcribeWithInsights] and
    [transcribeBuffer] fulfils, never rejects, and its envelope has [data]
    and no [error] exactly when [success] is true, [error] and no [data]
    exactly when [success] is false. *)
Theorem facade_methods_fail_soft (W G : Type) `{Clock W}
    (D : DeepgramTypes.t) :
  (forall request,
     fail_soft (@PlivoResilient.initiateRecordedCall W G _ request)) /\
  (forall to from answerUrl,
     fail_soft (@PlivoResilient.makeCall W G _ to from answerUrl)) /\
  (forall callUuid,
     fail_soft (@PlivoResilient.getCallDetails W G _ callUuid)) /\
  (forall callUuid,
     fail_soft (@PlivoResilient.terminateCall W G callUuid)) /\
  (forall request,
     fail_soft (@DeepgramResilient.transcribeRecording W _ D request)) /\
  (forall url options,
     fail_soft (@DeepgramResilient.transcribeUrl W _ D url options)) /\
  (forall recordingUrl,
     fail_soft
       (@DeepgramResilient.transcribeWithInsights W _ D recordingUrl)) /\
  (forall buffer options,
     fail_soft
       (@DeepgramResilient.transcribeBuffer W _ D buffer options)).
Proof.
  repeat split; intros.
  - rewrite initiateRecordedCall_shape.
    apply guarded_gated_fail_soft, makeCallBreakerL_lawful.
  - rewrite makeCall_shape.
    apply guarded_gated_fail_soft, makeCallBreakerL_lawful.
  - rewrite getCallDetails_shape.
    apply guarded_gated_fail_soft, getCallDetailsBreakerL_lawful.
  - rewrite terminateCall_shape. apply guarded_ungated_fail_soft.
  - rewrite transcribeRecording_shape.
    apply guarded_gated_fail_soft, transcribeBreakerL_lawful.
  - rewrite transcribeUrl_shape.
    apply guarded_gated_fail_soft, transcribeBreakerL_lawful.
  - rewrite transcribeWithInsights_shape.
    apply guarded_gated_fail_soft, transcribeBreakerL_lawful.
  - rewrite transcribeBuffer_shape.
    apply guarded_gated_fail_soft, transcribeBreakerL_lawful.
Qed.

(** C6.  The breakers of distinct operation kinds are separate objects,
    each made by its own [new CircuitBreaker]: whatever sequence of
    transcription calls (and resets, and reset timers of the transcribe
    breaker) runs, the Plivo client, with the state and window of its
    makeCall and getCallDetails breakers, is left as it was; the same the
    other way round; and what a method of the Plivo client returns and
    leaves does not depend on the Deepgram client, so that an open
    transcribe breaker does not make a call placement fail fast. *)
Theorem breakers_of_distinct_kinds_are_independent (W G : Type)
    `{Clock W} (D : DeepgramTypes.t) :
  (forall (actions : list (@clients.action D)) (st : @clients.t W G D * W),
     Forall (fun a => clients.on_plivo a = false) actions ->
     clients.plivoClient (fst (snd (fst (clients.perform_all actions st)))) =
     clients.plivoClient (fst st)) /\
  (forall (actions : list (@clients.action D)) (st : @clients.t W G D * W),
     Forall (fun a => clients.on_plivo a = true) actions ->
     clients.deepgramClient
       (fst (snd (fst (clients.perform_all actions st)))) =
     clients.deepgramClient (fst st)) /\
  (forall (A : Type) (m : M (@PlivoResilient.t W G * W) A)
          (c : @clients.t W G D) (d : @DeepgramResilient.t W D) (w : W),
     let run := clients.on_client clients.plivoClientL m (c, w) in
     let run' :=
       clients.on_client clients.plivoClientL m
         (update clients.deepgramClientL d c, w) in
     fst (fst run') = fst (fst run) /\
     snd run' = snd run /\
     snd (snd (fst run')) = snd (snd (fst run)) /\
     clients.plivoClient (fst (snd (fst run'))) =
       clients.plivoClient (fst (snd (fst run))) /\
     clients.deepgramClient (fst (snd (fst run'))) = d).
Proof.
  split; [ | split].
  - intros actions st.
    apply (@perform_all_keeps W G _ D _ clients.plivoClient
             (fun a => clients.on_plivo a = false)).
    intros a st0. apply perform_deepgram_keeps_plivo.
  - intros actions st.
    apply (@perform_all_keeps W G _ D _ clients.deepgramClient
             (fun a => clients.on_plivo a = true)).
    intros a st0. apply perform_plivo_keeps_deepgram.
  - intros A m c d w. apply on_plivo_client_ignores_deepgram.
Qed.

(** Two transcriptions against a service that is down open the
    transcribe breaker and leave the Plivo client untouched; a call
    placed then goes through. *)
Lemma breakers_of_distinct_kinds_are_independent_witness :
  let c :=
    {| clients.plivoClient := Fixture.plivo 0;
       clients.deepgramClient := Fixture.deepgram 9 |} in
  let actions : list (@clients.action Fixture.types) :=
    [clients.transcribeUrl "https://x/test.mp3" None;
     clients.transcribeWithInsights "https://x/test.mp3"] in
  let after := snd (fst (clients.perform_all actions (c, 0%nat))) in
  clients.plivoClient (fst after) = Fixture.plivo 0 /\
  CircuitBreaker.opened
    (DeepgramResilient.transcribeBreaker (clients.deepgramClient (fst after)))
  = true /\
  fst (fst (clients.on_client clients.plivoClientL
              (PlivoResilient.initiateRecordedCall Fixture.request) after)) =
  Fulfilled (success_envelope (initiated Fixture.response) 1 (Some "false")).
Proof.
  cbv zeta. split; [ | split].
  - apply (proj1 (@breakers_of_distinct_kinds_are_independent nat string _
                    Fixture.types)).
    repeat constructor.
  - vm_compute. reflexivity.
  - vm_compute. reflexivity.
Defined.




(** C8, as stated, fails for [terminateCall]: neither breaker of the
    class gates it.  With both of them open the delegate is invoked, once,
    and the call succeeds. *)
Lemma terminateCall_runs_with_open_breakers :
  let this := spied_plivo (Fixture.plivo_open 0) in
  CircuitBreaker.opened (PlivoResilient.makeCallBreaker this) = true /\
  CircuitBreaker.opened (PlivoResilient.getCallDetailsBreaker this) = true /\
  PlivoResilient.terminateCall "call-1" (this, (0%nat, 0%nat)) =
  (Fulfilled (success_envelope (terminated Fixture.hung_up) 1 None),
   (this, (1%nat, 1%nat)), []) /\
  ~ (fails_fast_when_open (PlivoResilient.terminateCall "call-1")
       (@PlivoResilient.makeCallBreakerL (nat * nat) string) \/
     fails_fast_when_open (PlivoResilient.terminateCall "call-1")
       (@PlivoResilient.getCallDetailsBreakerL (nat * nat) string)).
Proof.
  cbv zeta. repeat split; try reflexivity.
  intros [H | H];
    destruct (H (spied_plivo (Fixture.plivo_open 0)) (0%nat, 0%nat) eq_refl)
      as [i' E];
    vm_compute in E; discriminate E.
Qed.

(** C8, amended.  Every envelope method except [terminateCall] runs its
    retrying delegate under a breaker ([initiateRecordedCall] and
    [makeCall] under the makeCall breaker, [getCallDetails] under the
    getCallDetails breaker, the four transcribe methods under the
    transcribe breaker): when that breaker is open the delegate is not
    invoked and the answer is the circuit-open failure.  [terminateCall]
    and [waitForRecording] hand their delegate to the retry engine with no
    breaker: whatever the breakers of the instance are, a delegate that
    succeeds is invoked and its value returned. *)
Theorem breaker_gates_all_but_terminate_and_wait (W G : Type) `{Clock W}
    (D : DeepgramTypes.t) :
  (forall request,
     fails_fast_when_open (@PlivoResilient.initiateRecordedCall W G _ request)
       PlivoResilient.makeCallBreakerL) /\
  (forall to from answerUrl,
     fails_fast_when_open (@PlivoResilient.makeCall W G _ to from answerUrl)
       PlivoResilient.makeCallBreakerL) /\
  (forall callUuid,
     fails_fast_when_open (@PlivoResilient.getCallDetails W G _ callUuid)
       PlivoResilient.getCallDetailsBreakerL) /\
  (forall request,
     fails_fast_when_open (@DeepgramResilient.transcribeRecording W _ D request)
       DeepgramResilient.transcribeBreakerL) /\
  (forall url options,
     fails_fast_when_open (@DeepgramResilient.transcribeUrl W _ D url options)
       DeepgramResilient.transcribeBreakerL) /\
  (forall recordingUrl,
     fails_fast_when_open
       (@DeepgramResilient.transcribeWithInsights W _ D recordingUrl)
       DeepgramResilient.transcribeBreakerL) /\
  (forall buffer options,
     fails_fast_when_open
       (@DeepgramResilient.transcribeBuffer W _ D buffer options)
       DeepgramResilient.transcribeBreakerL) /\
  (forall (this : @PlivoResilient.t W G) callUuid calls w w1 result,
     0 <= orZ (maxRetries (PlivoResilient.config this)) 3 ->
     PlivoManager.terminateCall (PlivoResilient.manager this) callUuid w =
       (Fulfilled result, w1) ->
     exists this' tr,
       PlivoResilient.terminateCall callUuid (spied_plivo this, (calls, w)) =
       (Fulfilled (success_envelope (terminated result) 1 None),
        (this', (S calls, w1)), tr)) /\
  (forall (this : @PlivoResilient.t W G) callUuid maxAttempts delayMs
          calls w w1 details,
     0 <= orZ (maxRetries (PlivoResilient.config this)) 3 ->
     PlivoManager.waitForRecording (PlivoResilient.manager this) callUuid
       match maxAttempts with Some n => n | None => 30 end
       match delayMs with Some d => d | None => 2000%Q end w =
       (Fulfilled (Some details), w1) ->
     PlivoResilient.waitForRecording callUuid maxAttempts delayMs
       (spied_plivo this, (calls, w)) =
     (Fulfilled (Some details), (spied_plivo this, (S calls, w1)), [])).
Proof.
  repeat split; intros.
  - rewrite initiateRecordedCall_shape.
    apply guarded_fails_fast_when_open, makeCallBreakerL_lawful.
  - rewrite makeCall_shape.
    apply guarded_fails_fast_when_open, makeCallBreakerL_lawful.
  - rewrite getCallDetails_shape.
    apply guarded_fails_fast_when_open, getCallDetailsBreakerL_lawful.
  - rewrite transcribeRecording_shape.
    apply guarded_fails_fast_when_open, transcribeBreakerL_lawful.
  - rewrite transcribeUrl_shape.
    apply guarded_fails_fast_when_open, transcribeBreakerL_lawful.
  - rewrite transcribeWithInsights_shape.
    apply guarded_fails_fast_when_open, transcribeBreakerL_lawful.
  - rewrite transcribeBuffer_shape.
    apply guarded_fails_fast_when_open, transcribeBreakerL_lawful.
  - rewrite terminateCall_shape.
    match goal with
      Hle : 0 <= _, Hop : PlivoManager.terminateCall _ _ w = _ |- _ =>
        destruct (@guarded_ungated_first_success _ _ _ _ _ plivo_params
                    "terminateCall" terminated
                    (fun this =>
                       PlivoManager.terminateCall
                         (PlivoResilient.manager this) callUuid)
                    (spied_plivo this)
                    (PlivoManager.terminateCall
                       (PlivoResilient.manager this) callUuid)
                    eq_refl calls w [] result I)
          as (this' & tr & E);
        [ unfold fails_then_succeeds; cbn; unfold call; rewrite Hop;
          reflexivity
        | exact Hle
        | ]
    end.
    exists this', tr. rewrite E. cbn [length Z.of_nat Z.add].
    rewrite state_after_S, call_run.
    match goal with Hop : PlivoManager.terminateCall _ _ w = _ |- _ =>
      rewrite Hop end.
    cbn [fst snd state_after retry_events].
    replace (calls + 1)%nat with (S calls) by lia. reflexivity.
  - now apply waitForRecording_first_success.
Qed.

(** With every breaker open: the guarded call is refused and its
    delegate left alone, while [terminateCall] and [waitForRecording]
    reach theirs. *)
Lemma breaker_gates_all_but_terminate_and_wait_witness :
  let this := spied_plivo (Fixture.plivo_open 0) in
  (exists this',
     PlivoResilient.makeCall "+15550100" None None (this, (0%nat, 0%nat)) =
     (Fulfilled (failure_envelope CircuitBreaker.circuit_open (Some "true")),
      (this', (0%nat, 0%nat)), [])) /\
  (exists this' tr,
     PlivoResilient.terminateCall "call-1" (this, (0%nat, 0%nat)) =
     (Fulfilled (success_envelope (terminated Fixture.hung_up) 1 None),
      (this', (1%nat, 1%nat)), tr)) /\
  PlivoResilient.waitForRecording "call-1" None None (this, (0%nat, 0%nat)) =
  (Fulfilled (Some "completed"), (this, (1%nat, 1%nat)), []).
Proof.
  pose proof (@breaker_gates_all_but_terminate_and_wait (nat * nat) string _
                Fixture.types)
    as (_ & HmakeCall & _).
  pose proof (@breaker_gates_all_but_terminate_and_wait nat string _
                Fixture.types)
    as (_ & _ & _ & _ & _ & _ & _ & Hterminate & Hwait).
  cbv zeta. split; [ | split].
  - exact (HmakeCall "+15550100" None None
             (spied_plivo (Fixture.plivo_open 0)) (0%nat, 0%nat) eq_refl).
  - apply (Hterminate (Fixture.plivo_open 0)); [vm_compute; discriminate | ].
    reflexivity.
  - apply (Hwait (Fixture.plivo_open 0)); [vm_compute; discriminate | ].
    reflexivity.
Defined.


(** C10.  The envelope of a failed call never has a [retryCount],
    whatever number of attempts the call has used up. *)
Theorem failure_envelope_has_no_retryCount (W G : Type) `{Clock W}
    (D : DeepgramTypes.t) :
  (forall request,
     silent_on_failure (@PlivoResilient.initiateRecordedCall W G _ request)) /\
  (forall to from answerUrl,
     silent_on_failure (@PlivoResilient.makeCall W G _ to from answerUrl)) /\
  (forall callUuid,
     silent_on_failure (@PlivoResilient.getCallDetails W G _ callUuid)) /\
  (forall callUuid,
     silent_on_failure (@PlivoResilient.terminateCall W G callUuid)) /\
  (forall request,
     silent_on_failure (@DeepgramResilient.transcribeRecording W _ D request)) /\
  (forall url options,
     silent_on_failure (@DeepgramResilient.transcribeUrl W _ D url options)) /\
  (forall recordingUrl,
     silent_on_failure
       (@DeepgramResilient.transcribeWithInsights W _ D recordingUrl)) /\
  (forall buffer options,
     silent_on_failure
       (@DeepgramResilient.transcribeBuffer W _ D buffer options)).
Proof.
  repeat split; intros.
  - rewrite initiateRecordedCall_shape.
    apply guarded_gated_silent_on_failure, makeCallBreakerL_lawful.
  - rewrite makeCall_shape.
    apply guarded_gated_silent_on_failure, makeCallBreakerL_lawful.
  - rewrite getCallDetails_shape.
    apply guarded_gated_silent_on_failure, getCallDetailsBreakerL_lawful.
  - rewrite terminateCall_shape. apply guarded_ungated_silent_on_failure.
  - rewrite transcribeRecording_shape.
    apply guarded_gated_silent_on_failure, transcribeBreakerL_lawful.
  - rewrite transcribeUrl_shape.
    apply guarded_gated_silent_on_failure, transcribeBreakerL_lawful.
  - rewrite transcribeWithInsights_shape.
    apply guarded_gated_silent_on_failure, transcribeBreakerL_lawful.
  - rewrite transcribeBuffer_shape.
    apply guarded_gated_silent_on_failure, transcribeBreakerL_lawful.
Qed.

(** A call that used up its four attempts: the envelope of the failure
    is silent about them. *)
Lemma failure_envelope_has_no_retryCount_witness :
  let run :=
    PlivoResilient.initiateRecordedCall Fixture.request
      (spied_plivo (Fixture.plivo 9), (0%nat, 0%nat)) in
  fst (snd (snd (fst run))) = 4%nat /\
  exists env,
    fst (fst run) = Fulfilled env /\
    success env = false /\ retryCount env = None.
Proof.
  cbv zeta. split; [vm_compute; reflexivity | ].
  destruct (PlivoResilient.initiateRecordedCall Fixture.request
              (spied_plivo (Fixture.plivo 9), (0%nat, 0%nat)))
    as [[[env | e] st'] tr] eqn:E; [ | vm_compute in E; discriminate].
  exists env.
  assert (Hfail : success env = false).
  { vm_compute in E. injection E as <- _ _. reflexivity. }
  split; [reflexivity | split; [exact Hfail | ]].
  exact (proj1 (@failure_envelope_has_no_retryCount (nat * nat) string _
                  Fixture.types) Fixture.request _ _ _ _ E Hfail).
Defined.

(* ================================================================== *)
(** * Further properties of the layer *)
(* ================================================================== *)

(** ** What a method leaves of the instance *)

Section GuardedInstance.
Context {I W T D : Type} `{Clock W}.
Variable params : I -> RetryParams.
Variable op : I -> Op W T.
Variable operationName : string.
Variable payload : T -> D.

Lemma guarded_ungated_keeps :
  keeps (guarded params None op operationName payload) (fun i => i).
Proof.
  intros i w.
  destruct (guarded_ungated_cases params op operationName payload i w)
    as (r & rc & w' & tr & _ & E).
  rewrite E. reflexivity.
Qed.

Variable b : Lens I CircuitBreaker.t.
Hypothesis b_lawful : lawful b.

Lemma guarded_gated_keeps {X : Type} (part : I -> X) :
  (forall b' i, part (update b b' i) = part i) ->
  keeps (guarded params (Some b) op operationName payload) part.
Proof.
  intros Hpart i w.
  destruct (guarded_gated_cases params op operationName payload b_lawful i w)
    as [[_ E] | [_ (r & rc & w' & tr & _ & E)]]; rewrite E.
  - apply Hpart.
  - destruct (CircuitBreaker.verdict _ _ r); cbn zeta; apply Hpart.
Qed.

(** A breaker that is not open lets the call through. *)
Lemma guarded_let_through (i : I) :
  CircuitBreaker.opened (view b i) = false ->
  let_through (guarded params (Some b) op operationName payload) b i.
Proof.
  intros Hclosed w.
  destruct (guarded_gated_cases params op operationName payload b_lawful i w)
    as [[Hopen _] | [_ (r & rc & w' & tr & _ & E)]]; [congruence | ].
  rewrite E.
  destruct (CircuitBreaker.verdict _ _ r); cbn zeta; cbn [fst snd];
    rewrite b_lawful.
  - exists CircuitBreaker.Success. rewrite succeed_window.
    split; [reflexivity | discriminate].
  - exists CircuitBreaker.Failure. rewrite fail_window.
    split; [reflexivity | discriminate].
Qed.
End GuardedInstance.

Lemma keeps_part {I W A X Y : Type} (method : M (I * W) A) (part : I -> X)
    (f : X -> Y) :
  keeps method part -> keeps method (fun i => f (part i)).
Proof. intros H i w. cbv beta. now rewrite H. Qed.

Lemma engine_invariant {I St T : Type} (params : I -> RetryParams)
    (this : Lens St I) (operation : M St T) (operationName : string)
    (P : St -> Prop) :
  (forall st, P st -> P (snd (fst (operation st)))) ->
  forall st,
    P st -> P (snd (fst (engine params this operation operationName st))).
Proof.
  intros Hop st HP. rewrite engine_run.
  exact (@loop_invariant _ _ (params (view this st)) operation operationName
           P Hop _ 0 None st eq_refl HP).
Qed.

(** ** [waitForRecording] of the facade *)

Section WaitForRecording.
Context {W G : Type}.
Variable callUuid : string.

Lemma waitForRecording_shape (maxAttempts : option Z) (delayMs : option Q) :
  @PlivoResilient.waitForRecording W G callUuid maxAttempts delayMs =
  try_catch
    (result <-
       engine plivo_params fstL
         (recording_attempt callUuid (maxAttempts_or_default maxAttempts)
            (delayMs_or_default delayMs))
         "waitForRecording" ;;
     ret (Some result))
    (fun error =>
       console.error [Str "[PlivoResilient] Failed to get recording:";
                      Err error] ;;;
       ret None).
Proof. reflexivity. Qed.

Variable maxAttempts : Z.
Variable delayMs : Q.

Local Notation "'wait' this" :=
  (PlivoManager.waitForRecording (PlivoResilient.manager this) callUuid
     maxAttempts delayMs) (at level 10, this at level 9).

Lemma recording_attempt_run (this : @PlivoResilient.t W G) (w : W) :
  recording_attempt callUuid maxAttempts delayMs (this, w) =
  (recording_outcome (fst (wait this w)), (this, snd (wait this w)), []).
Proof.
  unfold recording_attempt, PlivoResilient.delegate, bind, gets, zoom,
    call, throw, ret.
  cbn [view update fstL sndL fst snd].
  destruct (wait this w) as [[[details | ] | e] w1]; reflexivity.
Qed.

Lemma recording_attempt_quiet :
  quiet (recording_attempt (W := W) (G := G) callUuid maxAttempts delayMs).
Proof. intros [this w]. rewrite recording_attempt_run. reflexivity. Qed.

Lemma recording_attempt_outcomes (this : @PlivoResilient.t W G) (n : nat) :
  forall w,
    outcomes (recording_attempt callUuid maxAttempts delayMs) n (this, w) =
    map recording_outcome (outcomes (call (wait this)) n w).
Proof.
  induction n as [| n IH]; intros w; [reflexivity | ].
  rewrite !outcomes_S, recording_attempt_run, call_run. cbn [fst snd map].
  now rewrite IH.
Qed.

Lemma recording_attempt_state_after (this : @PlivoResilient.t W G)
    (n : nat) :
  forall w,
    state_after (recording_attempt callUuid maxAttempts delayMs) n
      (this, w) =
    (this, state_after (call (wait this)) n w).
Proof.
  induction n as [| n IH]; intros w; [reflexivity | ].
  rewrite !state_after_S, recording_attempt_run, call_run. cbn [fst snd].
  now rewrite IH.
Qed.

Lemma recording_attempt_keeps_instance :
  forall (this : @PlivoResilient.t W G)
         (st : @PlivoResilient.Instance W G),
    fst st = this ->
    fst (snd (fst (recording_attempt callUuid maxAttempts delayMs st))) =
    this.
Proof.
  intros this [this0 w] H. rewrite recording_attempt_run. exact H.
Qed.
End WaitForRecording.

(** The run of [waitForRecording], told by the run of the engine
    inside. *)
Lemma waitForRecording_run {W G : Type} (callUuid : string)
    (maxAttempts : option Z) (delayMs : option Q)
    (st : @PlivoResilient.Instance W G) :
  PlivoResilient.waitForRecording callUuid maxAttempts delayMs st =
  let '(r, st1, tr) :=
    engine plivo_params fstL
      (recording_attempt callUuid (maxAttempts_or_default maxAttempts)
         (delayMs_or_default delayMs))
      "waitForRecording" st in
  match r with
  | Fulfilled details => (Fulfilled (Some details), st1, tr)
  | Rejected e =>
      (Fulfilled None, st1,
       tr ++ [Console Error [Str "[PlivoResilient] Failed to get recording:";
                             Err e]])
  end.
Proof.
  rewrite waitForRecording_shape. unfold try_catch, bind.
  destruct (engine plivo_params fstL _ "waitForRecording" st)
    as [[[details | e] st1] tr]; cbn; [rewrite app_nil_r | ]; reflexivity.
Qed.

Lemma waitForRecording_keeps_instance {W G : Type} (callUuid : string)
    (maxAttempts : option Z) (delayMs : option Q) :
  keeps (@PlivoResilient.waitForRecording W G callUuid maxAttempts delayMs)
    (fun this => this).
Proof.
  intros this w. rewrite waitForRecording_run.
  pose proof (@engine_invariant _ _ _ plivo_params fstL
                (recording_attempt callUuid
                   (maxAttempts_or_default maxAttempts)
                   (delayMs_or_default delayMs))
                "waitForRecording" (fun st => fst st = this)
                (fun st H =>
                   @recording_attempt_keeps_instance _ _ callUuid _ _ this
                     st H)
                (this, w) eq_refl) as Inv.
  destruct (engine plivo_params fstL _ "waitForRecording" (this, w))
    as [[[details | e] st1] tr]; exact Inv.
Qed.

(** A row of answers without a recording is a row of rejections of the
    attempt. *)
Lemma not_ready_rejected {G : Type} (answers : list (settled (option G))) :
  Forall not_ready answers ->
  exists reasons,
    length reasons = length answers /\
    map recording_outcome answers = map Rejected reasons.
Proof.
  induction answers as [| r rest IH]; intros H.
  - exists []. split; reflexivity.
  - apply Forall_cons_iff in H as [Hr Hrest].
    destruct (IH Hrest) as (reasons & Hlen & Hmap).
    destruct r as [[details | ] | e]; [contradiction | | ].
    + exists (ThrownError
                (mkError "Recording not available after maximum attempts")
              :: reasons).
      cbn. now rewrite Hlen, Hmap.
    + exists (e :: reasons). cbn. now rewrite Hlen, Hmap.
Qed.

Section FacadeWait.
Context {W G : Type}.
Variable this : @PlivoResilient.t W G.
Variable callUuid : string.
Variable maxAttempts : option Z.
Variable delayMs : option Q.

Local Notation "'poll'" :=
  (call (PlivoManager.waitForRecording (PlivoResilient.manager this)
           callUuid (maxAttempts_or_default maxAttempts)
           (delayMs_or_default delayMs))).

(** The manager has a recording on invocation [k + 1], and none
    before. *)
Lemma facade_wait_found (w : W) (k : nat) (details : G) :
  Z.of_nat k <= orZ (maxRetries (PlivoResilient.config this)) 3 ->
  Forall not_ready (outcomes poll k w) ->
  nth_error (outcomes poll (S k) w) k = Some (Fulfilled (Some details)) ->
  exists tr,
    PlivoResilient.waitForRecording callUuid maxAttempts delayMs (this, w) =
    (Fulfilled (Some details), (this, state_after poll (S k) w), tr).
Proof.
  intros Hk Hnot Hnth.
  destruct (not_ready_rejected Hnot) as (reasons & Hlen & Hmap).
  rewrite outcomes_length in Hlen.
  assert (H : fails_then_succeeds
                (recording_attempt callUuid
                   (maxAttempts_or_default maxAttempts)
                   (delayMs_or_default delayMs))
                (this, w) reasons details).
  { unfold fails_then_succeeds.
    rewrite Hlen, recording_attempt_outcomes, outcomes_snoc, map_app.
    rewrite Hmap. f_equal. cbn [map]. f_equal.
    rewrite outcomes_snoc in Hnth.
    rewrite nth_error_app2 in Hnth by (rewrite outcomes_length; lia).
    rewrite outcomes_length, Nat.sub_diag in Hnth. cbn in Hnth.
    injection Hnth as ->. reflexivity. }
  destruct (@loop_fails_then_succeeds _ _ (plivo_params this)
              (recording_attempt callUuid
                 (maxAttempts_or_default maxAttempts)
                 (delayMs_or_default delayMs))
              "waitForRecording" reasons details _ None H)
    as [tr [_ E]]; [rewrite Hlen; exact Hk | ].
  exists tr.
  pose proof (recording_attempt_state_after callUuid
                (maxAttempts_or_default maxAttempts)
                (delayMs_or_default delayMs) this (S k) w) as Hstate.
  rewrite waitForRecording_run, engine_run. cbn [view fstL fst].
  unfold PlivoResilient.Instance in *.
  rewrite E, Hlen, Hstate. reflexivity.
Qed.

(** The manager has no recording on any of the invocations the engine
    makes. *)
Lemma facade_wait_none (w : W) :
  Forall not_ready
    (outcomes poll
       (Z.to_nat (orZ (maxRetries (PlivoResilient.config this)) 3 + 1)) w) ->
  exists tr,
    PlivoResilient.waitForRecording callUuid maxAttempts delayMs (this, w) =
    (Fulfilled None,
     (this,
      state_after poll
        (Z.to_nat (orZ (maxRetries (PlivoResilient.config this)) 3 + 1)) w),
     tr).
Proof.
  intros Hnot.
  destruct (not_ready_rejected Hnot) as (reasons & Hlen & Hmap).
  rewrite outcomes_length in Hlen.
  assert (Hrej : outcomes
                   (recording_attempt callUuid
                      (maxAttempts_or_default maxAttempts)
                      (delayMs_or_default delayMs))
                   (length reasons) (this, w) =
                 map Rejected reasons).
  { rewrite Hlen, recording_attempt_outcomes. exact Hmap. }
  destruct (@loop_exhausted _ _ (plivo_params this)
              (recording_attempt callUuid
                 (maxAttempts_or_default maxAttempts)
                 (delayMs_or_default delayMs))
              "waitForRecording" reasons _ None Hlen Hrej) as [tr [_ E]].
  pose proof (recording_attempt_state_after callUuid
                (maxAttempts_or_default maxAttempts)
                (delayMs_or_default delayMs) this
                (Z.to_nat
                   (orZ (maxRetries (PlivoResilient.config this)) 3 + 1))
                w) as Hstate.
  eexists.
  rewrite waitForRecording_run, engine_run. cbn [view fstL fst].
  unfold PlivoResilient.Instance in *.
  rewrite E, Hlen, Hstate. reflexivity.
Qed.
End FacadeWait.

(** ** Counts of the engine *)



Lemma engine_negative {I St T : Type} (params : I -> RetryParams)
    (this : Lens St I) (operation : M St T) (operationName : string)
    (st : St) :
  p_maxRetries (params (view this st)) < 0 ->
  engine params this operation operationName st =
  (Rejected (ThrownValue "undefined"), st, []).
Proof.
  intros Hneg. rewrite engine_run.
  rewrite (@loop_exit _ _ (params (view this st)) operation operationName
             0 None st) by lia.
  reflexivity.
Qed.

Section Unattempted.
Context {I W T D : Type} `{Clock W}.
Variable params : I -> RetryParams.
Variable op : I -> Op W T.
Variable operationName : string.
Variable payload : T -> D.
Variable i : I.
Hypothesis negative : p_maxRetries (params i) < 0.

Lemma guarded_ungated_unattempted :
  fails_unattempted (guarded params None op operationName payload) None
    (ThrownValue "undefined") i.
Proof.
  intros w. unfold guarded.
  rewrite (@enveloped_ungated _ _ _ _ _ payload _ i w w
             (Rejected (ThrownValue "undefined")) 0 []).
  - do 3 eexists. split; [reflexivity | ]. cbn. repeat split.
  - now apply engine_negative.
Qed.

Variable b : Lens I CircuitBreaker.t.
Hypothesis b_lawful : lawful b.

Lemma guarded_gated_unattempted :
  CircuitBreaker.opened (view b i) = false ->
  fails_unattempted (guarded params (Some b) op operationName payload)
    (Some b) (ThrownValue "undefined") i.
Proof.
  intros Hclosed w. unfold guarded.
  rewrite (@enveloped_through _ _ _ _ _ payload _ b b_lawful i w w
             (Rejected (ThrownValue "undefined")) 0 [] Hclosed).
  - unfold CircuitBreaker.verdict.
    rewrite (late_at_once _ (elapsed_nothing w)).
    cbn zeta. do 3 eexists. split; [reflexivity | ].
    split; [reflexivity | ]. split; [reflexivity | ].
    rewrite b_lawful. apply fail_window.
  - now apply engine_negative.
Qed.
End Unattempted.

(** ** The trace of one run of the engine *)

Section RunTrace.
Context {St T : Type}.
Variable p : RetryParams.
Variable operation : M St T.
Variable operationName : string.
Hypothesis operation_quiet : quiet operation.


End RunTrace.



(** ** A flag that says ["true"] *)

Lemma String_of_bool_true (flag : bool) :
  Some (String_of_bool flag) = Some "true" -> flag = true.
Proof. destruct flag; [reflexivity | discriminate]. Qed.

Section FlagFacts.
Context {I W T1 T2 D1 D2 : Type} `{Clock W}.
Variable params : I -> RetryParams.
Variable b : Lens I CircuitBreaker.t.
Hypothesis b_lawful : lawful b.

Lemma guarded_flag_predicts_refusal (op1 : I -> Op W T1)
    (op2 : I -> Op W T2) (name1 name2 : string) (payload1 : T1 -> D1)
    (payload2 : T2 -> D2) :
  flag_predicts_refusal
    (guarded params (Some b) op1 name1 payload1)
    (guarded params (Some b) op2 name2 payload2).
Proof.
  intros i w env i1 w1 tr Hrun Hflag w2.
  destruct (guarded_reports_opened params op1 name1 payload1 b_lawful (i, w))
    as (env' & i' & w' & tr' & E & Hstate & _).
  rewrite E in Hrun. injection Hrun as Henv Hi _ _. subst env' i'.
  rewrite Hstate in Hflag. apply String_of_bool_true in Hflag.
  exact (guarded_fails_fast_when_open params name2 payload2 b_lawful op2
           i1 w2 Hflag).
Qed.

(** When the reset timer of an open breaker has run out, the breaker
    is half-open and the next call is let through. *)
Lemma guarded_let_through_after_resetTimeout (op : I -> Op W T1)
    (name : string) (payload : T1 -> D1) (i : I) :
  CircuitBreaker.opened (view b i) = true ->
  let_through (guarded params (Some b) op name payload) b
    (after_resetTimeout b i).
Proof.
  intros Hopen. apply guarded_let_through; [exact b_lawful | ].
  unfold after_resetTimeout. rewrite b_lawful.
  unfold CircuitBreaker.opened in *.
  unfold CircuitBreaker.resetTimeoutElapsed, bind, gets, ret,
    CircuitBreaker.transition.
  destruct (CircuitBreaker.state (view b i)); (discriminate || reflexivity).
Qed.
End FlagFacts.

(** ** [resetCircuitBreakers] *)

Lemma close_run (b : CircuitBreaker.t) :
  exists tr,
    CircuitBreaker.close b =
    (Fulfilled tt, CircuitBreaker.set_state CircuitBreaker.closed b, tr).
Proof.
  unfold CircuitBreaker.close, bind, gets, ret, CircuitBreaker.transition.
  destruct b as [options state window listeners].
  destruct state; cbn; eexists; reflexivity.
Qed.

Lemma plivo_reset_run {W G : Type} (this : @PlivoResilient.t W G) (w : W) :
  exists pre,
    PlivoResilient.resetCircuitBreakers (this, w) =
    (Fulfilled tt,
     ({| PlivoResilient.manager := PlivoResilient.manager this;
         PlivoResilient.config := PlivoResilient.config this;
         PlivoResilient.makeCallBreaker :=
           CircuitBreaker.set_state CircuitBreaker.closed
             (PlivoResilient.makeCallBreaker this);
         PlivoResilient.getCallDetailsBreaker :=
           CircuitBreaker.set_state CircuitBreaker.closed
             (PlivoResilient.getCallDetailsBreaker this) |}, w),
     pre ++ [Console Info [Str "[PlivoResilient] All circuit breakers reset"]]).
Proof.
  destruct (close_run (PlivoResilient.makeCallBreaker this)) as [t1 E1].
  destruct (close_run (PlivoResilient.getCallDetailsBreaker this))
    as [t2 E2].
  exists (t1 ++ t2).
  unfold PlivoResilient.resetCircuitBreakers, bind, zoom, console.info, emit.
  cbn [view update composeL fstL fst snd PlivoResilient.makeCallBreakerL
       PlivoResilient.getCallDetailsBreakerL PlivoResilient.makeCallBreaker
       PlivoResilient.getCallDetailsBreaker PlivoResilient.manager
       PlivoResilient.config].
  rewrite E1.
  cbn [view update composeL fstL fst snd PlivoResilient.makeCallBreakerL
       PlivoResilient.getCallDetailsBreakerL PlivoResilient.makeCallBreaker
       PlivoResilient.getCallDetailsBreaker PlivoResilient.manager
       PlivoResilient.config].
  rewrite E2.
  cbn [view update composeL fstL fst snd PlivoResilient.makeCallBreakerL
       PlivoResilient.getCallDetailsBreakerL PlivoResilient.makeCallBreaker
       PlivoResilient.getCallDetailsBreaker PlivoResilient.manager
       PlivoResilient.config].
  rewrite <- app_assoc. reflexivity.
Qed.

Lemma deepgram_reset_run {W : Type} {D : DeepgramTypes.t}
    (this : @DeepgramResilient.t W D) (w : W) :
  exists pre,
    DeepgramResilient.resetCircuitBreakers (this, w) =
    (Fulfilled tt,
     ({| DeepgramResilient.manager := DeepgramResilient.manager this;
         DeepgramResilient.config := DeepgramResilient.config this;
         DeepgramResilient.transcribeBreaker :=
           CircuitBreaker.set_state CircuitBreaker.closed
             (DeepgramResilient.transcribeBreaker this) |}, w),
     pre ++
     [Console Info [Str "[DeepgramResilient] All circuit breakers reset"]]).
Proof.
  destruct (close_run (DeepgramResilient.transcribeBreaker this)) as [t1 E1].
  exists t1.
  unfold DeepgramResilient.resetCircuitBreakers, bind, zoom, console.info,
    emit.
  cbn [view update composeL fstL fst snd DeepgramResilient.transcribeBreakerL
       DeepgramResilient.transcribeBreaker DeepgramResilient.manager
       DeepgramResilient.config].
  rewrite E1. reflexivity.
Qed.

(* ================================================================== *)
(** * Further properties of the facades *)
(* ================================================================== *)

(** X1.  No public method of a facade replaces the manager it delegates
    to or changes the configuration: after [initiateRecordedCall],
    [makeCall], [getCallDetails], [terminateCall], [waitForRecording]
    and [resetCircuitBreakers] of [PlivoResilient], and after the four
    transcribe methods and [resetCircuitBreakers] of
    [DeepgramResilient], both are what they were before the call,
    whatever the delegate and the breakers did. *)
Theorem manager_and_config_are_kept (W G : Type) `{Clock W}
    (D : DeepgramTypes.t) :
  let plivo (this : @PlivoResilient.t W G) :=
    (PlivoResilient.manager this, PlivoResilient.config this) in
  let deepgram (this : @DeepgramResilient.t W D) :=
    (DeepgramResilient.manager this, DeepgramResilient.config this) in
  (forall request, keeps (PlivoResilient.initiateRecordedCall request) plivo)
  /\
  (forall to from answerUrl,
     keeps (PlivoResilient.makeCall to from answerUrl) plivo) /\
  (forall callUuid, keeps (PlivoResilient.getCallDetails callUuid) plivo) /\
  (forall callUuid, keeps (PlivoResilient.terminateCall callUuid) plivo) /\
  (forall callUuid maxAttempts delayMs,
     keeps (PlivoResilient.waitForRecording callUuid maxAttempts delayMs)
       plivo) /\
  keeps PlivoResilient.resetCircuitBreakers plivo /\
  (forall request,
     keeps (DeepgramResilient.transcribeRecording request) deepgram) /\
  (forall url options,
     keeps (DeepgramResilient.transcribeUrl url options) deepgram) /\
  (forall recordingUrl,
     keeps (DeepgramResilient.transcribeWithInsights recordingUrl) deepgram)
  /\
  (forall buffer options,
     keeps (DeepgramResilient.transcribeBuffer buffer options) deepgram) /\
  keeps DeepgramResilient.resetCircuitBreakers deepgram.
Proof.
  cbv zeta.
  split; [ | split; [ | split; [ | split; [ | split; [ | split;
    [ | split; [ | split; [ | split; [ | split]]]]]]]]].
  - intros request. rewrite initiateRecordedCall_shape.
    apply guarded_gated_keeps; [apply makeCallBreakerL_lawful | reflexivity].
  - intros to from answerUrl. rewrite makeCall_shape.
    apply guarded_gated_keeps; [apply makeCallBreakerL_lawful | reflexivity].
  - intros callUuid. rewrite getCallDetails_shape.
    apply guarded_gated_keeps;
      [apply getCallDetailsBreakerL_lawful | reflexivity].
  - intros callUuid. rewrite terminateCall_shape.
    apply (keeps_part
             (fun this : @PlivoResilient.t W G =>
                (PlivoResilient.manager this, PlivoResilient.config this))
             (guarded_ungated_keeps _ _ _ _)).
  - intros callUuid maxAttempts delayMs.
    apply (keeps_part
             (fun this : @PlivoResilient.t W G =>
                (PlivoResilient.manager this, PlivoResilient.config this))
             (waitForRecording_keeps_instance callUuid maxAttempts delayMs)).
  - intros this w. destruct (plivo_reset_run this w) as [pre E].
    rewrite E. reflexivity.
  - intros request. rewrite transcribeRecording_shape.
    apply guarded_gated_keeps; [apply transcribeBreakerL_lawful | reflexivity].
  - intros url options. rewrite transcribeUrl_shape.
    apply guarded_gated_keeps; [apply transcribeBreakerL_lawful | reflexivity].
  - intros recordingUrl. rewrite transcribeWithInsights_shape.
    apply guarded_gated_keeps; [apply transcribeBreakerL_lawful | reflexivity].
  - intros buffer options. rewrite transcribeBuffer_shape.
    apply guarded_gated_keeps; [apply transcribeBreakerL_lawful | reflexivity].
  - intros this w. destruct (deepgram_reset_run this w) as [pre E].
    rewrite E. reflexivity.
Qed.

(** X2.  Inside [PlivoResilient] each method touches the breaker it
    fires and nothing else of the instance: [initiateRecordedCall] and
    [makeCall] leave the [getCallDetails] breaker (state and window) as
    it was, [getCallDetails] leaves the [makeCall] breaker as it was,
    and [terminateCall] and [waitForRecording] leave the whole instance,
    both breakers included, as it was: no sample is ever counted for
    them. *)
Theorem plivo_methods_touch_their_breaker_only (W G : Type) `{Clock W} :
  (forall request,
     keeps (@PlivoResilient.initiateRecordedCall W G _ request)
       PlivoResilient.getCallDetailsBreaker) /\
  (forall to from answerUrl,
     keeps (@PlivoResilient.makeCall W G _ to from answerUrl)
       PlivoResilient.getCallDetailsBreaker) /\
  (forall callUuid,
     keeps (@PlivoResilient.getCallDetails W G _ callUuid)
       PlivoResilient.makeCallBreaker) /\
  (forall callUuid,
     keeps (@PlivoResilient.terminateCall W G callUuid) (fun this => this)) /\
  (forall callUuid maxAttempts delayMs,
     keeps (@PlivoResilient.waitForRecording W G callUuid maxAttempts delayMs)
       (fun this => this)).
Proof.
  split; [ | split; [ | split; [ | split]]].
  - intros request. rewrite initiateRecordedCall_shape.
    apply guarded_gated_keeps; [apply makeCallBreakerL_lawful | reflexivity].
  - intros to from answerUrl. rewrite makeCall_shape.
    apply guarded_gated_keeps; [apply makeCallBreakerL_lawful | reflexivity].
  - intros callUuid. rewrite getCallDetails_shape.
    apply guarded_gated_keeps;
      [apply getCallDetailsBreakerL_lawful | reflexivity].
  - intros callUuid. rewrite terminateCall_shape.
    apply guarded_ungated_keeps.
  - intros callUuid maxAttempts delayMs.
    apply waitForRecording_keeps_instance.
Qed.

(** X3.  [waitForRecording] of the facade never rejects: whatever the
    manager does, it fulfils, with the call details or with [null]; and
    when it answers [null] the last thing it has done is to log
    ["[PlivoResilient] Failed to get recording:"] with the error the
    retry engine gave up with. *)
Theorem waitForRecording_never_rejects (W G : Type) (callUuid : string)
    (maxAttempts : option Z) (delayMs : option Q)
    (st : @PlivoResilient.Instance W G) :
  exists result st' tr,
    PlivoResilient.waitForRecording callUuid maxAttempts delayMs st =
    (Fulfilled result, st', tr) /\
    (result = None ->
     exists pre e,
       tr = pre ++
            [Console Error [Str "[PlivoResilient] Failed to get recording:";
                            Err e]]).
Proof.
  rewrite waitForRecording_run.
  destruct (engine plivo_params fstL _ "waitForRecording" st)
    as [[[details | e] st1] tr].
  - do 3 eexists. split; [reflexivity | discriminate].
  - do 3 eexists. split; [reflexivity | ]. intros _. now exists tr, e.
Qed.

(** X4.  [waitForRecording] of the facade retries on [null]: an answer
    of the manager without a recording, be it [null] or a rejection,
    counts as a failed attempt.  When the manager has no recording on
    its first [k] invocations, [k] within the retries, and has one on
    the next, the facade returns that one after [k + 1] invocations;
    when it has none on any of [maxRetries + 1] invocations, the facade
    returns [null] after exactly that many. *)
Theorem waitForRecording_retries_until_a_recording (W G : Type)
    (this : @PlivoResilient.t W G) (callUuid : string)
    (maxAttempts : option Z) (delayMs : option Q) (calls : nat) (w : W) :
  let poll :=
    call (PlivoManager.waitForRecording (PlivoResilient.manager this)
            callUuid (maxAttempts_or_default maxAttempts)
            (delayMs_or_default delayMs)) in
  let maxRetries := orZ (maxRetries (PlivoResilient.config this)) 3 in
  let run :=
    PlivoResilient.waitForRecording callUuid maxAttempts delayMs
      (spied_plivo this, (calls, w)) in
  (forall k details,
     Z.of_nat k <= maxRetries ->
     Forall not_ready (outcomes poll k w) ->
     nth_error (outcomes poll (S k) w) k = Some (Fulfilled (Some details)) ->
     fst (fst run) = Fulfilled (Some details) /\
     snd (fst run) =
       (spied_plivo this, ((calls + S k)%nat, state_after poll (S k) w))) /\
  (0 <= maxRetries ->
   Forall not_ready (outcomes poll (Z.to_nat (maxRetries + 1)) w) ->
   fst (fst run) = Fulfilled None /\
   snd (fst run) =
     (spied_plivo this,
      ((calls + Z.to_nat (maxRetries + 1))%nat,
       state_after poll (Z.to_nat (maxRetries + 1)) w))).
Proof.
  cbv zeta.
  set (op := PlivoManager.waitForRecording (PlivoResilient.manager this)
               callUuid (maxAttempts_or_default maxAttempts)
               (delayMs_or_default delayMs)).
  assert (Hspied : PlivoManager.waitForRecording
                     (PlivoResilient.manager (spied_plivo this)) callUuid
                     (maxAttempts_or_default maxAttempts)
                     (delayMs_or_default delayMs)
                   = spy_op op) by reflexivity.
  split.
  - intros k details Hk Hnot Hnth.
    destruct (@facade_wait_found _ _ (spied_plivo this) callUuid maxAttempts
                delayMs (calls, w) k details Hk) as [tr E].
    + rewrite Hspied, spy_op_outcomes. exact Hnot.
    + rewrite Hspied, spy_op_outcomes. exact Hnth.
    + rewrite E, Hspied, spy_op_state_after. split; reflexivity.
  - intros Hle Hnot.
    destruct (@facade_wait_none _ _ (spied_plivo this) callUuid maxAttempts
                delayMs (calls, w)) as [tr E].
    + rewrite Hspied, spy_op_outcomes. exact Hnot.
    + rewrite E, Hspied, spy_op_state_after. split; reflexivity.
Qed.

(** With the defaults (three retries): a manager that has the recording
    on its third invocation is invoked three times, and one that has it
    on its tenth only is invoked four times and the answer is [null]. *)
Lemma waitForRecording_retries_until_a_recording_witness :
  fst (fst (PlivoResilient.waitForRecording "call-1" None None
              (spied_plivo
                 (PlivoResilient.constructor Fixture.unset
                    (Scenario.recorded_after 2)), (0%nat, 0%nat)))) =
    Fulfilled (Some "completed") /\
  snd (snd (fst (PlivoResilient.waitForRecording "call-1" None None
                   (spied_plivo
                      (PlivoResilient.constructor Fixture.unset
                         (Scenario.recorded_after 2)), (0%nat, 0%nat))))) =
    (3%nat, 3%nat) /\
  fst (fst (PlivoResilient.waitForRecording "call-1" None None
              (spied_plivo
                 (PlivoResilient.constructor Fixture.unset
                    (Scenario.recorded_after 9)), (0%nat, 0%nat)))) =
    Fulfilled None /\
  snd (snd (fst (PlivoResilient.waitForRecording "call-1" None None
                   (spied_plivo
                      (PlivoResilient.constructor Fixture.unset
                         (Scenario.recorded_after 9)), (0%nat, 0%nat))))) =
    (4%nat, 4%nat).
Proof.
  destruct (waitForRecording_retries_until_a_recording
              (PlivoResilient.constructor Fixture.unset
                 (Scenario.recorded_after 2)) "call-1" None None 0%nat 0%nat)
    as [Hfound _].
  destruct (Hfound 2%nat "completed") as [Hr Hs].
  - vm_compute. discriminate.
  - vm_compute. repeat constructor.
  - vm_compute. reflexivity.
  - destruct (waitForRecording_retries_until_a_recording
                (PlivoResilient.constructor Fixture.unset
                   (Scenario.recorded_after 9)) "call-1" None None 0%nat
                0%nat) as [_ Hnone].
    destruct Hnone as [Hr' Hs'].
    + vm_compute. discriminate.
    + vm_compute. repeat constructor.
    + split; [exact Hr | ]. split; [rewrite Hs; reflexivity | ].
      split; [exact Hr' | rewrite Hs'; reflexivity].
Defined.



(** X6.  A negative [maxRetries] is not rejected by the configuration
    and makes every call fail without an attempt: the loop of
    [executeWithRetry] is not entered, the operation is never invoked,
    and what is thrown is [lastError] as declared, that is [undefined].
    A method of a facade then answers with the failure whose error is
    [new Error("undefined")], the world untouched; a method with a
    breaker that is not open counts this as a failure of the service. *)
Theorem negative_maxRetries_fails_without_an_attempt (W G : Type)
    `{Clock W} (D : DeepgramTypes.t) :
  (forall (St T : Type) (this : Lens St (@PlivoResilient.t W G))
          (operation : M St T) (operationName : string) (st : St),
     orZ (maxRetries (PlivoResilient.config (view this st))) 3 < 0 ->
     PlivoResilient.executeWithRetry this operation operationName st =
     (Rejected (ThrownValue "undefined"), st, [])) /\
  (forall (St T : Type) (this : Lens St (@DeepgramResilient.t W D))
          (operation : M St T) (operationName : string) (st : St),
     orZ (maxRetries (DeepgramResilient.config (view this st))) 3 < 0 ->
     DeepgramResilient.executeWithRetry this operation operationName st =
     (Rejected (ThrownValue "undefined"), st, [])) /\
  (forall this : @PlivoResilient.t W G,
     orZ (maxRetries (PlivoResilient.config this)) 3 < 0 ->
     (forall callUuid,
        fails_unattempted (PlivoResilient.terminateCall callUuid) None
          (ThrownValue "undefined") this) /\
     (CircuitBreaker.opened (PlivoResilient.makeCallBreaker this) = false ->
      (forall request,
         fails_unattempted (PlivoResilient.initiateRecordedCall request)
           (Some PlivoResilient.makeCallBreakerL) (ThrownValue "undefined")
           this) /\
      (forall to from answerUrl,
         fails_unattempted (PlivoResilient.makeCall to from answerUrl)
           (Some PlivoResilient.makeCallBreakerL) (ThrownValue "undefined")
           this)) /\
     (CircuitBreaker.opened (PlivoResilient.getCallDetailsBreaker this) =
        false ->
      forall callUuid,
        fails_unattempted (PlivoResilient.getCallDetails callUuid)
          (Some PlivoResilient.getCallDetailsBreakerL)
          (ThrownValue "undefined") this)) /\
  (forall this : @DeepgramResilient.t W D,
     orZ (maxRetries (DeepgramResilient.config this)) 3 < 0 ->
     CircuitBreaker.opened (DeepgramResilient.transcribeBreaker this) = false
     ->
     (forall request,
        fails_unattempted (DeepgramResilient.transcribeRecording request)
          (Some DeepgramResilient.transcribeBreakerL)
          (ThrownValue "undefined") this) /\
     (forall url options,
        fails_unattempted (DeepgramResilient.transcribeUrl url options)
          (Some DeepgramResilient.transcribeBreakerL)
          (ThrownValue "undefined") this) /\
     (forall recordingUrl,
        fails_unattempted
          (DeepgramResilient.transcribeWithInsights recordingUrl)
          (Some DeepgramResilient.transcribeBreakerL)
          (ThrownValue "undefined") this) /\
     (forall buffer options,
        fails_unattempted (DeepgramResilient.transcribeBuffer buffer options)
          (Some DeepgramResilient.transcribeBreakerL)
          (ThrownValue "undefined") this)).
Proof.
  split; [ | split; [ | split]].
  - intros St T this operation operationName st Hneg.
    rewrite plivo_executeWithRetry_engine. now apply engine_negative.
  - intros St T this operation operationName st Hneg.
    rewrite deepgram_executeWithRetry_engine. now apply engine_negative.
  - intros this Hneg. split; [ | split].
    + intros callUuid. rewrite terminateCall_shape.
      now apply guarded_ungated_unattempted.
    + intros Hclosed. split.
      * intros request. rewrite initiateRecordedCall_shape.
        apply guarded_gated_unattempted;
          [exact Hneg | apply makeCallBreakerL_lawful | exact Hclosed].
      * intros to from answerUrl. rewrite makeCall_shape.
        apply guarded_gated_unattempted;
          [exact Hneg | apply makeCallBreakerL_lawful | exact Hclosed].
    + intros Hclosed callUuid. rewrite getCallDetails_shape.
      apply guarded_gated_unattempted;
        [exact Hneg | apply getCallDetailsBreakerL_lawful | exact Hclosed].
  - intros this Hneg Hclosed. split; [ | split; [ | split]].
    + intros request. rewrite transcribeRecording_shape.
      apply guarded_gated_unattempted;
        [exact Hneg | apply transcribeBreakerL_lawful | exact Hclosed].
    + intros url options. rewrite transcribeUrl_shape.
      apply guarded_gated_unattempted;
        [exact Hneg | apply transcribeBreakerL_lawful | exact Hclosed].
    + intros recordingUrl. rewrite transcribeWithInsights_shape.
      apply guarded_gated_unattempted;
        [exact Hneg | apply transcribeBreakerL_lawful | exact Hclosed].
    + intros buffer options. rewrite transcribeBuffer_shape.
      apply guarded_gated_unattempted;
        [exact Hneg | apply transcribeBreakerL_lawful | exact Hclosed].
Qed.

(** [{ maxRetries: -1 }] over a manager that would succeed at once: the
    call is answered with the error ["undefined"] and the manager has
    not been invoked. *)
Lemma negative_maxRetries_fails_without_an_attempt_witness :
  exists env this' tr,
    PlivoResilient.initiateRecordedCall Fixture.request
      (spied_plivo
         (PlivoResilient.constructor (Scenario.retries (-1))
            (Fixture.plivoManager 0)), (0%nat, 0%nat)) =
    (Fulfilled env, (this', (0%nat, 0%nat)), tr) /\
    success env = false /\
    error env = Some (mkError "undefined").
Proof.
  destruct (@negative_maxRetries_fails_without_an_attempt (nat * nat) string
              _ Fixture.types) as (_ & _ & Hplivo & _).
  destruct (Hplivo (spied_plivo
                      (PlivoResilient.constructor (Scenario.retries (-1))
                         (Fixture.plivoManager 0))))
    as (_ & Hgated & _); [vm_compute; reflexivity | ].
  destruct Hgated as [Hinitiate _]; [reflexivity | ].
  destruct (Hinitiate Fixture.request (0%nat, 0%nat))
    as (env & this' & tr & E & Hfail & Herr & _).
  exists env, this', tr. split; [exact E | ]. split; [exact Hfail | exact Herr].
Defined.



(** X8.  [resetCircuitBreakers] forces every breaker of the facade back
    to closed, whatever state it was in and whatever its window holds
    (the windows are not cleared), changes nothing in the world, and
    logs ["All circuit breakers reset"] last; the next call of a gated
    method is then let through to the retry loop instead of being
    refused. *)
Theorem resetCircuitBreakers_closes_every_breaker (W G : Type)
    `{Clock W} (D : DeepgramTypes.t) :
  (forall (this : @PlivoResilient.t W G) (w : W),
     exists this' pre,
       PlivoResilient.resetCircuitBreakers (this, w) =
       (Fulfilled tt, (this', w),
        pre ++
        [Console Info [Str "[PlivoResilient] All circuit breakers reset"]]) /\
       CircuitBreaker.state (PlivoResilient.makeCallBreaker this') =
         CircuitBreaker.closed /\
       CircuitBreaker.state (PlivoResilient.getCallDetailsBreaker this') =
         CircuitBreaker.closed /\
       CircuitBreaker.window (PlivoResilient.makeCallBreaker this') =
         CircuitBreaker.window (PlivoResilient.makeCallBreaker this) /\
       CircuitBreaker.window (PlivoResilient.getCallDetailsBreaker this') =
         CircuitBreaker.window (PlivoResilient.getCallDetailsBreaker this) /\
       (forall request,
          let_through (PlivoResilient.initiateRecordedCall request)
            PlivoResilient.makeCallBreakerL this') /\
       (forall to from answerUrl,
          let_through (PlivoResilient.makeCall to from answerUrl)
            PlivoResilient.makeCallBreakerL this') /\
       (forall callUuid,
          let_through (PlivoResilient.getCallDetails callUuid)
            PlivoResilient.getCallDetailsBreakerL this')) /\
  (forall (this : @DeepgramResilient.t W D) (w : W),
     exists this' pre,
       DeepgramResilient.resetCircuitBreakers (this, w) =
       (Fulfilled tt, (this', w),
        pre ++
        [Console Info [Str "[DeepgramResilient] All circuit breakers reset"]])
       /\
       CircuitBreaker.state (DeepgramResilient.transcribeBreaker this') =
         CircuitBreaker.closed /\
       CircuitBreaker.window (DeepgramResilient.transcribeBreaker this') =
         CircuitBreaker.window (DeepgramResilient.transcribeBreaker this) /\
       (forall request,
          let_through (DeepgramResilient.transcribeRecording request)
            DeepgramResilient.transcribeBreakerL this') /\
       (forall url options,
          let_through (DeepgramResilient.transcribeUrl url options)
            DeepgramResilient.transcribeBreakerL this') /\
       (forall recordingUrl,
          let_through (DeepgramResilient.transcribeWithInsights recordingUrl)
            DeepgramResilient.transcribeBreakerL this') /\
       (forall buffer options,
          let_through (DeepgramResilient.transcribeBuffer buffer options)
            DeepgramResilient.transcribeBreakerL this')).
Proof.
  split.
  - intros this w. destruct (plivo_reset_run this w) as [pre E].
    do 2 eexists. split; [exact E | ].
    split; [reflexivity | ]. split; [reflexivity | ].
    split; [reflexivity | ]. split; [reflexivity | ].
    split; [ | split].
    + intros request. rewrite initiateRecordedCall_shape.
      apply guarded_let_through; [apply makeCallBreakerL_lawful | reflexivity].
    + intros to from answerUrl. rewrite makeCall_shape.
      apply guarded_let_through; [apply makeCallBreakerL_lawful | reflexivity].
    + intros callUuid. rewrite getCallDetails_shape.
      apply guarded_let_through;
        [apply getCallDetailsBreakerL_lawful | reflexivity].
  - intros this w. destruct (deepgram_reset_run this w) as [pre E].
    do 2 eexists. split; [exact E | ].
    split; [reflexivity | ]. split; [reflexivity | ].
    split; [ | split; [ | split]].
    + intros request. rewrite transcribeRecording_shape.
      apply guarded_let_through;
        [apply transcribeBreakerL_lawful | reflexivity].
    + intros url options. rewrite transcribeUrl_shape.
      apply guarded_let_through;
        [apply transcribeBreakerL_lawful | reflexivity].
    + intros recordingUrl. rewrite transcribeWithInsights_shape.
      apply guarded_let_through;
        [apply transcribeBreakerL_lawful | reflexivity].
    + intros buffer options. rewrite transcribeBuffer_shape.
      apply guarded_let_through;
        [apply transcribeBreakerL_lawful | reflexivity].
Qed.

(** X9.  The methods that share a breaker stand and fall together: when
    the envelope of [initiateRecordedCall] or of [makeCall] says
    [circuitBreakerState: "true"], a call of either of the two that
    finds the breaker as the first call has left it (the next call, made
    before the reset timeout of the breaker has run out and with no
    reset in between) is refused with the circuit-open failure and does
    not reach the manager; the same holds of [getCallDetails] for
    itself, and of each of the four transcribe methods for all four.
    Once the reset timer of an open breaker has run out, the next call
    of a method under it is not refused: it is let through, and counted
    by its outcome. *)
Theorem a_true_flag_predicts_refusal (W G : Type) `{Clock W}
    (D : DeepgramTypes.t) :
  (forall request request',
     flag_predicts_refusal
       (@PlivoResilient.initiateRecordedCall W G _ request)
       (PlivoResilient.initiateRecordedCall request')) /\
  (forall request to from answerUrl,
     flag_predicts_refusal
       (@PlivoResilient.initiateRecordedCall W G _ request)
       (PlivoResilient.makeCall to from answerUrl)) /\
  (forall to from answerUrl request,
     flag_predicts_refusal
       (@PlivoResilient.makeCall W G _ to from answerUrl)
       (PlivoResilient.initiateRecordedCall request)) /\
  (forall to from answerUrl to' from' answerUrl',
     flag_predicts_refusal
       (@PlivoResilient.makeCall W G _ to from answerUrl)
       (PlivoResilient.makeCall to' from' answerUrl')) /\
  (forall callUuid callUuid',
     flag_predicts_refusal
       (@PlivoResilient.getCallDetails W G _ callUuid)
       (PlivoResilient.getCallDetails callUuid')) /\
  (forall request,
     let first := @DeepgramResilient.transcribeRecording W _ D request in
     (forall request',
        flag_predicts_refusal first
          (DeepgramResilient.transcribeRecording request')) /\
     (forall url options,
        flag_predicts_refusal first
          (DeepgramResilient.transcribeUrl url options)) /\
     (forall recordingUrl,
        flag_predicts_refusal first
          (DeepgramResilient.transcribeWithInsights recordingUrl)) /\
     (forall buffer options,
        flag_predicts_refusal first
          (DeepgramResilient.transcribeBuffer buffer options))) /\
  (forall url options,
     let first := @DeepgramResilient.transcribeUrl W _ D url options in
     (forall request,
        flag_predicts_refusal first
          (DeepgramResilient.transcribeRecording request)) /\
     (forall url' options',
        flag_predicts_refusal first
          (DeepgramResilient.transcribeUrl url' options')) /\
     (forall recordingUrl,
        flag_predicts_refusal first
          (DeepgramResilient.transcribeWithInsights recordingUrl)) /\
     (forall buffer options',
        flag_predicts_refusal first
          (DeepgramResilient.transcribeBuffer buffer options'))) /\
  (forall recordingUrl,
     let first :=
       @DeepgramResilient.transcribeWithInsights W _ D recordingUrl in
     (forall request,
        flag_predicts_refusal first
          (DeepgramResilient.transcribeRecording request)) /\
     (forall url options,
        flag_predicts_refusal first
          (DeepgramResilient.transcribeUrl url options)) /\
     (forall recordingUrl',
        flag_predicts_refusal first
          (DeepgramResilient.transcribeWithInsights recordingUrl')) /\
     (forall buffer options,
        flag_predicts_refusal first
          (DeepgramResilient.transcribeBuffer buffer options))) /\
  (forall buffer options,
     let first := @DeepgramResilient.transcribeBuffer W _ D buffer options in
     (forall request,
        flag_predicts_refusal first
          (DeepgramResilient.transcribeRecording request)) /\
     (forall url options',
        flag_predicts_refusal first
          (DeepgramResilient.transcribeUrl url options')) /\
     (forall recordingUrl,
        flag_predicts_refusal first
          (DeepgramResilient.transcribeWithInsights recordingUrl)) /\
     (forall buffer' options',
        flag_predicts_refusal first
          (DeepgramResilient.transcribeBuffer buffer' options'))) /\
  (forall this : @PlivoResilient.t W G,
     CircuitBreaker.opened (PlivoResilient.makeCallBreaker this) = true ->
     let this' := after_resetTimeout PlivoResilient.makeCallBreakerL this in
     (forall request,
        let_through (PlivoResilient.initiateRecordedCall request)
          PlivoResilient.makeCallBreakerL this') /\
     (forall to from answerUrl,
        let_through (PlivoResilient.makeCall to from answerUrl)
          PlivoResilient.makeCallBreakerL this')) /\
  (forall (this : @PlivoResilient.t W G) callUuid,
     CircuitBreaker.opened (PlivoResilient.getCallDetailsBreaker this) = true ->
     let_through (PlivoResilient.getCallDetails callUuid)
       PlivoResilient.getCallDetailsBreakerL
       (after_resetTimeout PlivoResilient.getCallDetailsBreakerL this)) /\
  (forall this : @DeepgramResilient.t W D,
     CircuitBreaker.opened (DeepgramResilient.transcribeBreaker this) = true ->
     let this' :=
       after_resetTimeout DeepgramResilient.transcribeBreakerL this in
     (forall request,
        let_through (DeepgramResilient.transcribeRecording request)
          DeepgramResilient.transcribeBreakerL this') /\
     (forall url options,
        let_through (DeepgramResilient.transcribeUrl url options)
          DeepgramResilient.transcribeBreakerL this') /\
     (forall recordingUrl,
        let_through (DeepgramResilient.transcribeWithInsights recordingUrl)
          DeepgramResilient.transcribeBreakerL this') /\
     (forall buffer options,
        let_through (DeepgramResilient.transcribeBuffer buffer options)
          DeepgramResilient.transcribeBreakerL this')).
Proof.
  assert (Hdeepgram :
    forall (T1 : Type) (op1 : @DeepgramResilient.t W D -> Op W T1)
           (name1 : string),
      let first :=
        guarded deepgram_params (Some DeepgramResilient.transcribeBreakerL)
          op1 name1 (fun result => result) in
      (forall request,
         flag_predicts_refusal first
           (DeepgramResilient.transcribeRecording request)) /\
      (forall url options,
         flag_predicts_refusal first
           (DeepgramResilient.transcribeUrl url options)) /\
      (forall recordingUrl,
         flag_predicts_refusal first
           (DeepgramResilient.transcribeWithInsights recordingUrl)) /\
      (forall buffer options,
         flag_predicts_refusal first
           (DeepgramResilient.transcribeBuffer buffer options))).
  { intros T1 op1 name1. cbv zeta. split; [ | split; [ | split]]; intros.
    - rewrite transcribeRecording_shape.
      apply guarded_flag_predicts_refusal, transcribeBreakerL_lawful.
    - rewrite transcribeUrl_shape.
      apply guarded_flag_predicts_refusal, transcribeBreakerL_lawful.
    - rewrite transcribeWithInsights_shape.
      apply guarded_flag_predicts_refusal, transcribeBreakerL_lawful.
    - rewrite transcribeBuffer_shape.
      apply guarded_flag_predicts_refusal, transcribeBreakerL_lawful. }
  split; [ | split; [ | split; [ | split; [ | split; [ | split;
    [ | split; [ | split; [ | split; [ | split; [ | split]]]]]]]]]].
  - intros. rewrite !initiateRecordedCall_shape.
    apply guarded_flag_predicts_refusal, makeCallBreakerL_lawful.
  - intros. rewrite initiateRecordedCall_shape, makeCall_shape.
    apply guarded_flag_predicts_refusal, makeCallBreakerL_lawful.
  - intros. rewrite initiateRecordedCall_shape, makeCall_shape.
    apply guarded_flag_predicts_refusal, makeCallBreakerL_lawful.
  - intros. rewrite !makeCall_shape.
    apply guarded_flag_predicts_refusal, makeCallBreakerL_lawful.
  - intros. rewrite !getCallDetails_shape.
    apply guarded_flag_predicts_refusal, getCallDetailsBreakerL_lawful.
  - intros request. rewrite transcribeRecording_shape. apply Hdeepgram.
  - intros url options. rewrite transcribeUrl_shape. apply Hdeepgram.
  - intros recordingUrl. rewrite transcribeWithInsights_shape.
    apply Hdeepgram.
  - intros buffer options. rewrite transcribeBuffer_shape. apply Hdeepgram.
  - intros this Hopen. cbv zeta. split; intros.
    + rewrite initiateRecordedCall_shape.
      now apply guarded_let_through_after_resetTimeout;
        [apply makeCallBreakerL_lawful | ].
    + rewrite makeCall_shape.
      now apply guarded_let_through_after_resetTimeout;
        [apply makeCallBreakerL_lawful | ].
  - intros this callUuid Hopen. rewrite getCallDetails_shape.
    now apply guarded_let_through_after_resetTimeout;
      [apply getCallDetailsBreakerL_lawful | ].
  - intros this Hopen. cbv zeta. split; [ | split; [ | split]]; intros.
    + rewrite transcribeRecording_shape.
      now apply guarded_let_through_after_resetTimeout;
        [apply transcribeBreakerL_lawful | ].
    + rewrite transcribeUrl_shape.
      now apply guarded_let_through_after_resetTimeout;
        [apply transcribeBreakerL_lawful | ].
    + rewrite transcribeWithInsights_shape.
      now apply guarded_let_through_after_resetTimeout;
        [apply transcribeBreakerL_lawful | ].
    + rewrite transcribeBuffer_shape.
      now apply guarded_let_through_after_resetTimeout;
        [apply transcribeBreakerL_lawful | ].
Qed.

(** A fresh client whose manager keeps failing: the fourth attempt of
    [initiateRecordedCall] fails, the envelope says ["true"], and the
    [makeCall] that follows is refused. *)
Lemma a_true_flag_predicts_refusal_witness :
  exists env this1 w1 tr this2,
    PlivoResilient.initiateRecordedCall Fixture.request
      (Fixture.plivo 9, 0%nat) = (Fulfilled env, (this1, w1), tr) /\
    circuitBreakerState env = Some "true" /\
    PlivoResilient.makeCall "+15550100" None None (this1, w1) =
    (Fulfilled (failure_envelope CircuitBreaker.circuit_open (Some "true")),
     (this2, w1), []).
Proof.
  destruct (PlivoResilient.initiateRecordedCall Fixture.request
              (Fixture.plivo 9, 0%nat)) as [[[env | e] [this1 w1]] tr] eqn:E;
    [ | vm_compute in E; discriminate].
  assert (Hflag : circuitBreakerState env = Some "true").
  { vm_compute in E. injection E as <- _ _ _. reflexivity. }
  destruct (proj1 (proj2 (@a_true_flag_predicts_refusal nat string _
                            Fixture.types))
              Fixture.request "+15550100" None None _ _ _ _ _ _ E Hflag w1)
    as [this2 E2].
  exists env, this1, w1, tr, this2.
  split; [reflexivity | ]. split; [exact Hflag | exact E2].
Defined.

(* ================================================================== *)
(** * The Plivo manager under the facade *)
(* ================================================================== *)

(** ** Rows of invocations, one after the other *)

Section Rows.
Context {St T : Type}.
Variable operation : M St T.

Lemma outcomes_add (m n : nat) :
  forall st,
    outcomes operation (m + n) st =
    outcomes operation m st ++
    outcomes operation n (state_after operation m st).
Proof.
  induction m as [| m IH]; intros st; [reflexivity | ].
  cbn [Nat.add]. rewrite !outcomes_S, state_after_S, IH. reflexivity.
Qed.

Lemma state_after_add (m n : nat) :
  forall st,
    state_after operation (m + n) st =
    state_after operation n (state_after operation m st).
Proof.
  induction m as [| m IH]; intros st; [reflexivity | ].
  cbn [Nat.add]. rewrite !state_after_S, IH. reflexivity.
Qed.
End Rows.

(** ** The polling loop of [waitForRecording] *)

Section PollLoop.
Context {W : Type}.
Variable this : @plivo_manager.t W.
Variable callUuid : string.
Variable maxAttempts : Z.
Variable delayMs : Q.

Local Notation "'poll'" := (plivo_manager.getCallDetails this callUuid).
Local Notation "'loop'" :=
  (plivo_manager.poll_loop this callUuid maxAttempts delayMs).

(** The equation of the loop, in the shape of the source. *)
Lemma poll_loop_step (i : Z) :
  loop i =
  if i <? maxAttempts then
    details <- poll ;;
    if plivo_manager.has_recording details then ret (Some details)
    else sleep delayMs ;;; loop (i + 1)
  else ret None.
Proof.
  unfold plivo_manager.poll_loop at 1.
  rewrite Subterm.FixWf_unfold.
  - unfold plivo_manager.poll_loop_functional at 1.
    destruct (Z_lt_dec i maxAttempts) as [Hlt | Hge]; cbn;
      destruct (Z.ltb_spec i maxAttempts); (reflexivity || lia).
  - intros x f g H. unfold plivo_manager.poll_loop_functional.
    destruct (Z_lt_dec x maxAttempts) as [Hlt | Hge]; cbn; [ | reflexivity].
    rewrite H. reflexivity.
Qed.

Lemma poll_run (w : W) :
  poll w =
  (fst (PlivoService.getCallDetails (plivo_manager.service this) callUuid w),
   snd (PlivoService.getCallDetails (plivo_manager.service this) callUuid w),
   []).
Proof. unfold plivo_manager.getCallDetails. apply call_run. Qed.

(** Past the last round the loop is left with [null]. *)
Lemma poll_loop_exit (i : Z) (w : W) :
  maxAttempts <= i -> loop i w = (Fulfilled None, w, []).
Proof.
  intros H. rewrite poll_loop_step.
  destruct (Z.ltb_spec i maxAttempts); [lia | reflexivity].
Qed.

(** A round that finds the recording ends the loop. *)
Lemma poll_loop_found (i : Z) (w : W) (details : GetCallDetailsResponse.t) :
  i < maxAttempts ->
  fst (fst (poll w)) = Fulfilled details ->
  plivo_manager.has_recording details = true ->
  loop i w = (Fulfilled (Some details), snd (fst (poll w)), []).
Proof.
  intros H E Hrec. rewrite poll_loop_step.
  destruct (Z.ltb_spec i maxAttempts); [ | lia].
  unfold bind. fold poll. rewrite poll_run in E |- *. cbn [fst snd] in E |- *.
  rewrite E, Hrec. reflexivity.
Qed.

(** A round whose request is rejected ends the loop as well. *)
Lemma poll_loop_rejected (i : Z) (w : W) (e : thrown) :
  i < maxAttempts ->
  fst (fst (poll w)) = Rejected e ->
  loop i w = (Rejected e, snd (fst (poll w)), []).
Proof.
  intros H E. rewrite poll_loop_step.
  destruct (Z.ltb_spec i maxAttempts); [ | lia].
  unfold bind. rewrite poll_run in E |- *. cbn [fst snd] in E |- *.
  rewrite E. reflexivity.
Qed.

(** A round without a recording is followed by the wait and the next
    round. *)
Lemma poll_loop_pending (i : Z) (w : W)
    (details : GetCallDetailsResponse.t) :
  i < maxAttempts ->
  fst (fst (poll w)) = Fulfilled details ->
  pending details ->
  loop i w =
  let '(r, w2, tr) := loop (i + 1) (snd (fst (poll w))) in
  (r, w2, Sleep delayMs :: tr).
Proof.
  intros H E Hpending. rewrite poll_loop_step.
  destruct (Z.ltb_spec i maxAttempts); [ | lia].
  unfold bind at 1. rewrite poll_run in E |- *. cbn [fst snd] in E |- *.
  rewrite E, Hpending. unfold bind, sleep, emit.
  destruct (loop (i + 1) _) as [[r w2] tr]. reflexivity.
Qed.

(** A row of rounds without a recording: the loop goes on after it. *)
Lemma poll_loop_prefix (answers : list GetCallDetailsResponse.t) :
  forall (i : Z) (w : W),
    Forall pending answers ->
    i + Z.of_nat (length answers) <= maxAttempts ->
    outcomes poll (length answers) w = map Fulfilled answers ->
    loop i w =
    let '(r, w2, tr) :=
      loop (i + Z.of_nat (length answers))
        (state_after poll (length answers) w) in
    (r, w2, repeat (Sleep delayMs) (length answers) ++ tr).
Proof.
  induction answers as [| details rest IH]; intros i w Hall Hle Hout.
  - cbn [length Z.of_nat state_after repeat app]. rewrite Z.add_0_r.
    destruct (loop i w) as [[r w2] tr]. reflexivity.
  - apply Forall_cons_iff in Hall as [Hpending Hrest].
    cbn [length] in Hle, Hout |- *.
    rewrite outcomes_S in Hout. cbn [map] in Hout.
    injection Hout as Hhead Hout.
    rewrite (@poll_loop_pending i w details)
      by (lia || assumption).
    rewrite (IH (i + 1) _ Hrest) by (lia || exact Hout).
    rewrite state_after_S.
    replace (i + Z.of_nat (S (length rest)))
      with (i + 1 + Z.of_nat (length rest)) by lia.
    destruct (loop (i + 1 + Z.of_nat (length rest)) _) as [[r w2] tr].
    reflexivity.
Qed.
End PollLoop.

Lemma manager_waitForRecording_loop {W : Type} (this : @plivo_manager.t W)
    (callUuid : string) (maxAttempts : option Z) (delayMs : option Q) :
  plivo_manager.waitForRecording this callUuid maxAttempts delayMs =
  plivo_manager.poll_loop this callUuid (maxAttempts_or_default maxAttempts)
    (delayMs_or_default delayMs) 0.
Proof. reflexivity. Qed.

Lemma manager_polls_by_rounds {W : Type} (this : @plivo_manager.t W)
    (callUuid : string) (maxAttempts : option Z) (delayMs : option Q)
    (w : W) :
  polls_by_rounds
    (plivo_manager.waitForRecording this callUuid maxAttempts delayMs)
    (plivo_manager.getCallDetails this callUuid)
    (maxAttempts_or_default maxAttempts) (delayMs_or_default delayMs) w.
Proof.
  rewrite manager_waitForRecording_loop.
  set (ma := maxAttempts_or_default maxAttempts).
  set (d := delayMs_or_default delayMs).
  split; [ | split].
  - intros answers details Hall Hrec Hlt Hout.
    rewrite outcomes_snoc in Hout.
    apply app_inj_tail_iff in Hout as [Hout Hlast].
    rewrite (@poll_loop_prefix _ this callUuid ma d answers 0 w Hall)
      by (lia || exact Hout).
    rewrite (@poll_loop_found _ this callUuid ma d _ _ details)
      by (lia || assumption).
    rewrite state_after_snoc, app_nil_r. reflexivity.
  - intros answers Hall Hlen Hout.
    destruct (Z.leb_spec ma 0) as [Hnone | Hsome].
    + destruct answers as [| details rest]; [ | cbn in Hlen; lia].
      rewrite poll_loop_exit by lia. reflexivity.
    + rewrite (@poll_loop_prefix _ this callUuid ma d answers 0 w Hall)
        by (lia || exact Hout).
      rewrite poll_loop_exit by lia.
      rewrite app_nil_r. reflexivity.
  - intros answers e Hall Hlt Hout.
    rewrite outcomes_snoc in Hout.
    apply app_inj_tail_iff in Hout as [Hout Hlast].
    rewrite (@poll_loop_prefix _ this callUuid ma d answers 0 w Hall)
      by (lia || exact Hout).
    rewrite (@poll_loop_rejected _ this callUuid ma d _ _ e)
      by (lia || assumption).
    rewrite state_after_snoc, app_nil_r. reflexivity.
Qed.

(** Whatever the service answers. *)
Lemma poll_loop_within_bounds {W : Type} (this : @plivo_manager.t W)
    (callUuid : string) (maxAttempts : Z) (delayMs : Q) (n : nat) :
  forall (i : Z) (w : W),
    n = Z.to_nat (maxAttempts - i) ->
    polls_within_bounds
      (plivo_manager.poll_loop this callUuid maxAttempts delayMs i)
      (plivo_manager.getCallDetails this callUuid) (maxAttempts - i)
      delayMs w.
Proof.
  induction n as [| n IH]; intros i w Hn.
  - exists 0%nat, 0%nat. rewrite poll_loop_exit by lia.
    cbn [fst snd state_after repeat]. rewrite <- Hn.
    split; [lia | ]. split; [reflexivity | ]. split; [reflexivity | ].
    split; reflexivity.
  - destruct (fst (fst (plivo_manager.getCallDetails this callUuid w)))
      as [details | e] eqn:E.
    + destruct (plivo_manager.has_recording details) eqn:Hrec.
      * exists 1%nat, 0%nat.
        rewrite (@poll_loop_found _ this callUuid maxAttempts delayMs i w
                   details) by (lia || assumption).
        cbn [fst snd repeat]. rewrite state_after_S, outcomes_S, E.
        split; [lia | ]. split; [reflexivity | ]. split; [reflexivity | ].
        split; [exact Hrec | ]. split; reflexivity.
      * destruct (IH (i + 1)
                    (snd (fst (plivo_manager.getCallDetails this callUuid w))))
          as (requests & waits & Hle & Hstate & Htrace & Hresult); [lia | ].
        exists (S requests), (S waits).
        rewrite (@poll_loop_pending _ this callUuid maxAttempts delayMs i w
                   details) by (lia || assumption).
        destruct (plivo_manager.poll_loop this callUuid maxAttempts delayMs
                    (i + 1) _) as [[r w2] tr].
        cbn [fst snd] in Hstate, Htrace, Hresult |- *.
        rewrite state_after_S, outcomes_S. cbn [nth_error repeat].
        split; [lia | ]. split; [exact Hstate | ].
        split; [now rewrite Htrace | ].
        destruct r as [[found | ] | e].
        -- destruct Hresult as (H1 & H2 & H3).
           split; [exact H1 | ]. split; [exact H2 | now rewrite H3].
        -- destruct Hresult as (H1 & H2). split; lia.
        -- destruct Hresult as (H1 & H2). split; [exact H1 | now rewrite H2].
    + exists 1%nat, 0%nat.
      rewrite (@poll_loop_rejected _ this callUuid maxAttempts delayMs i w e)
        by (lia || assumption).
      cbn [fst snd repeat]. rewrite state_after_S, outcomes_S, E.
      split; [lia | ]. split; [reflexivity | ]. split; [reflexivity | ].
      split; reflexivity.
Qed.

(** ** The facade over the manager *)

Lemma logged_run {W T : Type} (m : M W T) (st : W * trace) :
  logged m st =
  (fst (fst (m (fst st))),
   (snd (fst (m (fst st))), snd st ++ snd (m (fst st)))).
Proof. unfold logged. destruct (m (fst st)) as [[r w] tr]. reflexivity. Qed.

Lemma never_recorded_after {W : Type} (poll : M W GetCallDetailsResponse.t)
    (k : nat) (w : W) :
  never_recorded poll w -> never_recorded poll (state_after poll k w).
Proof.
  intros H n. destruct (H (k + n)%nat) as (answers & Hout & Hall).
  rewrite outcomes_add in Hout.
  exists (skipn k answers). split.
  - rewrite <- skipn_map, <- Hout, skipn_app, outcomes_length, Nat.sub_diag.
    rewrite skipn_all2 by (rewrite outcomes_length; lia). reflexivity.
  - rewrite <- (firstn_skipn k answers) in Hall.
    apply Forall_app in Hall. apply Hall.
Qed.

(** One call of the manager over a service that has no recording. *)
Lemma manager_round_without_recording {W : Type} (this : @plivo_manager.t W)
    (callUuid : string) (maxAttempts : Z) (delayMs : Q) (w : W) :
  never_recorded (plivo_manager.getCallDetails this callUuid) w ->
  plivo_manager.waitForRecording this callUuid (Some maxAttempts)
    (Some delayMs) w =
  (Fulfilled None,
   state_after (plivo_manager.getCallDetails this callUuid)
     (Z.to_nat maxAttempts) w,
   repeat (Sleep delayMs) (Z.to_nat maxAttempts)).
Proof.
  intros H. destruct (H (Z.to_nat maxAttempts)) as (answers & Hout & Hall).
  assert (Hlen : length answers = Z.to_nat maxAttempts).
  { rewrite <- (length_map Fulfilled), <- Hout. apply outcomes_length. }
  destruct (manager_polls_by_rounds this callUuid (Some maxAttempts)
              (Some delayMs) w) as (_ & Hnone & _).
  rewrite <- Hlen. apply Hnone; [exact Hall | exact Hlen | ].
  rewrite Hlen. exact Hout.
Qed.

Section FacadeOverManager.
Context {W : Type}.
Variable encodeURIComponent : string -> string.
Variable manager : @plivo_manager.t W.
Variable callUuid : string.
Variable maxAttempts : Z.
Variable delayMs : Q.

Local Notation "'poll'" := (plivo_manager.getCallDetails manager callUuid).
Local Notation "'round'" :=
  (call (PlivoManager.waitForRecording
           (as_manager encodeURIComponent manager) callUuid maxAttempts
           delayMs)).

(** The calls of the manager the facade makes, one after the other. *)
Lemma rounds_without_recording (n : nat) :
  forall (w : W) (log : trace),
    never_recorded poll w ->
    outcomes round n (w, log) = repeat (Fulfilled None) n /\
    state_after round n (w, log) =
    (state_after poll (n * Z.to_nat maxAttempts) w,
     log ++ repeat (Sleep delayMs) (n * Z.to_nat maxAttempts)).
Proof.
  induction n as [| n IH]; intros w log H.
  - cbn. rewrite app_nil_r. split; reflexivity.
  - destruct (IH (state_after poll (Z.to_nat maxAttempts) w)
                (log ++ repeat (Sleep delayMs) (Z.to_nat maxAttempts))
                (never_recorded_after (Z.to_nat maxAttempts) H))
      as [Ho Hs].
    rewrite outcomes_S, state_after_S, call_run.
    cbn [PlivoManager.waitForRecording as_manager] in Ho, Hs |- *.
    rewrite logged_run. cbn [fst snd].
    rewrite manager_round_without_recording by exact H. cbn [fst snd].
    split; [cbn [repeat]; f_equal; exact Ho | ].
    etransitivity; [exact Hs | ].
    cbn [Nat.mul]. rewrite state_after_add, repeat_app, app_assoc.
    reflexivity.
Qed.
End FacadeOverManager.

Lemma repeat_not_ready {G : Type} (n : nat) :
  Forall not_ready (repeat (@Fulfilled (option G) None) n).
Proof. induction n as [| n IH]; constructor; [exact I | exact IH]. Qed.

(** ** Strings and numbers that are not empty *)

Lemma orS_filled (x : option string) (d : string) :
  d <> EmptyString -> orS x d <> EmptyString.
Proof.
  intros Hd. destruct x as [[| c s] | ]; cbn; [exact Hd | discriminate | exact Hd].
Qed.

Lemma append_filled (s t : string) :
  t <> EmptyString -> (s ++ t)%string <> EmptyString.
Proof.
  intros Ht. destruct s as [| c s]; cbn; [exact Ht | discriminate].
Qed.

Lemma orQ_nonzero (x : option Q) (d : Q) :
  ~ (d == 0)%Q -> ~ (orQ x d == 0)%Q.
Proof.
  intros Hd. unfold orQ. destruct x as [v | ]; [ | exact Hd].
  destruct (Qeq_bool v 0) eqn:E; [exact Hd | ].
  now apply Qeq_bool_neq.
Qed.

Lemma call_one_request {W T : Type} (op : Op W T) :
  one_request (call op) op (fun v => v).
Proof.
  intros w. rewrite call_run. destruct (fst (op w)); reflexivity.
Qed.

Lemma call_then_one_request {W T R : Type} (op : Op W T) (answer : T -> R) :
  one_request (v <- call op ;; ret (answer v)) op answer.
Proof.
  intros w. unfold bind, ret. rewrite call_run.
  destruct (op w) as [[v | e] w1]; reflexivity.
Qed.

Lemma isCallActive_one_request {W : Type} (this : @plivo_manager.t W)
    (callUuid : string) (w : W) :
  exists active,
    plivo_manager.isCallActive this callUuid w =
    (Fulfilled active,
     snd (PlivoService.getCallDetails (plivo_manager.service this) callUuid
            w), []).
Proof.
  unfold plivo_manager.isCallActive, try_catch, bind, ret.
  rewrite call_run.
  destruct (PlivoService.getCallDetails (plivo_manager.service this)
              callUuid w) as [[details | e] w1]; cbn [fst snd app];
    eexists; reflexivity.
Qed.

Lemma unrecorded_never_recorded (callUuid : string) (w : nat) :
  never_recorded
    (plivo_manager.getCallDetails (Telephony.over Telephony.unrecorded)
       callUuid) w.
Proof.
  intros n. exists (repeat (Telephony.details "completed" None) n).
  split.
  - revert w. induction n as [| n IH]; intros w; [reflexivity | ].
    rewrite outcomes_S. cbn [repeat map]. f_equal. apply IH.
  - induction n as [| n IH]; constructor; [reflexivity | exact IH].
Qed.

Section CallRequests.
Context {W : Type}.
Variable encodeURIComponent : string -> string.
Variable this : @plivo_manager.t W.

Lemma initiateRecordedCall_request (request : InitiateRecordedCallRequest.t) :
  exists callRequest,
    one_request
      (plivo_manager.initiateRecordedCall encodeURIComponent this request)
      (PlivoService.makeCall (plivo_manager.service this) callRequest)
      (fun response =>
         {| InitiateRecordedCallResponse.success := true;
            InitiateRecordedCallResponse.callUuid :=
              MakeCallResponse.request_uuid response;
            InitiateRecordedCallResponse.message :=
              MakeCallResponse.message response;
            InitiateRecordedCallResponse.apiId :=
              MakeCallResponse.api_id response |}) /\
    MakeCallRequest.to callRequest = InitiateRecordedCallRequest.to request
    /\
    MakeCallRequest.caller_name callRequest =
      InitiateRecordedCallRequest.callerName request /\
    filled_in (plivo_manager.config this) callRequest.
Proof.
  eexists. split; [apply call_then_one_request | ].
  split; [reflexivity | ]. split; [reflexivity | ].
  unfold filled_in. cbn.
  split; [intros Hd; now apply orS_filled | ].
  split; [apply append_filled; discriminate | ].
  split; [reflexivity | ]. split.
  - eexists. split; [reflexivity | ].
    apply orQ_nonzero, orQ_nonzero. discriminate.
  - eexists. split; [reflexivity | ]. apply orQ_nonzero. discriminate.
Qed.

Lemma makeCall_request (to : string) (from answerUrl : option string) :
  exists callRequest,
    one_request (plivo_manager.makeCall this to from answerUrl)
      (PlivoService.makeCall (plivo_manager.service this) callRequest)
      (fun response => response) /\
    MakeCallRequest.to callRequest = to /\
    filled_in (plivo_manager.config this) callRequest.
Proof.
  eexists. split; [apply call_one_request | ].
  split; [reflexivity | ].
  unfold filled_in. cbn.
  split; [intros Hd; now apply orS_filled | ].
  split; [apply orS_filled, append_filled; discriminate | ].
  split; [reflexivity | ]. split.
  - eexists. split; [reflexivity | ]. apply orQ_nonzero. discriminate.
  - eexists. split; [reflexivity | ]. apply orQ_nonzero. discriminate.
Qed.
End CallRequests.

(* ================================================================== *)
(** * Properties of the Plivo manager *)
(* ================================================================== *)

(** X10.  [waitForRecording] of the manager asks the service for the
    details of the call round after round.  When the first [k] answers,
    [k < maxAttempts], have no recording and the next has one, it
    returns that answer after [k + 1] requests and [k] waits of
    [delayMs]; when a request is rejected after [k] such answers it
    rejects with the same reason, after [k] waits; and when
    [maxAttempts] answers have no recording it returns [null] after
    [maxAttempts] requests and as many waits: it waits after its last
    request as well.  With a [maxAttempts] of [0] or less it returns
    [null] without a request. *)
Theorem manager_waitForRecording_polls_until_a_recording (W : Type)
    (this : @plivo_manager.t W) (callUuid : string)
    (maxAttempts : option Z) (delayMs : option Q) (w : W) :
  polls_by_rounds
    (plivo_manager.waitForRecording this callUuid maxAttempts delayMs)
    (plivo_manager.getCallDetails this callUuid)
    (maxAttempts_or_default maxAttempts) (delayMs_or_default delayMs) w /\
  (maxAttempts_or_default maxAttempts <= 0 ->
   plivo_manager.waitForRecording this callUuid maxAttempts delayMs w =
   (Fulfilled None, w, [])).
Proof.
  split; [apply manager_polls_by_rounds | ].
  intros Hle. rewrite manager_waitForRecording_loop.
  now apply poll_loop_exit.
Qed.

(** A call that is in progress at the first two requests and recorded at
    the third: three requests and two waits; and one that is recorded
    too late for three rounds: three requests, three waits. *)
Lemma manager_waitForRecording_polls_until_a_recording_witness :
  plivo_manager.waitForRecording (Telephony.manager 2) "call-1" (Some 5)
    None 0%nat =
  (Fulfilled
     (Some (Telephony.details "completed" (Some "https://rec/1.mp3"))),
   3%nat, [Sleep 2000; Sleep 2000]) /\
  plivo_manager.waitForRecording (Telephony.manager 9) "call-1" (Some 3)
    None 0%nat =
  (Fulfilled None, 3%nat, [Sleep 2000; Sleep 2000; Sleep 2000]) /\
  plivo_manager.waitForRecording (Telephony.manager 0) "call-1" (Some 0)
    None 0%nat =
  (Fulfilled None, 0%nat, []).
Proof.
  split; [ | split].
  - destruct (@manager_waitForRecording_polls_until_a_recording nat
                (Telephony.manager 2) "call-1" (Some 5) None 0%nat)
      as ((Hfound & _ & _) & _).
    apply (Hfound [Telephony.details "in-progress" None;
                   Telephony.details "in-progress" None]
             (Telephony.details "completed" (Some "https://rec/1.mp3"))).
    + constructor; [reflexivity | ]. constructor; [reflexivity | constructor].
    + reflexivity.
    + reflexivity.
    + reflexivity.
  - destruct (@manager_waitForRecording_polls_until_a_recording nat
                (Telephony.manager 9) "call-1" (Some 3) None 0%nat)
      as ((_ & Hnone & _) & _).
    apply (Hnone [Telephony.details "in-progress" None;
                  Telephony.details "in-progress" None;
                  Telephony.details "in-progress" None]).
    + constructor; [reflexivity | ]. constructor; [reflexivity | ].
      constructor; [reflexivity | constructor].
    + reflexivity.
    + reflexivity.
  - destruct (@manager_waitForRecording_polls_until_a_recording nat
                (Telephony.manager 0) "call-1" (Some 0) None 0%nat)
      as (_ & Hzero).
    apply Hzero. cbn. lia.
Defined.

(** X11.  Whatever the service answers, [waitForRecording] of the
    manager makes at most [maxAttempts] requests for the details of the
    call and does nothing else to the world; all it does besides is to
    wait, [delayMs] each time.  The details it returns are those of its
    last request and have a recording (the call is completed and the
    recording URL is there and not empty); it returns [null] only after
    [maxAttempts] requests and as many waits; a rejection is that of its
    last request. *)
Theorem manager_waitForRecording_stays_within_maxAttempts (W : Type)
    (this : @plivo_manager.t W) (callUuid : string)
    (maxAttempts : option Z) (delayMs : option Q) (w : W) :
  polls_within_bounds
    (plivo_manager.waitForRecording this callUuid maxAttempts delayMs)
    (plivo_manager.getCallDetails this callUuid)
    (maxAttempts_or_default maxAttempts) (delayMs_or_default delayMs) w.
Proof.
  rewrite manager_waitForRecording_loop.
  pose proof (@poll_loop_within_bounds _ this callUuid
                (maxAttempts_or_default maxAttempts)
                (delayMs_or_default delayMs)
                (Z.to_nat (maxAttempts_or_default maxAttempts - 0)) 0 w
                eq_refl) as H.
  rewrite Z.sub_0_r in H. exact H.
Qed.

(** X12.  The facade over the manager, for a call whose recording never
    comes: every attempt of the retry engine is a full round of the
    manager, so the service is asked [(maxRetries + 1) * maxAttempts]
    times for the details of the call and the manager waits [delayMs]
    as often, before the facade answers [null]. *)
Theorem a_recording_that_never_comes_is_asked_for_in_every_retry (W : Type)
    (encodeURIComponent : string -> string) (manager : @plivo_manager.t W)
    (this : @PlivoResilient.t (W * trace) GetCallDetailsResponse.t)
    (callUuid : string) (maxAttempts : option Z) (delayMs : option Q)
    (w : W) (log : trace) :
  PlivoResilient.manager this = as_manager encodeURIComponent manager ->
  never_recorded (plivo_manager.getCallDetails manager callUuid) w ->
  let requests :=
    (Z.to_nat (orZ (maxRetries (PlivoResilient.config this)) 3 + 1) *
     Z.to_nat (maxAttempts_or_default maxAttempts))%nat in
  exists tr,
    PlivoResilient.waitForRecording callUuid maxAttempts delayMs
      (this, (w, log)) =
    (Fulfilled None,
     (this,
      (state_after (plivo_manager.getCallDetails manager callUuid)
         requests w,
       log ++ repeat (Sleep (delayMs_or_default delayMs)) requests)),
     tr).
Proof.
  intros Hm Hnever. cbv zeta.
  destruct (@rounds_without_recording _ encodeURIComponent manager callUuid
              (maxAttempts_or_default maxAttempts)
              (delayMs_or_default delayMs)
              (Z.to_nat (orZ (maxRetries (PlivoResilient.config this)) 3 + 1))
              w log Hnever) as [Ho Hs].
  rewrite <- Hm in Ho, Hs.
  destruct (@facade_wait_none _ _ this callUuid maxAttempts delayMs (w, log))
    as [tr E].
  - rewrite Ho. apply repeat_not_ready.
  - exists tr. rewrite E. do 3 f_equal. exact Hs.
Qed.

(** The defaults, three retries and thirty rounds of two seconds: the
    details of a call that has no recording are asked for 120 times, and
    the manager waits 120 times. *)
Lemma a_recording_that_never_comes_is_asked_for_in_every_retry_witness :
  exists tr,
    PlivoResilient.waitForRecording "call-1" None None
      (PlivoResilient.constructor Fixture.unset
         (as_manager (fun s => s) (Telephony.over Telephony.unrecorded)),
       (0%nat, [])) =
    (Fulfilled None,
     (PlivoResilient.constructor Fixture.unset
        (as_manager (fun s => s) (Telephony.over Telephony.unrecorded)),
      (120%nat, repeat (Sleep 2000) 120)),
     tr).
Proof.
  destruct (@a_recording_that_never_comes_is_asked_for_in_every_retry nat
              (fun s => s) (Telephony.over Telephony.unrecorded)
              (PlivoResilient.constructor Fixture.unset
                 (as_manager (fun s => s)
                    (Telephony.over Telephony.unrecorded)))
              "call-1" None None 0%nat [] eq_refl
              (unrecorded_never_recorded "call-1" 0%nat)) as [tr E].
  exists tr. exact E.
Defined.

(** X13.  The call requests the manager hands to the service have
    nothing left empty.  [initiateRecordedCall] and [makeCall] each make
    one request to the service and settle as it does; the request goes
    to the number asked for, is to be answered with [POST] at an answer
    URL that is not empty, has a caller whenever the configuration has a
    default one, and has a time limit and a ring timeout that are not
    [0]: an empty [from] or [answerCallback] and a [timeLimit] of [0]
    count as not given. *)
Theorem call_requests_are_filled_in (W : Type)
    (encodeURIComponent : string -> string) (this : @plivo_manager.t W) :
  (forall request, exists callRequest,
     one_request
       (plivo_manager.initiateRecordedCall encodeURIComponent this request)
       (PlivoService.makeCall (plivo_manager.service this) callRequest)
       (fun response =>
          {| InitiateRecordedCallResponse.success := true;
             InitiateRecordedCallResponse.callUuid :=
               MakeCallResponse.request_uuid response;
             InitiateRecordedCallResponse.message :=
               MakeCallResponse.message response;
             InitiateRecordedCallResponse.apiId :=
               MakeCallResponse.api_id response |}) /\
     MakeCallRequest.to callRequest = InitiateRecordedCallRequest.to request
     /\
     MakeCallRequest.caller_name callRequest =
       InitiateRecordedCallRequest.callerName request /\
     filled_in (plivo_manager.config this) callRequest) /\
  (forall to from answerUrl, exists callRequest,
     one_request (plivo_manager.makeCall this to from answerUrl)
       (PlivoService.makeCall (plivo_manager.service this) callRequest)
       (fun response => response) /\
     MakeCallRequest.to callRequest = to /\
     filled_in (plivo_manager.config this) callRequest).
Proof.
  split.
  - intros request. apply initiateRecordedCall_request.
  - intros to from answerUrl. apply makeCall_request.
Qed.

(** A request without a caller, with an empty answer callback and a time
    limit of [0]: the one call request the service is given has a
    caller, an answer URL and a time limit that is not [0]. *)
Lemma call_requests_are_filled_in_witness :
  exists callRequest,
    snd (fst (plivo_manager.initiateRecordedCall (fun s => s)
                (Telephony.over Telephony.keeping) Telephony.unlimited [])) =
      [callRequest] /\
    MakeCallRequest.from callRequest <> EmptyString /\
    MakeCallRequest.answer_url callRequest <> EmptyString /\
    exists limit,
      MakeCallRequest.time_limit callRequest = Some limit /\
      ~ (limit == 0)%Q.
Proof.
  destruct (proj1 (@call_requests_are_filled_in (list MakeCallRequest.t)
                     (fun s => s) (Telephony.over Telephony.keeping))
              Telephony.unlimited)
    as (callRequest & Hone & _ & _ & Hfrom & Hurl & _ & Hlimit & _).
  exists callRequest. split; [rewrite (Hone []); reflexivity | ].
  split; [apply Hfrom; discriminate | ].
  split; [exact Hurl | exact Hlimit].
Defined.

(** X14.  [isCallActive] never rejects.  It makes one request for the
    details of the call and answers [true] exactly when the request is
    fulfilled with a call that is queued, ringing or in progress; a
    request that is rejected is answered with [false], as a call that
    has ended is. *)
Theorem isCallActive_never_rejects (W : Type) (this : @plivo_manager.t W)
    (callUuid : string) (w : W) :
  let request :=
    PlivoService.getCallDetails (plivo_manager.service this) callUuid w in
  exists active,
    plivo_manager.isCallActive this callUuid w =
    (Fulfilled active, snd request, []) /\
    (active = true <->
     exists details,
       fst request = Fulfilled details /\
       In (GetCallDetailsResponse.call_status details)
         ["queued"; "ringing"; "in-progress"]).
Proof.
  cbv zeta. unfold plivo_manager.isCallActive, try_catch, bind, ret.
  rewrite call_run.
  destruct (PlivoService.getCallDetails (plivo_manager.service this)
              callUuid w) as [[details | e] w1]; cbn [fst snd app].
  - eexists. split; [reflexivity | ]. rewrite existsb_exists. split.
    + intros (status & Hin & Heq). apply String.eqb_eq in Heq. subst status.
      exists details. split; [reflexivity | exact Hin].
    + intros (details' & Hd & Hin). injection Hd as <-.
      exists (GetCallDetailsResponse.call_status details).
      split; [exact Hin | apply String.eqb_refl].
  - exists false. split; [reflexivity | ]. split; [discriminate | ].
    intros (details & Hd & _). discriminate.
Qed.

(** X15.  Every method of the manager but [waitForRecording] makes
    exactly one request to the service, whether the request is fulfilled
    or rejected; [terminateCall] answers a fulfilled request with
    [success: true] and the message of the service, and passes a
    rejection on; [waitForRecording] makes as many requests as the
    service gives answers without a recording, and at most
    [maxAttempts]. *)
Theorem manager_methods_make_one_request (W : Type)
    (encodeURIComponent : string -> string) (this : @plivo_manager.t W)
    (w : W) :
  (forall request,
     requests (plivo_manager.initiateRecordedCall encodeURIComponent
                 (over_spied_service this) request) w = 1%nat) /\
  (forall to from answerUrl,
     requests (plivo_manager.makeCall (over_spied_service this) to from
                 answerUrl) w = 1%nat) /\
  (forall callUuid,
     requests (plivo_manager.getCallDetails (over_spied_service this)
                 callUuid) w = 1%nat) /\
  (forall callUuid,
     requests (plivo_manager.terminateCall (over_spied_service this)
                 callUuid) w = 1%nat /\
     one_request (plivo_manager.terminateCall this callUuid)
       (PlivoService.terminateCall (plivo_manager.service this) callUuid)
       (fun result =>
          {| TerminateCallResponse.success := true;
             TerminateCallResponse.message :=
               TerminateCallResult.message result |})) /\
  (forall callUuid,
     requests (plivo_manager.isCallActive (over_spied_service this)
                 callUuid) w = 1%nat) /\
  requests (plivo_manager.validateCredentials (over_spied_service this)) w =
    1%nat /\
  (forall callUuid maxAttempts delayMs,
     (requests (plivo_manager.waitForRecording (over_spied_service this)
                  callUuid maxAttempts delayMs) w <=
      Z.to_nat (maxAttempts_or_default maxAttempts))%nat).
Proof.
  assert (Hcall : forall (T : Type) (op : Op W T),
            requests (call (spy_op op)) w = 1%nat).
  { intros T op. unfold requests. rewrite call_run, spy_op_run.
    reflexivity. }
  assert (Hthen : forall (T R : Type) (op : Op W T) (answer : T -> R),
            requests (v <- call (spy_op op) ;; ret (answer v)) w = 1%nat).
  { intros T R op answer. unfold requests.
    rewrite (call_then_one_request (spy_op op) answer (0%nat, w)).
    rewrite spy_op_run. reflexivity. }
  split; [ | split; [ | split; [ | split; [ | split; [ | split]]]]].
  - intros request. apply Hthen.
  - intros to from answerUrl. apply Hcall.
  - intros callUuid. apply Hcall.
  - intros callUuid. split; [apply Hthen | apply call_then_one_request].
  - intros callUuid. unfold requests.
    destruct (@isCallActive_one_request _ (over_spied_service this) callUuid
                (0%nat, w)) as [active E].
    rewrite E. cbn [fst snd over_spied_service plivo_manager.service
                    spied_plivo_service PlivoService.getCallDetails].
    rewrite spy_op_run. reflexivity.
  - apply Hcall.
  - intros callUuid maxAttempts delayMs. unfold requests.
    destruct (@poll_loop_within_bounds _ (over_spied_service this) callUuid
                (maxAttempts_or_default maxAttempts)
                (delayMs_or_default delayMs)
                (Z.to_nat (maxAttempts_or_default maxAttempts - 0)) 0
                (0%nat, w) eq_refl)
      as (n & waits & Hle & Hstate & _).
    rewrite manager_waitForRecording_loop, Hstate.
    unfold plivo_manager.getCallDetails.
    cbn [over_spied_service plivo_manager.service spied_plivo_service
         PlivoService.getCallDetails].
    rewrite spy_op_state_after. cbn [fst]. rewrite Z.sub_0_r in Hle. lia.
Qed.

(* ================================================================== *)
(** * What the Deepgram manager works out of a transcription *)
(* ================================================================== *)

(** ** Strings *)

Section Strings.
Import Ascii.

Lemma substring_0_all (s : string) : substring 0 (String.length s) s = s.
Proof. induction s as [| a s IH]; cbn; [reflexivity | now rewrite IH]. Qed.

(** A string is what [substring(0, n)] takes of it and what it
    leaves. *)
Lemma substring_split (n : nat) (s : string) :
  s = (substring 0 n s ++ substring n (String.length s - n) s)%string.
Proof.
  revert n. induction s as [| a s IH]; intros [| n]; cbn;
    try reflexivity.
  - now rewrite substring_0_all.
  - f_equal. apply IH.
Qed.

Lemma substring_0_length (n : nat) (s : string) :
  String.length (substring 0 n s) = Nat.min n (String.length s).
Proof.
  revert n. induction s as [| a s IH]; intros [| n]; cbn;
    try reflexivity.
  now rewrite IH.
Qed.

Lemma substring_0_app (a b : string) :
  substring 0 (String.length a) (a ++ b) = a.
Proof.
  induction a as [| c a IH]; cbn.
  - destruct b; reflexivity.
  - now rewrite IH.
Qed.

Lemma append_length (a b : string) :
  String.length (a ++ b) = (String.length a + String.length b)%nat.
Proof. induction a as [| c a IH]; cbn; [reflexivity | now rewrite IH]. Qed.

Lemma append_assoc (a b c : string) :
  ((a ++ b) ++ c)%string = (a ++ b ++ c)%string.
Proof. induction a as [| x a IH]; cbn; [reflexivity | now rewrite IH]. Qed.

Lemma lastIndexOf_range (c : ascii) (s : string) :
  -1 <= deepgram_manager.lastIndexOf c s < Z.of_nat (String.length s).
Proof.
  induction s as [| a s IH]; cbn [deepgram_manager.lastIndexOf String.length].
  - lia.
  - destruct (Z.leb_spec 0 (deepgram_manager.lastIndexOf c s)); [lia | ].
    destruct (Ascii.eqb a c); lia.
Qed.

(** The string around the last occurrence of a character. *)
Lemma lastIndexOf_split (c : ascii) (s : string) :
  0 <= deepgram_manager.lastIndexOf c s ->
  exists tail,
    s = (substring 0 (Z.to_nat (deepgram_manager.lastIndexOf c s)) s ++
         String c tail)%string /\
    deepgram_manager.lastIndexOf c tail = -1.
Proof.
  induction s as [| a s IH]; cbn [deepgram_manager.lastIndexOf]; [lia | ].
  pose proof (lastIndexOf_range c s) as Hrange.
  destruct (Z.leb_spec 0 (deepgram_manager.lastIndexOf c s)) as [Hin | Hout].
  - intros _. destruct (IH Hin) as (tail & Hs & Htail).
    exists tail. split; [ | exact Htail].
    replace (Z.to_nat (deepgram_manager.lastIndexOf c s + 1))
      with (S (Z.to_nat (deepgram_manager.lastIndexOf c s))) by lia.
    cbn. f_equal. exact Hs.
  - destruct (Ascii.eqb_spec a c) as [-> | Hne]; [ | lia].
    intros _. exists s. split; [reflexivity | lia].
Qed.

(** A character that does not occur does not occur at the start. *)
Lemma lastIndexOf_prefix (c : ascii) (a b : string) :
  deepgram_manager.lastIndexOf c (a ++ b) = -1 ->
  deepgram_manager.lastIndexOf c a = -1.
Proof.
  induction a as [| x a IH]; cbn [append deepgram_manager.lastIndexOf];
    [reflexivity | ].
  pose proof (lastIndexOf_range c (a ++ b)) as Hrange.
  destruct (Z.leb_spec 0 (deepgram_manager.lastIndexOf c (a ++ b)));
    [lia | ].
  destruct (Ascii.eqb x c); [lia | ].
  intros _. rewrite IH by lia. reflexivity.
Qed.
End Strings.

(** ** [extractSummary] *)

Section Summary.
Import Ascii.

(** X16.  [extractSummary] returns a transcript that fits into
    [maxLength] as it is.  A longer one is cut: the summary is a start
    of the transcript, of [maxLength] characters at most, followed by
    three dots.  When less than [maxLength] characters are kept, the
    cut is at the last space among the first [maxLength] characters:
    what is kept is not empty and is followed by a space in the
    transcript, with no space between that one and the limit; when
    [maxLength] characters are kept there is no space among them but
    possibly the first character.  So a summary has up to
    [maxLength + 3] characters, and may be longer than the transcript
    it sums up. *)
Theorem extractSummary_cuts_at_the_last_space (transcript : string)
    (maxLength : option Z) :
  let limit := match maxLength with Some n => n | None => 200 end in
  let summary := deepgram_manager.extractSummary transcript maxLength in
  (Z.of_nat (String.length transcript) <= limit -> summary = transcript) /\
  (limit < Z.of_nat (String.length transcript) ->
   exists kept rest,
     summary = (kept ++ "...")%string /\
     transcript = (kept ++ rest)%string /\
     Z.of_nat (String.length kept) <= Z.max 0 limit /\
     (Z.of_nat (String.length kept) < Z.max 0 limit ->
      kept <> EmptyString /\
      exists tail,
        rest = String " " tail /\
        deepgram_manager.lastIndexOf " "
          (substring 0 (Z.to_nat limit - String.length kept - 1) tail) =
        -1) /\
     (Z.of_nat (String.length kept) = Z.max 0 limit ->
      deepgram_manager.lastIndexOf " " kept <= 0)) /\
  Z.of_nat (String.length summary) <=
    Z.max (Z.of_nat (String.length transcript)) (Z.max 0 limit + 3).
Proof.
  cbv zeta. unfold deepgram_manager.extractSummary.
  set (limit := match maxLength with Some n => n | None => 200 end).
  destruct (Z.leb_spec (Z.of_nat (String.length transcript)) limit)
    as [Hshort | Hlong].
  - split; [reflexivity | ]. split; lia.
  - set (truncated := substring 0 (Z.to_nat limit) transcript).
    set (rest0 := substring (Z.to_nat limit)
                    (String.length transcript - Z.to_nat limit) transcript).
    assert (Hsplit : transcript = (truncated ++ rest0)%string)
      by apply substring_split.
    assert (Hlen : String.length truncated = Z.to_nat limit).
    { unfold truncated. rewrite substring_0_length. lia. }
    pose proof (lastIndexOf_range " " truncated) as Hrange.
    destruct (Z.ltb_spec 0 (deepgram_manager.lastIndexOf " " truncated))
      as [Hspace | Hnospace].
    + destruct (@lastIndexOf_split " " truncated) as (tail & Htr & Htail);
        [lia | ].
      set (kept := substring 0
                     (Z.to_nat (deepgram_manager.lastIndexOf " " truncated))
                     truncated) in *.
      assert (Hkept : String.length kept =
                      Z.to_nat (deepgram_manager.lastIndexOf " " truncated)).
      { unfold kept. rewrite substring_0_length. lia. }
      assert (Htail_len : (String.length truncated =
                           String.length kept + S (String.length tail))%nat).
      { rewrite Htr at 1. rewrite append_length. reflexivity. }
      split; [lia | ]. split.
      * intros _. exists kept, (String " " (tail ++ rest0)).
        split; [reflexivity | ]. split.
        -- transitivity ((kept ++ String " " tail) ++ rest0)%string.
           ++ rewrite <- Htr. exact Hsplit.
           ++ rewrite append_assoc. reflexivity.
        -- split; [lia | ]. split; [ | lia].
           intros _. split.
           ++ intros E. rewrite E in Hkept. cbn in Hkept. lia.
           ++ exists (tail ++ rest0)%string. split; [reflexivity | ].
              replace (Z.to_nat limit - String.length kept - 1)%nat
                with (String.length tail) by lia.
              rewrite substring_0_app. exact Htail.
      * rewrite append_length. cbn [String.length]. lia.
    + split; [lia | ]. split.
      * intros _. exists truncated, rest0.
        split; [reflexivity | ]. split; [exact Hsplit | ].
        split; [lia | ]. split; [lia | ]. intros _. exact Hnospace.
      * rewrite append_length. cbn [String.length]. lia.
Qed.

(** A transcript of 21 characters and a limit of 10: the summary is a
    start of the transcript of at most 10 characters, and the dots. *)
Lemma extractSummary_cuts_at_the_last_space_witness :
  exists kept rest,
    deepgram_manager.extractSummary "The call was recorded" (Some 10) =
      (kept ++ "...")%string /\
    "The call was recorded" = (kept ++ rest)%string /\
    Z.of_nat (String.length kept) <= 10.
Proof.
  destruct (extractSummary_cuts_at_the_last_space "The call was recorded"
              (Some 10)) as (_ & Hcut & _).
  destruct Hcut as (kept & rest & Hsummary & Htranscript & Hlength & _);
    [vm_compute; reflexivity | ].
  exists kept, rest.
  split; [exact Hsummary | ]. split; [exact Htranscript | exact Hlength].
Defined.
End Summary.

(** ** [calculateAverageConfidence] *)





(** ** [calculateConversationStats] *)

Section Maps.
Context {V : Type}.

Lemma keys_set (key : Z) (value : V) (m : JsMap.t V) :
  JsMap.keys (JsMap.set key value m) = JsSet.add key (JsMap.keys m).
Proof.
  induction m as [| [k v] m IH]; cbn; [reflexivity | ].
  destruct (k =? key); cbn; [reflexivity | ].
  f_equal. exact IH.
Qed.

Lemma get_set (key key' : Z) (value : V) (m : JsMap.t V) :
  JsMap.get key (JsMap.set key' value m) =
  if key' =? key then Some value else JsMap.get key m.
Proof.
  induction m as [| [k v] m IH]; cbn; [reflexivity | ].
  destruct (Z.eqb_spec k key') as [-> | Hk]; cbn.
  - destruct (key' =? key); reflexivity.
  - rewrite IH. destruct (Z.eqb_spec k key) as [-> | Hk'].
    + destruct (Z.eqb_spec key' key); [congruence | reflexivity].
    + reflexivity.
Qed.
End Maps.

Lemma add_In (x value : Z) (s : JsSet.t) :
  In x (JsSet.add value s) <-> x = value \/ In x s.
Proof.
  induction s as [| v s IH]; cbn.
  - intuition congruence.
  - destruct (Z.eqb_spec v value) as [-> | Hv]; cbn.
    + intuition congruence.
    + rewrite IH. intuition congruence.
Qed.

Lemma add_NoDup (value : Z) (s : JsSet.t) :
  NoDup s -> NoDup (JsSet.add value s).
Proof.
  induction 1 as [| v s Hnotin Hs IH]; cbn.
  - constructor; [intros [] | constructor].
  - destruct (Z.eqb_spec v value) as [-> | Hv].
    + now constructor.
    + constructor; [ | exact IH].
      rewrite add_In. intros [-> | Hin]; [now apply Hv | now apply Hnotin].
Qed.

Lemma adds_spec (array : list Z) :
  forall s : JsSet.t,
    NoDup s ->
    NoDup (fold_left (fun s value => JsSet.add value s) array s) /\
    forall x,
      In x (fold_left (fun s value => JsSet.add value s) array s) <->
      In x s \/ In x array.
Proof.
  induction array as [| value array IH]; intros s Hs; cbn [fold_left].
  - split; [exact Hs | ]. intros x. cbn. tauto.
  - destruct (IH (JsSet.add value s) (add_NoDup value Hs)) as [Hnodup Hin].
    split; [exact Hnodup | ]. intros x. rewrite Hin, add_In. cbn.
    intuition congruence.
Qed.

Lemma turn_durations (utterances : list DeepgramUtterance.t) :
  map deepgram_manager.turn_duration
    (deepgram_manager.extractSpeakerTurns utterances) =
  map (fun u =>
         Number.sub (DeepgramUtterance.end_ u) (DeepgramUtterance.start u))
    utterances.
Proof.
  unfold deepgram_manager.extractSpeakerTurns. rewrite map_map. reflexivity.
Qed.

(** The [forEach] of [calculateConversationStats], from any values of
    its two variables. *)
Lemma count_utterances (utterances : list DeepgramUtterance.t) :
  forall (m : JsMap.t Number.t) (t : Number.t),
    let duration u :=
      Number.sub (DeepgramUtterance.end_ u) (DeepgramUtterance.start u) in
    let acc :=
      fold_left deepgram_manager.count_utterance utterances (m, t) in
    snd acc = fold_left Number.add (map duration utterances) t /\
    JsMap.keys (fst acc) =
      fold_left (fun s value => JsSet.add value s)
        (map DeepgramUtterance.speaker utterances) (JsMap.keys m) /\
    forall speaker,
      JsMap.get speaker (fst acc) =
      spoken speaker utterances (JsMap.get speaker m).
Proof.
  induction utterances as [| u utterances IH]; intros m t; cbv zeta.
  - cbn [fold_left fst snd map]. unfold spoken. cbn [filter fold_left].
    repeat split.
  - cbn [fold_left map deepgram_manager.count_utterance].
    destruct (IH (JsMap.set (DeepgramUtterance.speaker u)
                    (Number.add
                       (Number.or_zero
                          (JsMap.get (DeepgramUtterance.speaker u) m))
                       (Number.sub (DeepgramUtterance.end_ u)
                          (DeepgramUtterance.start u)))
                    m)
                (Number.add t
                   (Number.sub (DeepgramUtterance.end_ u)
                      (DeepgramUtterance.start u))))
      as (Ht & Hk & Hg).
    split; [exact Ht | ]. split.
    + rewrite Hk, keys_set. reflexivity.
    + intros speaker. rewrite Hg, get_set. unfold spoken. cbn [filter].
      destruct (Z.eqb_spec (DeepgramUtterance.speaker u) speaker)
        as [-> | Hne]; reflexivity.
Qed.

(** X18.  [calculateConversationStats] adds in the order of the talk:
    the total duration is the durations of the speaker turns
    ([extractSpeakerTurns] of the same utterances) added one after the
    other to [0], and the duration kept for a speaker is the durations
    of that speaker's utterances added one after the other, in
    floating point both.  The speakers of the map are the speakers of
    the utterances, each once, in the order of their first utterance:
    [speakerCount] is the size of the [Set] of the speakers, and a
    speaker who said nothing has no entry. *)
Theorem calculateConversationStats_adds_in_the_order_of_the_talk
    (utterances : list DeepgramUtterance.t) :
  let stats := deepgram_manager.calculateConversationStats utterances in
  let speakers := map DeepgramUtterance.speaker utterances in
  deepgram_manager.totalDuration stats =
    added_up
      (map deepgram_manager.turn_duration
         (deepgram_manager.extractSpeakerTurns utterances)) /\
  JsMap.keys (deepgram_manager.speakerDurations stats) = JsSet.new speakers /\
  deepgram_manager.speakerCount stats = JsSet.size (JsSet.new speakers) /\
  NoDup (JsMap.keys (deepgram_manager.speakerDurations stats)) /\
  (forall speaker,
     In speaker (JsMap.keys (deepgram_manager.speakerDurations stats)) <->
     In speaker speakers) /\
  (forall speaker,
     JsMap.get speaker (deepgram_manager.speakerDurations stats) =
     spoken speaker utterances None) /\
  (forall speaker,
     ~ In speaker speakers -> spoken speaker utterances None = None).
Proof.
  cbv zeta. unfold deepgram_manager.calculateConversationStats.
  pose proof (count_utterances utterances [] Number.zero) as H.
  cbv zeta in H. unfold JsMap.t in *. revert H.
  match goal with
  | |- context [@fold_left ?A ?B deepgram_manager.count_utterance ?l ?i] =>
      destruct (@fold_left A B deepgram_manager.count_utterance l i) as [m t]
  end.
  cbn [fst snd]. intros (Ht & Hk & Hg).
  cbn [deepgram_manager.totalDuration deepgram_manager.speakerCount
       deepgram_manager.speakerDurations].
  change (JsMap.keys (@nil (Z * Number.t))) with (@nil Z) in Hk.
  destruct (adds_spec (map DeepgramUtterance.speaker utterances)
              (NoDup_nil Z)) as [Hnodup Hin].
  fold (JsSet.new (map DeepgramUtterance.speaker utterances)) in Hk, Hnodup, Hin.
  split; [rewrite Ht, turn_durations; reflexivity | ].
  split; [exact Hk | ].
  split; [unfold JsMap.size, JsSet.size; rewrite <- Hk;
          unfold JsMap.keys; now rewrite length_map | ].
  split; [rewrite Hk; exact Hnodup | ].
  split; [intros speaker; rewrite Hk, Hin; cbn; tauto | ].
  split; [exact Hg | ].
  intros speaker Hnot. unfold spoken.
  replace (filter (fun u => DeepgramUtterance.speaker u =? speaker)
             utterances) with (@nil DeepgramUtterance.t); [reflexivity | ].
  symmetry. clear - Hnot.
  induction utterances as [| u utterances IH]; [reflexivity | ].
  cbn [filter map] in *.
  destruct (Z.eqb_spec (DeepgramUtterance.speaker u) speaker) as [E | _].
  - exfalso. apply Hnot. left. exact E.
  - apply IH. intros Hin. apply Hnot. right. exact Hin.
Qed.

(* ================================================================== *)
(** * From the service to the envelope *)
(* ================================================================== *)

(** ** A manager method of one request, as the facade sees it *)

Section LoggedRequest.
Context {W T R : Type}.
Variable method : M W R.
Variable request : Op W T.
Variable answer : T -> R.
Hypothesis method_request : one_request method request answer.

Lemma logged_request_run (w : W) (log : trace) :
  call (logged method) (w, log) =
  (match fst (request w) with
   | Fulfilled v => Fulfilled (answer v)
   | Rejected e => Rejected e
   end, (snd (request w), log), []).
Proof.
  rewrite call_run, logged_run. cbn [fst snd].
  rewrite (method_request w). cbn [fst snd]. rewrite app_nil_r.
  reflexivity.
Qed.

Lemma logged_request_outcomes (n : nat) :
  forall (w : W) (log : trace),
    outcomes (call (logged method)) n (w, log) =
    map (fun r => match r with
                  | Fulfilled v => Fulfilled (answer v)
                  | Rejected e => Rejected e
                  end)
      (outcomes (call request) n w).
Proof.
  induction n as [| n IH]; intros w log; [reflexivity | ].
  rewrite !outcomes_S, logged_request_run, call_run. cbn [fst snd map].
  rewrite IH. reflexivity.
Qed.

Lemma logged_request_state_after (n : nat) :
  forall (w : W) (log : trace),
    state_after (call (logged method)) n (w, log) =
    (state_after (call request) n w, log).
Proof.
  induction n as [| n IH]; intros w log; [reflexivity | ].
  rewrite !state_after_S, logged_request_run, call_run. cbn [fst snd].
  apply IH.
Qed.

Lemma logged_request_fails_then_succeeds (w : W) (log : trace)
    (reasons : list thrown) (v : T) :
  fails_then_succeeds (call request) w reasons v ->
  fails_then_succeeds (call (logged method)) (w, log) reasons (answer v).
Proof.
  unfold fails_then_succeeds. intros H.
  rewrite logged_request_outcomes, H, map_app, map_map. reflexivity.
Qed.
End LoggedRequest.

(** ** A guarded method over such a manager method *)

Section ComesThrough.
Context {I W T R D : Type} `{Clock W}.
Variable params : I -> RetryParams.
Variable operationName : string.
Variable payload : R -> D.
Variable op : I -> Op (W * trace) R.
Variable method : M W R.
Variable request : Op W T.
Variable answer : T -> R.
Variable i : I.
Hypothesis method_request : one_request method request answer.
Hypothesis op_method : op i = logged method.

Lemma guarded_ungated_comes_through :
  comes_through (guarded params None op operationName payload) request i
    (fun _ _ => True) (p_maxRetries (params i))
    (fun v => payload (answer v)) None.
Proof.
  intros w log reasons v _ Hf Hle.
  pose proof (logged_request_fails_then_succeeds method_request log Hf)
    as H'.
  rewrite <- op_method in H'.
  pose proof (engine_counting_success params op operationName 0 i H' Hle)
    as Erun.
  unfold guarded.
  rewrite (@enveloped_ungated _ _ _ _ _ payload _ i _ _ _ _ _ Erun).
  rewrite op_method, (logged_request_state_after method_request).
  replace (0 + Z.of_nat (S (length reasons)))
    with (Z.of_nat (length reasons) + 1) by lia.
  do 2 eexists. reflexivity.
Qed.

(** The manager takes no time of its own: a run over it takes the time
    of the requests to the service and of the waits. *)
Lemma logged_request_run_time (p : RetryParams) (w : W) (log : trace)
    (k : nat) :
  (run_time p (logged method) (w, log) k == run_time p request w k)%Q.
Proof.
  unfold run_time.
  rewrite (logged_request_state_after method_request).
  unfold now at 1 2, logged_clock. cbn [fst snd]. ring.
Qed.

Variable b : Lens I CircuitBreaker.t.
Hypothesis b_lawful : lawful b.

Lemma guarded_gated_comes_through :
  comes_through (guarded params (Some b) op operationName payload) request
    i (in_time (view b i) (params i) request) (p_maxRetries (params i))
    (fun v => payload (answer v)) (Some "false").
Proof.
  intros w log reasons v [Hclosed Htime] Hf Hle.
  pose proof (logged_request_fails_then_succeeds method_request log Hf)
    as H'.
  rewrite <- op_method in H'.
  pose proof (engine_counting_success params op operationName 0 i H' Hle)
    as Erun.
  unfold guarded.
  rewrite (@enveloped_through _ _ _ _ _ payload _ b b_lawful i _ _ _ _ _
             Hclosed Erun).
  rewrite elapsed_run_time by exact Hle.
  unfold CircuitBreaker.verdict.
  rewrite op_method,
    (late_Qeq _ (logged_request_run_time (params i) w log (length reasons))),
    Htime.
  cbn zeta. unfold CircuitBreaker.opened at 1.
  rewrite (succeed_closes _ Hclosed). cbn [String_of_bool].
  rewrite (logged_request_state_after method_request).
  replace (0 + Z.of_nat (S (length reasons)))
    with (Z.of_nat (length reasons) + 1) by lia.
  do 2 eexists. reflexivity.
Qed.
End ComesThrough.

(** ** The speakers of a transcription *)

Lemma new_size_bounds (array : list Z) :
  (JsSet.size (JsSet.new array) <= length array)%nat /\
  (array <> [] -> (1 <= JsSet.size (JsSet.new array))%nat).
Proof.
  destruct (adds_spec array (NoDup_nil Z)) as [Hnodup Hin].
  fold (JsSet.new array) in Hnodup, Hin. unfold JsSet.size. split.
  - apply NoDup_incl_length; [exact Hnodup | ].
    intros x Hx. apply Hin in Hx. destruct Hx as [[] | Hx]. exact Hx.
  - destruct array as [| value array]; [intros H; now contradiction H | ].
    intros _. assert (Hvalue : In value (JsSet.new (value :: array))).
    { apply Hin. right. left. reflexivity. }
    destruct (JsSet.new (value :: array)); [destruct Hvalue | cbn; lia].
Qed.

Lemma stats_speakerCount (utterances : list DeepgramUtterance.t) :
  deepgram_manager.speakerCount
    (deepgram_manager.calculateConversationStats utterances) =
  JsSet.size (JsSet.new (map DeepgramUtterance.speaker utterances)).
Proof.
  unfold deepgram_manager.calculateConversationStats.
  pose proof (count_utterances utterances [] Number.zero) as H.
  cbv zeta in H.
  unfold JsMap.t in *. revert H.
  match goal with
  | |- context [@fold_left ?A ?B deepgram_manager.count_utterance ?l ?i] =>
      destruct (@fold_left A B deepgram_manager.count_utterance l i) as [m t]
  end.
  cbn [fst snd deepgram_manager.speakerCount]. intros (_ & Hk & _).
  change (JsMap.keys (@nil (Z * Number.t))) with (@nil Z) in Hk.
  unfold JsMap.size, JsSet.size, JsSet.new. rewrite <- Hk.
  unfold JsMap.keys. now rewrite length_map.
Qed.

(** X19.  [transcribeWithInsights] of the manager makes one request to
    the service, for the recording, and settles as it does.  It asks
    for diarization, utterances, sentiment, smart formatting and
    punctuation whatever the flags of the configuration say.  The
    number of speakers it answers with is the number of distinct
    speakers of the utterances, the [speakerCount]
    [calculateConversationStats] finds in them: no more than there are
    utterances, and at least one when there are any; the utterances come
    back one for one, and the sentiment is always [undefined], asked for
    as it was. *)
Theorem transcribeWithInsights_counts_the_speakers (W Response Buffer : Type)
    (this : @deepgram_manager.t W Response Buffer) (recordingUrl : string) :
  one_request (deepgram_manager.transcribeWithInsights this recordingUrl)
    (DeepgramService.transcribeFromUrlSimplified
       (deepgram_manager.service this)
       {| TranscribeUrlRequest.url := recordingUrl;
          TranscribeUrlRequest.options :=
            Some (deepgram_manager.insight_options this) |})
    deepgram_manager.insights /\
  (let options := deepgram_manager.insight_options this in
   DeepgramTranscriptionOptions.diarize options = Some true /\
   DeepgramTranscriptionOptions.utterances options = Some true /\
   DeepgramTranscriptionOptions.sentiment options = Some true /\
   DeepgramTranscriptionOptions.smart_format options = Some true /\
   DeepgramTranscriptionOptions.punctuate options = Some true) /\
  (forall result,
     let heard :=
       deepgram_manager.or_empty (TranscriptionResult.utterances result) in
     let found := deepgram_manager.insights result in
     Insights.speakers found =
       deepgram_manager.speakerCount
         (deepgram_manager.calculateConversationStats heard) /\
     (Insights.speakers found <= length heard)%nat /\
     (heard <> [] -> (1 <= Insights.speakers found)%nat) /\
     map InsightUtterance.speaker (Insights.utterances found) =
       map DeepgramUtterance.speaker heard /\
     Insights.sentiment found = None).
Proof.
  split; [apply call_then_one_request | ].
  split; [cbv zeta; cbn; repeat split | ].
  intros result. cbv zeta.
  assert (Hspeakers :
    deepgram_manager.or_empty
      (option_map (map DeepgramUtterance.speaker)
         (TranscriptionResult.utterances result)) =
    map DeepgramUtterance.speaker
      (deepgram_manager.or_empty (TranscriptionResult.utterances result))).
  { destruct (TranscriptionResult.utterances result); reflexivity. }
  unfold deepgram_manager.insights.
  cbn [Insights.speakers Insights.utterances Insights.sentiment].
  rewrite Hspeakers, stats_speakerCount.
  destruct (new_size_bounds
              (map DeepgramUtterance.speaker
                 (deepgram_manager.or_empty
                    (TranscriptionResult.utterances result))))
    as [Hle Hge].
  rewrite length_map in Hle.
  split; [reflexivity | ]. split; [exact Hle | ]. split.
  - intros Hsome. apply Hge. intros Hnil. apply Hsome.
    now apply map_eq_nil in Hnil.
  - split; [ | reflexivity].
    destruct (TranscriptionResult.utterances result) as [us | ];
      [ | reflexivity].
    cbn [option_map deepgram_manager.or_empty]. rewrite map_map. reflexivity.
Qed.

(** A conversation of three utterances by two speakers. *)
Lemma transcribeWithInsights_counts_the_speakers_witness :
  let found :=
    deepgram_manager.insights
      (Transcript.result Transcript.sure [] (Some Transcript.conversation)) in
  (1 <= Insights.speakers found <= 3)%nat /\
  Insights.speakers found =
    deepgram_manager.speakerCount
      (deepgram_manager.calculateConversationStats Transcript.conversation).
Proof.
  cbv zeta.
  destruct (@transcribeWithInsights_counts_the_speakers nat unit unit
              (Transcript.manager 0) "https://rec/1.mp3")
    as (_ & _ & Hfound).
  destruct (Hfound (Transcript.result Transcript.sure []
                      (Some Transcript.conversation)))
    as (Hcount & Hle & Hge & _).
  split; [split; [apply Hge; discriminate | exact Hle] | exact Hcount].
Defined.

(** ** The facades over their managers *)

(** X20.  The Deepgram facade over the manager over the service, when
    the breaker is not open: a request to the service that is rejected
    no more often than retries are allowed and then fulfilled, all of it
    before the deadline of the breaker (the requests and the waits in
    between take less than its timeout), comes through.  Each of the
    four transcribe methods answers with the success envelope,
    [circuitBreakerState: "false"] and the number of requests made as
    [retryCount]; its data are what the manager makes of the result of
    the service (the response of [transcribeRecording], the insights of
    [transcribeWithInsights], the result itself of the other two); the
    service has been asked that often, each time the same, and nothing
    else has been done to the world. *)
Theorem transcriptions_come_through_the_facade (W Response Buffer : Type)
    `{Clock W} (manager : @deepgram_manager.t W Response Buffer)
    (this : @DeepgramResilient.t (W * trace)
              (deepgram_types Response Buffer)) :
  DeepgramResilient.manager this = as_deepgram_manager manager ->
  let retries := orZ (maxRetries (DeepgramResilient.config this)) 3 in
  let service := deepgram_manager.service manager in
  let breaker := DeepgramResilient.transcribeBreaker this in
  (forall request : TranscribeRecordingRequest.t,
     let asked :=
       DeepgramService.transcribeFromUrlSimplified service
         {| TranscribeUrlRequest.url :=
              TranscribeRecordingRequest.recordingUrl request;
            TranscribeUrlRequest.options :=
              Some (deepgram_manager.recording_options manager request) |} in
     comes_through
       (@DeepgramResilient.transcribeRecording (W * trace) _
          (deepgram_types Response Buffer) request)
       asked this (in_time breaker (deepgram_params this) asked) retries
       deepgram_manager.recording_response (Some "false")) /\
  (forall url (options : option DeepgramTranscriptionOptions.t),
     let asked :=
       DeepgramService.transcribeFromUrl service
         {| TranscribeUrlRequest.url := url;
            TranscribeUrlRequest.options :=
              Some (deepgram_manager.url_options manager options) |} in
     comes_through
       (@DeepgramResilient.transcribeUrl (W * trace) _
          (deepgram_types Response Buffer) url options)
       asked this (in_time breaker (deepgram_params this) asked) retries
       (fun result => result) (Some "false")) /\
  (forall recordingUrl,
     let asked :=
       DeepgramService.transcribeFromUrlSimplified service
         {| TranscribeUrlRequest.url := recordingUrl;
            TranscribeUrlRequest.options :=
              Some (deepgram_manager.insight_options manager) |} in
     comes_through
       (@DeepgramResilient.transcribeWithInsights (W * trace) _
          (deepgram_types Response Buffer) recordingUrl)
       asked this (in_time breaker (deepgram_params this) asked) retries
       deepgram_manager.insights (Some "false")) /\
  (forall (buffer : Buffer) (options : option DeepgramTranscriptionOptions.t),
     let asked :=
       DeepgramService.transcribeBuffer service buffer
         (deepgram_manager.buffer_options manager options) in
     comes_through
       (@DeepgramResilient.transcribeBuffer (W * trace) _
          (deepgram_types Response Buffer) buffer options)
       asked this (in_time breaker (deepgram_params this) asked) retries
       (fun result => result) (Some "false")).
Proof.
  intros Hm. cbv zeta.
  split; [ | split; [ | split]].
  - intros request. rewrite transcribeRecording_shape.
    apply (@guarded_gated_comes_through _ _ _ _ _ _ deepgram_params
             "transcribeRecording" (fun result => result) _
             (deepgram_manager.transcribeRecording manager request) _
             deepgram_manager.recording_response this
             (call_then_one_request _ _));
      [now rewrite Hm | apply transcribeBreakerL_lawful].
  - intros url options. rewrite transcribeUrl_shape.
    apply (@guarded_gated_comes_through _ _ _ _ _ _ deepgram_params
             "transcribeUrl" (fun result => result) _
             (deepgram_manager.transcribeUrl manager url options) _
             (fun result => result) this (call_one_request _));
      [now rewrite Hm | apply transcribeBreakerL_lawful].
  - intros recordingUrl. rewrite transcribeWithInsights_shape.
    apply (@guarded_gated_comes_through _ _ _ _ _ _ deepgram_params
             "transcribeWithInsights" (fun result => result) _
             (deepgram_manager.transcribeWithInsights manager recordingUrl) _
             deepgram_manager.insights this (call_then_one_request _ _));
      [now rewrite Hm | apply transcribeBreakerL_lawful].
  - intros buffer options. rewrite transcribeBuffer_shape.
    apply (@guarded_gated_comes_through _ _ _ _ _ _ deepgram_params
             "transcribeBuffer" (fun result => result) _
             (deepgram_manager.transcribeBuffer manager buffer options) _
             (fun result => result) this (call_one_request _));
      [now rewrite Hm | apply transcribeBreakerL_lawful].
Qed.

(** The service rejects two requests and answers the third, some six
    seconds in all: the insights come back with [retryCount: 3], after
    three requests. *)
Lemma transcriptions_come_through_the_facade_witness :
  exists this' tr,
    DeepgramResilient.transcribeWithInsights "https://rec/1.mp3"
      (DeepgramResilient.constructor Fixture.unset
         (as_deepgram_manager (Transcript.manager 2)), (0%nat, [])) =
    (Fulfilled
       (success_envelope
          (deepgram_manager.insights
             (Transcript.result Transcript.sure
                [Transcript.heard "Hello" Transcript.one]
                (Some Transcript.conversation)))
          3 (Some "false")),
     (this', (3%nat, [])), tr).
Proof.
  destruct (@transcriptions_come_through_the_facade nat unit unit _
              (Transcript.manager 2)
              (DeepgramResilient.constructor Fixture.unset
                 (as_deepgram_manager (Transcript.manager 2)))
              eq_refl) as (_ & _ & Hinsights & _).
  destruct (Hinsights "https://rec/1.mp3" 0%nat [] [Fixture.boom; Fixture.boom]
              (Transcript.result Transcript.sure
                 [Transcript.heard "Hello" Transcript.one]
                 (Some Transcript.conversation)))
    as (this' & tr & E).
  - split; reflexivity.
  - reflexivity.
  - vm_compute. discriminate.
  - exists this', tr. exact E.
Defined.

(** X21.  The Plivo facade over the manager over the service: a request
    to the service that is rejected no more often than retries are
    allowed and then fulfilled comes through, when the breaker of the
    method is not open and the requests and the waits in between are
    over before its deadline.  [initiateRecordedCall] and [makeCall]
    (under the [makeCall] breaker) answer with the success envelope of
    the response of the service, the number of requests made as
    [retryCount]; the call request, the same each time, goes to the
    number asked for and has nothing left empty.  [getCallDetails]
    (under its breaker) answers with the details of the service, and
    [terminateCall], with no breaker and no deadline, with the message
    of the service and no [circuitBreakerState]. *)
Theorem calls_come_through_the_facade (W : Type) `{Clock W}
    (encodeURIComponent : string -> string) (manager : @plivo_manager.t W)
    (this : @PlivoResilient.t (W * trace) GetCallDetailsResponse.t) :
  PlivoResilient.manager this = as_manager encodeURIComponent manager ->
  let retries := orZ (maxRetries (PlivoResilient.config this)) 3 in
  let service := plivo_manager.service manager in
  (forall request, exists callRequest,
     let asked := PlivoService.makeCall service callRequest in
     filled_in (plivo_manager.config manager) callRequest /\
     MakeCallRequest.to callRequest = InitiateRecordedCallRequest.to request
     /\
     comes_through (PlivoResilient.initiateRecordedCall request) asked this
       (in_time (PlivoResilient.makeCallBreaker this) (plivo_params this)
          asked)
       retries
       (fun response =>
          {| InitiatedCall.callUuid := MakeCallResponse.request_uuid response;
             InitiatedCall.message := MakeCallResponse.message response;
             InitiatedCall.apiId := MakeCallResponse.api_id response |})
       (Some "false")) /\
  (forall to from answerUrl, exists callRequest,
     let asked := PlivoService.makeCall service callRequest in
     filled_in (plivo_manager.config manager) callRequest /\
     MakeCallRequest.to callRequest = to /\
     comes_through (PlivoResilient.makeCall to from answerUrl) asked this
       (in_time (PlivoResilient.makeCallBreaker this) (plivo_params this)
          asked)
       retries made (Some "false")) /\
  (forall callUuid,
     let asked := PlivoService.getCallDetails service callUuid in
     comes_through (PlivoResilient.getCallDetails callUuid) asked this
       (in_time (PlivoResilient.getCallDetailsBreaker this)
          (plivo_params this) asked)
       retries (fun details => details) (Some "false")) /\
  (forall callUuid,
     comes_through (PlivoResilient.terminateCall callUuid)
       (PlivoService.terminateCall service callUuid) this (fun _ _ => True)
       retries
       (fun result =>
          {| TerminatedCall.message := TerminateCallResult.message result |})
       None).
Proof.
  intros Hm. cbv zeta. split; [ | split; [ | split]].
  - intros request.
    destruct (initiateRecordedCall_request encodeURIComponent manager
                request) as (callRequest & Hone & Hto & _ & Hfilled).
    exists callRequest. split; [exact Hfilled | ]. split; [exact Hto | ].
    rewrite initiateRecordedCall_shape.
    apply (@guarded_gated_comes_through _ _ _ _ _ _ plivo_params
             "initiateRecordedCall" initiated _
             (plivo_manager.initiateRecordedCall encodeURIComponent manager
                request) _ _ this Hone);
      [now rewrite Hm | apply makeCallBreakerL_lawful].
  - intros to from answerUrl.
    destruct (makeCall_request manager to from answerUrl)
      as (callRequest & Hone & Hto & Hfilled).
    exists callRequest. split; [exact Hfilled | ]. split; [exact Hto | ].
    rewrite makeCall_shape.
    apply (@guarded_gated_comes_through _ _ _ _ _ _ plivo_params
             "makeCall" made _
             (plivo_manager.makeCall manager to from answerUrl) _ _ this
             Hone);
      [now rewrite Hm | apply makeCallBreakerL_lawful].
  - intros callUuid. rewrite getCallDetails_shape.
    apply (@guarded_gated_comes_through _ _ _ _ _ _ plivo_params
             "getCallDetails" (fun result => result) _
             (plivo_manager.getCallDetails manager callUuid) _
             (fun details => details) this (call_one_request _));
      [now rewrite Hm | apply getCallDetailsBreakerL_lawful].
  - intros callUuid. rewrite terminateCall_shape.
    apply (@guarded_ungated_comes_through _ _ _ _ _ _ plivo_params
             "terminateCall" terminated _
             (plivo_manager.terminateCall manager callUuid) _ _ this
             (call_then_one_request _ _)).
    now rewrite Hm.
Qed.

(** The service rejects two call requests and accepts the third, less
    than four seconds in all: [initiateRecordedCall] answers with the
    call, [retryCount: 3]. *)
Lemma calls_come_through_the_facade_witness :
  exists this' tr,
    PlivoResilient.initiateRecordedCall Fixture.request
      (PlivoResilient.constructor Fixture.unset
         (as_manager (fun s => s) (Telephony.over (Telephony.flaky 2))),
       (0%nat, [])) =
    (Fulfilled
       (success_envelope
          {| InitiatedCall.callUuid :=
               MakeCallResponse.request_uuid Fixture.made;
             InitiatedCall.message := MakeCallResponse.message Fixture.made;
             InitiatedCall.apiId := MakeCallResponse.api_id Fixture.made |}
          3 (Some "false")),
     (this', (3%nat, [])), tr).
Proof.
  destruct (@calls_come_through_the_facade nat _ (fun s => s)
              (Telephony.over (Telephony.flaky 2))
              (PlivoResilient.constructor Fixture.unset
                 (as_manager (fun s => s)
                    (Telephony.over (Telephony.flaky 2))))
              eq_refl) as (Hinitiate & _ & _).
  destruct (Hinitiate Fixture.request) as (callRequest & _ & _ & Hthrough).
  destruct (Hthrough 0%nat [] [Fixture.boom; Fixture.boom] Fixture.made)
    as (this' & tr & E).
  - split; reflexivity.
  - reflexivity.
  - vm_compute. discriminate.
  - exists this', tr. exact E.
Defined.

(* ================================================================== *)
(** * The clients of the application *)
(* ================================================================== *)

Lemma truthy_spec (x : option string) :
  truthy x = true <-> exists value, x = Some value /\ value <> EmptyString.
Proof.
  destruct x as [[| c s] | ]; cbn; split;
    try discriminate; try reflexivity.
  - intros (value & E & Hvalue). injection E as <-. now contradiction Hvalue.
  - intros _. eexists. split; [reflexivity | discriminate].
  - intros (value & E & _). discriminate.
Qed.

Lemma the_filled (x : option string) :
  truthy x = true -> the x <> EmptyString.
Proof.
  intros H. apply truthy_spec in H as (value & -> & Hvalue). exact Hvalue.
Qed.

Section Getters.
Context {W Response Buffer : Type}.
Variable encodeURIComponent : string -> string.
Variable newPlivoService : string -> string -> PlivoService.t W.
Variable newDeepgramService :
  string -> DeepgramService.t W Response Buffer.

Local Notation "'state'" := (@getters.t W Response Buffer).

(** The test [getPlivoClient] makes of the environment. *)
Lemma plivo_configured_test (env : Env.t) :
  getters.plivo_configured env <->
  negb (truthy (Env.PLIVO_AUTH_ID env)) ||
  negb (truthy (Env.PLIVO_AUTH_TOKEN env)) ||
  negb (truthy (Env.PLIVO_PHONE_NUMBER env)) ||
  negb (truthy (orO (Env.APP_BASE_URL env)
                  (Env.NEXT_PUBLIC_APP_BASE_URL env))) = false.
Proof.
  unfold getters.plivo_configured. split.
  - intros H.
    rewrite (proj2 (truthy_spec _) (H _ (or_introl eq_refl))).
    rewrite (proj2 (truthy_spec _) (H _ (or_intror (or_introl eq_refl)))).
    rewrite (proj2 (truthy_spec _)
               (H _ (or_intror (or_intror (or_introl eq_refl))))).
    rewrite (proj2 (truthy_spec _)
               (H _ (or_intror (or_intror (or_intror (or_introl eq_refl)))))).
    reflexivity.
  - intros H variable Hin. apply truthy_spec.
    destruct (truthy (Env.PLIVO_AUTH_ID env)) eqn:E1; [ | discriminate].
    destruct (truthy (Env.PLIVO_AUTH_TOKEN env)) eqn:E2; [ | discriminate].
    destruct (truthy (Env.PLIVO_PHONE_NUMBER env)) eqn:E3;
      [ | discriminate].
    destruct (truthy (orO (Env.APP_BASE_URL env)
                        (Env.NEXT_PUBLIC_APP_BASE_URL env))) eqn:E4;
      [ | discriminate].
    destruct Hin as [<- | [<- | [<- | [<- | []]]]]; assumption.
Qed.

Lemma getPlivoClient_lazy :
  getters.lazy_singleton
    (getters.getPlivoClient encodeURIComponent newPlivoService)
    (@getters.plivoClient W Response Buffer)
    (@getters.deepgramClient W Response Buffer)
    getters.plivo_configured getters.missing_plivo.
Proof.
  split; [ | split].
  - intros env [plivo deepgram] Hnone Hnot. cbn in Hnone. subst plivo.
    unfold getters.getPlivoClient, bind, gets. cbn [getters.plivoClient].
    destruct (_ || _ || _ || _) eqn:E; [reflexivity | ].
    contradiction Hnot. now apply plivo_configured_test.
  - intros env [plivo deepgram] Hnone Hyes. cbn in Hnone. subst plivo.
    apply plivo_configured_test in Hyes.
    unfold getters.getPlivoClient, bind, gets. cbn [getters.plivoClient].
    rewrite Hyes. cbn. do 2 eexists.
    split; [reflexivity | ]. split; reflexivity.
  - intros env [plivo deepgram] kept Hkept. cbn in Hkept. subst plivo.
    reflexivity.
Qed.

Lemma getDeepgramClient_lazy :
  getters.lazy_singleton (getters.getDeepgramClient newDeepgramService)
    (@getters.deepgramClient W Response Buffer)
    (@getters.plivoClient W Response Buffer)
    getters.deepgram_configured getters.missing_deepgram.
Proof.
  split; [ | split].
  - intros env [plivo deepgram] Hnone Hnot. cbn in Hnone. subst deepgram.
    unfold getters.getDeepgramClient, bind, gets.
    cbn [getters.deepgramClient].
    destruct (truthy (Env.DEEPGRAM_API_KEY env)) eqn:E; [ | reflexivity].
    contradiction Hnot. now apply truthy_spec.
  - intros env [plivo deepgram] Hnone Hyes. cbn in Hnone. subst deepgram.
    apply truthy_spec in Hyes.
    unfold getters.getDeepgramClient, bind, gets.
    cbn [getters.deepgramClient].
    rewrite Hyes. cbn. do 2 eexists.
    split; [reflexivity | ]. split; reflexivity.
  - intros env [plivo deepgram] kept Hkept. cbn in Hkept. subst deepgram.
    reflexivity.
Qed.

Lemma getPlivoClient_made (env : Env.t) (st st' : state)
    (made : getters.Plivo) :
  getters.plivoClient st = None ->
  getters.getPlivoClient encodeURIComponent newPlivoService env st =
    (Fulfilled made, st', []) ->
  CircuitBreaker.opened (PlivoResilient.makeCallBreaker made) = false /\
  CircuitBreaker.opened (PlivoResilient.getCallDetailsBreaker made) = false
  /\
  orZ (maxRetries (PlivoResilient.config made)) 3 = 3 /\
  exists managerConfig,
    PlivoResilient.manager made =
      as_manager encodeURIComponent
        (plivo_manager.constructor newPlivoService managerConfig) /\
    PlivoManagerConfig.authId managerConfig <> EmptyString /\
    PlivoManagerConfig.authToken managerConfig <> EmptyString /\
    PlivoManagerConfig.defaultPhoneNumber managerConfig <> EmptyString /\
    PlivoManagerConfig.appBaseUrl managerConfig <> EmptyString.
Proof.
  destruct st as [plivo deepgram]. cbn [getters.plivoClient].
  intros -> H.
  unfold getters.getPlivoClient, bind, gets in H.
  cbn [getters.plivoClient] in H.
  destruct (truthy (Env.PLIVO_AUTH_ID env)) eqn:E1;
    [ | cbn in H; discriminate].
  destruct (truthy (Env.PLIVO_AUTH_TOKEN env)) eqn:E2;
    [ | cbn in H; discriminate].
  destruct (truthy (Env.PLIVO_PHONE_NUMBER env)) eqn:E3;
    [ | cbn in H; discriminate].
  destruct (truthy (orO (Env.APP_BASE_URL env)
                      (Env.NEXT_PUBLIC_APP_BASE_URL env))) eqn:E4;
    [ | cbn in H; discriminate].
  cbn [negb orb] in H. unfold modify, ret in H. cbn [app] in H.
  injection H as <- _.
  split; [reflexivity | ]. split; [reflexivity | ].
  split; [reflexivity | ].
  eexists. split; [reflexivity | ].
  cbn [PlivoManagerConfig.authId PlivoManagerConfig.authToken
       PlivoManagerConfig.defaultPhoneNumber PlivoManagerConfig.appBaseUrl].
  split; [now apply the_filled | ]. split; [now apply the_filled | ].
  split; now apply the_filled.
Qed.

Lemma getDeepgramClient_made (env : Env.t) (st st' : state)
    (made : getters.Deepgram) :
  getters.deepgramClient st = None ->
  getters.getDeepgramClient newDeepgramService env st =
    (Fulfilled made, st', []) ->
  CircuitBreaker.opened (DeepgramResilient.transcribeBreaker made) = false
  /\
  orZ (maxRetries (DeepgramResilient.config made)) 3 = 3 /\
  exists managerConfig,
    DeepgramResilient.manager made =
      as_deepgram_manager
        (deepgram_manager.constructor newDeepgramService managerConfig) /\
    DeepgramManagerConfig.apiKey managerConfig <> EmptyString.
Proof.
  destruct st as [plivo deepgram]. cbn [getters.deepgramClient].
  intros -> H.
  unfold getters.getDeepgramClient, bind, gets in H.
  cbn [getters.deepgramClient] in H.
  destruct (truthy (Env.DEEPGRAM_API_KEY env)) eqn:E;
    [ | cbn in H; discriminate].
  cbn [negb] in H. unfold modify, ret in H. cbn [app] in H.
  injection H as <- _.
  split; [reflexivity | ]. split; [reflexivity | ].
  eexists. split; [reflexivity | ].
  cbn [DeepgramManagerConfig.apiKey]. now apply the_filled.
Qed.
End Getters.

(** X22.  The two getters of [clients.ts] are lazy and keep what they
    have made.  While the module has no client, a getter throws when a
    variable it needs is not set or is empty ([APP_BASE_URL] may be
    replaced by [NEXT_PUBLIC_APP_BASE_URL]), and changes nothing; when
    they are all there it makes a client, keeps it, and leaves the other
    client alone.  Once it has a client it returns that one, whatever
    the environment has become: it neither reads the environment again
    nor throws.  The client made starts with its breakers not open and
    three retries, and its service is never made of empty credentials.
    [resetClients] leaves the module without clients. *)
Theorem clients_are_made_once (W Response Buffer : Type)
    (encodeURIComponent : string -> string)
    (newPlivoService : string -> string -> PlivoService.t W)
    (newDeepgramService : string -> DeepgramService.t W Response Buffer) :
  getters.lazy_singleton
    (getters.getPlivoClient encodeURIComponent newPlivoService)
    (@getters.plivoClient W Response Buffer)
    (@getters.deepgramClient W Response Buffer)
    getters.plivo_configured getters.missing_plivo /\
  getters.lazy_singleton (getters.getDeepgramClient newDeepgramService)
    (@getters.deepgramClient W Response Buffer)
    (@getters.plivoClient W Response Buffer)
    getters.deepgram_configured getters.missing_deepgram /\
  (forall env (st st' : @getters.t W Response Buffer) made,
     getters.plivoClient st = None ->
     getters.getPlivoClient encodeURIComponent newPlivoService env st =
       (Fulfilled made, st', []) ->
     CircuitBreaker.opened (PlivoResilient.makeCallBreaker made) = false /\
     CircuitBreaker.opened (PlivoResilient.getCallDetailsBreaker made) = false
     /\
     orZ (maxRetries (PlivoResilient.config made)) 3 = 3 /\
     exists managerConfig,
       PlivoResilient.manager made =
         as_manager encodeURIComponent
           (plivo_manager.constructor newPlivoService managerConfig) /\
       PlivoManagerConfig.authId managerConfig <> EmptyString /\
       PlivoManagerConfig.authToken managerConfig <> EmptyString /\
       PlivoManagerConfig.defaultPhoneNumber managerConfig <> EmptyString /\
       PlivoManagerConfig.appBaseUrl managerConfig <> EmptyString) /\
  (forall env (st st' : @getters.t W Response Buffer) made,
     getters.deepgramClient st = None ->
     getters.getDeepgramClient newDeepgramService env st =
       (Fulfilled made, st', []) ->
     CircuitBreaker.opened (DeepgramResilient.transcribeBreaker made) = false
     /\
     orZ (maxRetries (DeepgramResilient.config made)) 3 = 3 /\
     exists managerConfig,
       DeepgramResilient.manager made =
         as_deepgram_manager
           (deepgram_manager.constructor newDeepgramService managerConfig) /\
       DeepgramManagerConfig.apiKey managerConfig <> EmptyString) /\
  (forall st : @getters.t W Response Buffer,
     getters.resetClients st = (Fulfilled tt, getters.initial, [])).
Proof.
  split; [apply getPlivoClient_lazy | ].
  split; [apply getDeepgramClient_lazy | ].
  split; [intros env st st' made; apply getPlivoClient_made | ].
  split; [intros env st st' made; apply getDeepgramClient_made | ].
  intros st. reflexivity.
Qed.

(** The client made while the variables were set is the one returned
    after they have gone. *)
Lemma clients_are_made_once_witness :
  exists made st,
    getters.getPlivoClient (Response := unit) (Buffer := unit) (fun s => s)
      (fun _ _ => Telephony.unrecorded) Deployment.env getters.initial =
      (Fulfilled made, st, []) /\
    getters.getPlivoClient (fun s => s) (fun _ _ => Telephony.unrecorded)
      Deployment.unset st = (Fulfilled made, st, []).
Proof.
  destruct (@clients_are_made_once nat unit unit (fun s => s)
              (fun _ _ => Telephony.unrecorded)
              (fun _ => Transcript.service 0))
    as ((_ & Hmake & Hkept) & _).
  destruct (Hmake Deployment.env getters.initial eq_refl)
    as (made & st & E & Hclient & _).
  - intros variable [<- | [<- | [<- | [<- | []]]]];
      eexists; (split; [reflexivity | discriminate]).
  - exists made, st. split; [exact E | ]. apply Hkept. exact Hclient.
Defined.

(* ================================================================== *)
(** * The XML of the manager and the answer route *)
(* ================================================================== *)

(** X23.  The three XML methods of the manager write their document
    around what they are given, as it is.  Every document starts with
    the XML declaration and the opening of [Response] and ends with its
    closing.  The text of [generateSpeakXML] and the reason of
    [generateHangupXML] stand in the document unchanged, between a
    start and an end that do not depend on them: nothing is escaped.
    An empty reason is no reason.  The [Record] element of
    [generateRecordingXML] always has the attributes [method],
    [fileFormat], [redirect], [timeout], [maxLength] and [playBeep], the
    defaults where the options say nothing ([POST], [mp3], [true], [4],
    [3600], [true]); it has an [action], standing unchanged, when
    [action], or else [callbackUrl], is given and not empty. *)
Theorem xml_is_written_around_what_it_is_given :
  (forall options,
     (exists rest,
        plivo_xml.generateRecordingXML options =
        (plivo_xml.declaration ++ rest)%string) /\
     (exists start,
        plivo_xml.generateRecordingXML options =
        (start ++ "</Response>")%string)) /\
  (forall text voice,
     (exists rest,
        plivo_xml.generateSpeakXML text voice =
        (plivo_xml.declaration ++ rest)%string) /\
     (exists start,
        plivo_xml.generateSpeakXML text voice =
        (start ++ "</Response>")%string)) /\
  (forall reason,
     (exists rest,
        plivo_xml.generateHangupXML reason =
        (plivo_xml.declaration ++ rest)%string) /\
     (exists start,
        plivo_xml.generateHangupXML reason =
        (start ++ "  <Hangup/>" ++ newline ++ "</Response>")%string)) /\
  (forall voice, exists before after,
     forall text,
       plivo_xml.generateSpeakXML text voice =
       (before ++ text ++ after)%string) /\
  (exists before after,
     forall reason,
       reason <> EmptyString ->
       plivo_xml.generateHangupXML (Some reason) =
       (before ++ reason ++ after)%string) /\
  plivo_xml.generateHangupXML (Some EmptyString) =
    plivo_xml.generateHangupXML None /\
  (forall options,
     let given := plivo_xml.or_default options RecordXMLOptions.empty in
     exists before after,
       plivo_xml.generateRecordingXML options =
       (before ++
        plivo_xml.attribute "method"
          (String_of_method
             (plivo_xml.or_default (RecordXMLOptions.method given)
                (plivo_xml.or_default (RecordXMLOptions.callbackMethod given)
                   POST))) ++
        plivo_xml.attribute "fileFormat"
          (String_of_format
             (plivo_xml.or_default (RecordXMLOptions.fileFormat given) mp3)) ++
        plivo_xml.attribute "redirect"
          (String_of_bool
             (plivo_xml.or_default (RecordXMLOptions.redirect given) true)) ++
        plivo_xml.attribute "timeout"
          (String_of_number
             (plivo_xml.or_default (RecordXMLOptions.timeout given) 4)) ++
        plivo_xml.attribute "maxLength"
          (String_of_number
             (plivo_xml.or_default (RecordXMLOptions.maxLength given) 3600)) ++
        plivo_xml.attribute "playBeep"
          (String_of_bool
             (plivo_xml.or_default (RecordXMLOptions.playBeep given) true)) ++
        after)%string /\
       forall action,
         action <> EmptyString ->
         RecordXMLOptions.action given = Some action \/
         RecordXMLOptions.action given = None /\
         RecordXMLOptions.callbackUrl given = Some action ->
         exists start,
           before = (start ++ plivo_xml.attribute "action" action)%string).
Proof.
  split; [ | split; [ | split; [ | split; [ | split; [ | split]]]]].
  - intros options. split.
    + unfold plivo_xml.generateRecordingXML. cbv zeta.
      repeat match goal with
             | |- context [if ?c then _ else _] => destruct c
             | |- context [match ?x with Some _ => _ | None => _ end] =>
                 destruct x
             end;
        rewrite !append_assoc; eexists; reflexivity.
    + unfold plivo_xml.generateRecordingXML. cbv zeta.
      eexists. reflexivity.
  - intros text voice. split.
    + unfold plivo_xml.generateSpeakXML. cbv zeta.
      destruct (truthy voice); rewrite !append_assoc; eexists; reflexivity.
    + unfold plivo_xml.generateSpeakXML. cbv zeta. eexists. reflexivity.
  - intros reason. split.
    + unfold plivo_xml.generateHangupXML. cbv zeta.
      destruct (truthy reason); rewrite !append_assoc; eexists; reflexivity.
    + unfold plivo_xml.generateHangupXML. cbv zeta.
      destruct (truthy reason).
      * exists (plivo_xml.declaration ++ "  <Speak>" ++ the reason ++
                "</Speak>" ++ newline)%string.
        rewrite !append_assoc. reflexivity.
      * exists plivo_xml.declaration. rewrite !append_assoc. reflexivity.
  - intros voice. unfold plivo_xml.generateSpeakXML. cbv zeta.
    destruct (truthy voice).
    + exists (plivo_xml.declaration ++ "  <Speak" ++
              plivo_xml.attribute "voice" (the voice) ++ ">")%string,
        ("</Speak>" ++ newline ++ "</Response>")%string.
      intros text. rewrite !append_assoc. reflexivity.
    + exists (plivo_xml.declaration ++ "  <Speak" ++ ">")%string,
        ("</Speak>" ++ newline ++ "</Response>")%string.
      intros text. rewrite !append_assoc. reflexivity.
  - exists (plivo_xml.declaration ++ "  <Speak>")%string,
      ("</Speak>" ++ newline ++ "  <Hangup/>" ++ newline ++ "</Response>")%string.
    intros reason Hreason. unfold plivo_xml.generateHangupXML. cbv zeta.
    destruct reason as [| c s]; [now contradiction Hreason | ].
    cbn [truthy the]. rewrite !append_assoc. reflexivity.
  - reflexivity.
  - intros options. cbv zeta.
    unfold plivo_xml.generateRecordingXML. cbv zeta.
    set (given := plivo_xml.or_default options RecordXMLOptions.empty).
    set (action := match RecordXMLOptions.action given with
                   | Some action => Some action
                   | None => RecordXMLOptions.callbackUrl given
                   end).
    exists ((plivo_xml.declaration ++
             "  <Speak>This call will be recorded for quality and training purposes.</Speak>"
             ++ newline ++ "  <Record") ++
            (if truthy action
             then plivo_xml.attribute "action" (the action)
             else EmptyString))%string.
    exists ((if truthy
                  (Some (plivo_xml.or_default
                           (RecordXMLOptions.finishOnKey given) "#"))
             then plivo_xml.attribute "finishOnKey"
                    (plivo_xml.or_default (RecordXMLOptions.finishOnKey given)
                       "#")
             else EmptyString) ++
            match RecordXMLOptions.transcriptionType given with
            | Some type =>
                plivo_xml.attribute "transcriptionType" (String_of_type type)
            | None => EmptyString
            end ++
            (if truthy (RecordXMLOptions.transcriptionUrl given)
             then plivo_xml.attribute "transcriptionUrl"
                    (the (RecordXMLOptions.transcriptionUrl given))
             else EmptyString) ++
            match RecordXMLOptions.transcriptionMethod given with
            | Some m =>
                plivo_xml.attribute "transcriptionMethod" (String_of_method m)
            | None => EmptyString
            end ++ "/>" ++ newline ++ "</Response>")%string.
    split.
    + destruct (truthy action);
        destruct (truthy
                    (Some (plivo_xml.or_default
                             (RecordXMLOptions.finishOnKey given) "#")));
        destruct (RecordXMLOptions.transcriptionType given);
        destruct (truthy (RecordXMLOptions.transcriptionUrl given));
        destruct (RecordXMLOptions.transcriptionMethod given);
        rewrite !append_assoc; reflexivity.
    + intros value Hvalue Hgiven.
      assert (Haction : action = Some value).
      { unfold action. destruct Hgiven as [-> | [-> ->]]; reflexivity. }
      rewrite Haction.
      destruct value as [| c s]; [now contradiction Hvalue | ].
      cbn [truthy the]. eexists. reflexivity.
Qed.

Section AnswerRoute.
Context {W Response Buffer : Type}.
Variable encodeURIComponent : string -> string.
Variable newPlivoService : string -> string -> PlivoService.t W.

Local Notation "'route'" :=
  (@answer_route.POST W Response Buffer encodeURIComponent
     newPlivoService).

(** The document of the route when it has a client. *)
Lemma route_recording_xml (recordingCallback : option string) :
  plivo_xml.generateRecordingXML
    (Some
       {| RecordXMLOptions.action := None;
          RecordXMLOptions.method := None;
          RecordXMLOptions.fileFormat := Some mp3;
          RecordXMLOptions.redirect := Some true;
          RecordXMLOptions.timeout := Some 4;
          RecordXMLOptions.maxLength := Some 3600;
          RecordXMLOptions.playBeep := Some true;
          RecordXMLOptions.finishOnKey := Some "#";
          RecordXMLOptions.transcriptionType := None;
          RecordXMLOptions.transcriptionUrl := None;
          RecordXMLOptions.transcriptionMethod := None;
          RecordXMLOptions.callbackUrl := orO recordingCallback None;
          RecordXMLOptions.callbackMethod := Some POST |}) =
  (plivo_xml.declaration ++
   "  <Speak>This call will be recorded for quality and training purposes.</Speak>"
   ++ newline ++ "  <Record" ++
   (if truthy recordingCallback
    then plivo_xml.attribute "action" (the recordingCallback)
    else EmptyString) ++
   plivo_xml.attribute "method" "POST" ++
   plivo_xml.attribute "fileFormat" "mp3" ++
   plivo_xml.attribute "redirect" "true" ++
   plivo_xml.attribute "timeout" "4" ++
   plivo_xml.attribute "maxLength" "3600" ++
   plivo_xml.attribute "playBeep" "true" ++
   plivo_xml.attribute "finishOnKey" "#" ++
   "/>" ++ newline ++ "</Response>")%string.
Proof.
  destruct recordingCallback as [[| c s] | ]; [reflexivity | | reflexivity].
  cbv [plivo_xml.generateRecordingXML plivo_xml.or_default orO truthy the
       RecordXMLOptions.action RecordXMLOptions.method
       RecordXMLOptions.fileFormat RecordXMLOptions.redirect
       RecordXMLOptions.timeout RecordXMLOptions.maxLength
       RecordXMLOptions.playBeep RecordXMLOptions.finishOnKey
       RecordXMLOptions.transcriptionType RecordXMLOptions.transcriptionUrl
       RecordXMLOptions.transcriptionMethod RecordXMLOptions.callbackUrl
       RecordXMLOptions.callbackMethod].
  rewrite !append_assoc. reflexivity.
Qed.

(** The route when the client cannot be got. *)
Lemma route_without_client (recordingCallback : option string)
    (env : Env.t) (st : @getters.t W Response Buffer) :
  getters.plivoClient st = None ->
  ~ getters.plivo_configured env ->
  route recordingCallback env st =
  (Fulfilled (answer_route.xml_response answer_route.errorXml), st,
   [Console Error [Str "[Plivo Answer] Error:";
                   Err getters.missing_plivo]]).
Proof.
  intros Hnone Hnot.
  destruct (getPlivoClient_lazy encodeURIComponent newPlivoService
              (Response := Response) (Buffer := Buffer)) as (Hmissing & _).
  unfold answer_route.POST, try_catch, bind.
  rewrite (Hmissing env st Hnone Hnot). reflexivity.
Qed.

(** The route when there is a client, or one can be made. *)
Lemma route_with_client (recordingCallback : option string)
    (env : Env.t) (st : @getters.t W Response Buffer) :
  getters.plivoClient st <> None \/ getters.plivo_configured env ->
  exists client st',
    route recordingCallback env st =
    (Fulfilled
       (answer_route.xml_response
          (plivo_xml.declaration ++
           "  <Speak>This call will be recorded for quality and training purposes.</Speak>"
           ++ newline ++ "  <Record" ++
           (if truthy recordingCallback
            then plivo_xml.attribute "action" (the recordingCallback)
            else EmptyString) ++
           plivo_xml.attribute "method" "POST" ++
           plivo_xml.attribute "fileFormat" "mp3" ++
           plivo_xml.attribute "redirect" "true" ++
           plivo_xml.attribute "timeout" "4" ++
           plivo_xml.attribute "maxLength" "3600" ++
           plivo_xml.attribute "playBeep" "true" ++
           plivo_xml.attribute "finishOnKey" "#" ++
           "/>" ++ newline ++ "</Response>")%string),
     st', []) /\
    getters.plivoClient st' = Some client /\
    getters.deepgramClient st' = getters.deepgramClient st /\
    (forall kept, getters.plivoClient st = Some kept -> st' = st).
Proof.
  intros Hcan.
  destruct (getPlivoClient_lazy encodeURIComponent newPlivoService
              (Response := Response) (Buffer := Buffer))
    as (_ & Hmake & Hkept).
  unfold answer_route.POST, try_catch, bind.
  destruct (getters.plivoClient st) as [kept | ] eqn:Hclient.
  - rewrite (Hkept env st kept Hclient).
    exists kept, st. unfold ret. cbn [app].
    rewrite route_recording_xml.
    split; [reflexivity | ]. split; [exact Hclient | ].
    split; [reflexivity | ]. intros _ _. reflexivity.
  - destruct Hcan as [Hsome | Hconfigured]; [now contradiction Hsome | ].
    destruct (Hmake env st Hclient Hconfigured)
      as (made & st' & E & Hmade & Hother).
    rewrite E. exists made, st'. unfold ret. cbn [app].
    rewrite route_recording_xml.
    split; [reflexivity | ]. split; [exact Hmade | ].
    split; [exact Hother | ]. intros kept Hk. discriminate.
Qed.
End AnswerRoute.

Lemma plivo_configured_dec (env : Env.t) :
  getters.plivo_configured env \/ ~ getters.plivo_configured env.
Proof.
  destruct (negb (truthy (Env.PLIVO_AUTH_ID env)) ||
            negb (truthy (Env.PLIVO_AUTH_TOKEN env)) ||
            negb (truthy (Env.PLIVO_PHONE_NUMBER env)) ||
            negb (truthy (orO (Env.APP_BASE_URL env)
                            (Env.NEXT_PUBLIC_APP_BASE_URL env)))) eqn:E.
  - right. intros H. apply plivo_configured_test in H. congruence.
  - left. now apply plivo_configured_test.
Qed.

(** X24.  The route [/api/plivo/answer] always answers with XML: it
    never rejects, the status is [200] and the content type
    [application/xml], whatever the request, the environment and the
    module hold; [GET] does what [POST] does.  When there is no client
    and the environment does not allow to make one, the route logs the
    error and answers with the hang-up document,
    [generateHangupXML] of its apology, and the module stays without
    client.  Otherwise it logs nothing, the module has a Plivo client
    afterwards (the one it had, if it had one) and the Deepgram client
    is left alone; the answer is the recording document: the
    announcement and a [Record] element with [method="POST"],
    [fileFormat="mp3"], [redirect="true"], [timeout="4"],
    [maxLength="3600"], [playBeep="true"] and [finishOnKey="#"], and
    before them, when the request has a [recording_callback] that is
    not empty, that callback, unchanged, as [action]. *)
Theorem answer_route_always_answers_with_xml (W Response Buffer : Type)
    (encodeURIComponent : string -> string)
    (newPlivoService : string -> string -> PlivoService.t W)
    (recordingCallback : option string) (env : Env.t)
    (st : @getters.t W Response Buffer) :
  let run :=
    answer_route.POST encodeURIComponent newPlivoService recordingCallback
      env st in
  answer_route.GET encodeURIComponent newPlivoService recordingCallback env
    st = run /\
  (exists response st' tr,
     run = (Fulfilled response, st', tr) /\
     NextResponse.status response = 200 /\
     NextResponse.headers response = [("Content-Type", "application/xml")])
  /\
  (getters.plivoClient st = None ->
   ~ getters.plivo_configured env ->
   run =
   (Fulfilled
      (answer_route.xml_response
         (plivo_xml.generateHangupXML
            (Some "We're sorry, there was an error processing your call."))),
    st,
    [Console Error [Str "[Plivo Answer] Error:";
                    Err getters.missing_plivo]])) /\
  (getters.plivoClient st <> None \/ getters.plivo_configured env ->
   exists client st',
     run =
     (Fulfilled
        (answer_route.xml_response
           (plivo_xml.declaration ++
            "  <Speak>This call will be recorded for quality and training purposes.</Speak>"
            ++ newline ++ "  <Record" ++
            (if truthy recordingCallback
             then plivo_xml.attribute "action" (the recordingCallback)
             else EmptyString) ++
            plivo_xml.attribute "method" "POST" ++
            plivo_xml.attribute "fileFormat" "mp3" ++
            plivo_xml.attribute "redirect" "true" ++
            plivo_xml.attribute "timeout" "4" ++
            plivo_xml.attribute "maxLength" "3600" ++
            plivo_xml.attribute "playBeep" "true" ++
            plivo_xml.attribute "finishOnKey" "#" ++
            "/>" ++ newline ++ "</Response>")%string),
      st', []) /\
     getters.plivoClient st' = Some client /\
     getters.deepgramClient st' = getters.deepgramClient st /\
     (forall kept, getters.plivoClient st = Some kept -> st' = st)).
Proof.
  cbv zeta.
  assert (Hwithout :
    getters.plivoClient st = None ->
    ~ getters.plivo_configured env ->
    answer_route.POST encodeURIComponent newPlivoService recordingCallback
      env st =
    (Fulfilled
       (answer_route.xml_response
          (plivo_xml.generateHangupXML
             (Some "We're sorry, there was an error processing your call."))),
     st,
     [Console Error [Str "[Plivo Answer] Error:";
                     Err getters.missing_plivo]])).
  { intros Hnone Hnot.
    rewrite (@route_without_client W Response Buffer encodeURIComponent
               newPlivoService recordingCallback env st Hnone Hnot).
    reflexivity. }
  pose proof (@route_with_client W Response Buffer encodeURIComponent
                newPlivoService recordingCallback env st) as Hwith.
  split; [reflexivity | ]. split; [ | split; [exact Hwithout | exact Hwith]].
  destruct (getters.plivoClient st) as [kept | ] eqn:Hclient.
  - destruct Hwith as (client & st' & E & _); [left; discriminate | ].
    rewrite E. do 3 eexists. split; [reflexivity | ]. split; reflexivity.
  - destruct (plivo_configured_dec env) as [Hyes | Hno].
    + destruct Hwith as (client & st' & E & _); [now right | ].
      rewrite E. do 3 eexists. split; [reflexivity | ]. split; reflexivity.
    + rewrite (Hwithout eq_refl Hno). do 3 eexists.
      split; [reflexivity | ]. split; reflexivity.
Qed.

(** No variable set: the apology, and the module as it was.  Every
    variable set and a callback in the request: the module gets its
    client and the callback is the [action]. *)
Lemma answer_route_always_answers_with_xml_witness :
  answer_route.POST (Response := unit) (Buffer := unit) (fun s => s)
    (fun _ _ => Telephony.unrecorded) None Deployment.unset getters.initial =
  (Fulfilled
     (answer_route.xml_response
        (plivo_xml.generateHangupXML
           (Some "We're sorry, there was an error processing your call."))),
   getters.initial,
   [Console Error [Str "[Plivo Answer] Error:";
                   Err getters.missing_plivo]]) /\
  exists client st',
    fst (fst (answer_route.POST (Response := unit) (Buffer := unit)
                (fun s => s) (fun _ _ => Telephony.unrecorded)
                (Some "https://app.example/done") Deployment.env
                getters.initial)) =
    Fulfilled
      (answer_route.xml_response
         (plivo_xml.declaration ++
          "  <Speak>This call will be recorded for quality and training purposes.</Speak>"
          ++ newline ++ "  <Record" ++
          plivo_xml.attribute "action" "https://app.example/done" ++
          plivo_xml.attribute "method" "POST" ++
          plivo_xml.attribute "fileFormat" "mp3" ++
          plivo_xml.attribute "redirect" "true" ++
          plivo_xml.attribute "timeout" "4" ++
          plivo_xml.attribute "maxLength" "3600" ++
          plivo_xml.attribute "playBeep" "true" ++
          plivo_xml.attribute "finishOnKey" "#" ++
          "/>" ++ newline ++ "</Response>")%string) /\
    snd (fst (answer_route.POST (Response := unit) (Buffer := unit)
                (fun s => s) (fun _ _ => Telephony.unrecorded)
                (Some "https://app.example/done") Deployment.env
                getters.initial)) = st' /\
    getters.plivoClient st' = Some client.
Proof.
  split.
  - destruct (@answer_route_always_answers_with_xml nat unit unit
                (fun s => s) (fun _ _ => Telephony.unrecorded) None
                Deployment.unset getters.initial) as (_ & _ & Hwithout & _).
    apply Hwithout; [reflexivity | ].
    intros H. destruct (H None) as (value & E & _); [ | discriminate].
    left. reflexivity.
  - destruct (@answer_route_always_answers_with_xml nat unit unit
                (fun s => s) (fun _ _ => Telephony.unrecorded)
                (Some "https://app.example/done") Deployment.env
                getters.initial) as (_ & _ & _ & Hwith).
    destruct Hwith as (client & st' & E & Hclient & _).
    + right. intros variable [<- | [<- | [<- | [<- | []]]]];
        eexists; (split; [reflexivity | discriminate]).
    + exists client, st'. rewrite E.
      split; [reflexivity | ]. split; [reflexivity | exact Hclient].
Defined.

(* ================================================================== *)
(** * The deadline of a breaker *)
(* ================================================================== *)

Section LateRuns.
Context {I W T D : Type} `{Clock W}.
Variable params : I -> RetryParams.
Variable operationName : string.
Variable payload : T -> D.
Variable b : Lens I CircuitBreaker.t.
Hypothesis b_lawful : lawful b.

Lemma guarded_late_success_times_out (op : I -> Op W T) :
  late_success_times_out
    (guarded params (Some b) op operationName payload) b op params.
Proof.
  intros i w reasons v Hclosed Hf Hle Hlate.
  pose proof (engine_counting_success params op operationName 0 i Hf Hle)
    as Erun.
  unfold guarded.
  rewrite (@enveloped_through _ _ _ _ _ payload _ b b_lawful i _ _ _ _ _
             Hclosed Erun).
  rewrite elapsed_run_time by exact Hle.
  unfold CircuitBreaker.verdict. rewrite Hlate. cbn zeta.
  do 4 eexists. split; [reflexivity | ].
  rewrite b_lawful, fail_window. repeat split.
Qed.
End LateRuns.

(** X25.  A success that comes too late is not returned.  When the
    breaker of the method is not open and the delegate fails [k] times,
    [k <= maxRetries], and then succeeds, but the [k + 1] calls of the
    delegate and the [k] waits in between take as long as the timeout of
    the breaker or longer, each of the seven methods under a breaker
    answers with [success: false] and the error of the timeout
    ([Timed out after ...ms]), no [data], no [retryCount], and
    [circuitBreakerState] as the breaker is then; the breaker has
    counted one failure. *)
Theorem a_late_success_is_answered_with_the_timeout (W G : Type) `{Clock W}
    (D : DeepgramTypes.t) :
  (forall request,
     late_success_times_out
       (@PlivoResilient.initiateRecordedCall W G _ request)
       PlivoResilient.makeCallBreakerL
       (fun this =>
          PlivoManager.initiateRecordedCall (PlivoResilient.manager this)
            request)
       plivo_params) /\
  (forall to from answerUrl,
     late_success_times_out
       (@PlivoResilient.makeCall W G _ to from answerUrl)
       PlivoResilient.makeCallBreakerL
       (fun this =>
          PlivoManager.makeCall (PlivoResilient.manager this) to from
            answerUrl)
       plivo_params) /\
  (forall callUuid,
     late_success_times_out
       (@PlivoResilient.getCallDetails W G _ callUuid)
       PlivoResilient.getCallDetailsBreakerL
       (fun this =>
          PlivoManager.getCallDetails (PlivoResilient.manager this) callUuid)
       plivo_params) /\
  (forall request,
     late_success_times_out
       (@DeepgramResilient.transcribeRecording W _ D request)
       DeepgramResilient.transcribeBreakerL
       (fun this =>
          DeepgramManager.transcribeRecording (DeepgramResilient.manager this)
            request)
       deepgram_params) /\
  (forall url options,
     late_success_times_out
       (@DeepgramResilient.transcribeUrl W _ D url options)
       DeepgramResilient.transcribeBreakerL
       (fun this =>
          DeepgramManager.transcribeUrl (DeepgramResilient.manager this) url
            options)
       deepgram_params) /\
  (forall recordingUrl,
     late_success_times_out
       (@DeepgramResilient.transcribeWithInsights W _ D recordingUrl)
       DeepgramResilient.transcribeBreakerL
       (fun this =>
          DeepgramManager.transcribeWithInsights
            (DeepgramResilient.manager this) recordingUrl)
       deepgram_params) /\
  (forall buffer options,
     late_success_times_out
       (@DeepgramResilient.transcribeBuffer W _ D buffer options)
       DeepgramResilient.transcribeBreakerL
       (fun this =>
          DeepgramManager.transcribeBuffer (DeepgramResilient.manager this)
            buffer options)
       deepgram_params).
Proof.
  repeat split; intros.
  - rewrite initiateRecordedCall_shape.
    exact (guarded_late_success_times_out plivo_params _ _
             makeCallBreakerL_lawful _).
  - rewrite makeCall_shape.
    exact (guarded_late_success_times_out plivo_params _ _
             makeCallBreakerL_lawful _).
  - rewrite getCallDetails_shape.
    exact (guarded_late_success_times_out plivo_params _ _
             getCallDetailsBreakerL_lawful _).
  - rewrite transcribeRecording_shape.
    exact (guarded_late_success_times_out deepgram_params _ _
             transcribeBreakerL_lawful _).
  - rewrite transcribeUrl_shape.
    exact (guarded_late_success_times_out deepgram_params _ _
             transcribeBreakerL_lawful _).
  - rewrite transcribeWithInsights_shape.
    exact (guarded_late_success_times_out deepgram_params _ _
             transcribeBreakerL_lawful _).
  - rewrite transcribeBuffer_shape.
    exact (guarded_late_success_times_out deepgram_params _ _
             transcribeBreakerL_lawful _).
Qed.

(** Calls of twelve seconds each: the details of the call come with the
    third, thirty-nine seconds after the method was called and nine
    after the deadline, and the answer is the timeout. *)
Lemma a_late_success_is_answered_with_the_timeout_witness :
  exists env this' w' tr,
    PlivoResilient.getCallDetails "call-1"
      (PlivoResilient.constructor Fixture.unset (Fixture.slowPlivoManager 2),
       Fixture.behind 0) =
    (Fulfilled env, (this', w'), tr) /\
    success env = false /\
    error env = Some (mkError "Timed out after 30000ms").
Proof.
  destruct (proj1 (proj2 (proj2
              (@a_late_success_is_answered_with_the_timeout Fixture.slow
                 string _ Fixture.types)))
              "call-1"
              (PlivoResilient.constructor Fixture.unset
                 (Fixture.slowPlivoManager 2))
              (Fixture.behind 0) [Fixture.boom; Fixture.boom] "completed")
    as (env & this' & w' & tr & E & Hfail & _ & Herror & _).
  - reflexivity.
  - reflexivity.
  - vm_compute. discriminate.
  - reflexivity.
  - exists env, this', w', tr. split; [exact E | ].
    split; [exact Hfail | exact Herror].
Defined.
